(** * Living Library: the catalog store of [living_lib2.py] and of
      [legacy/living_lib.py]

    The two scripts keep a spreadsheet in a pandas [DataFrame] and answer
    four queries over it.  This development embeds the methods of the class
    [LivingLibrary] of both scripts and proves their behaviour.

    Modelling conventions.
    - A Python [str] is a [string].  The string methods of the model
      ([lower], [strip], [int], the length, matching without regard to
      case) are those of Python on ASCII text; a statement that depends
      on them says that the text is ASCII ([PyStr.is_ascii]).
    - A cell of a text column is [option string]: a [str], or [None] for
      pandas' [NaN].  A column of numbers is not a value of the model.
    - A frame is either the frame without columns that a failed load
      leaves, or a table with the expected columns, given by the list of
      its rows in index order; the index is the default [RangeIndex], so
      labels are positions.  Asking the frame without columns for a column
      raises [KeyError].
    - A text column of a table with rows in which the reader found no
      string is of dtype float64, and its [.str] accessor raises
      [AttributeError]; so does that of the [Authors] column of a table
      without rows.
    - A number of the [Year] column is an integer of an [int64] column or
      a float of whole value that [str] prints without an exponent.
    - Objects live in a heap of frames; standard output is a list of the
      strings handed to [print].
    - The regular-expression library is modelled on a fragment of its
      pattern grammar; beyond the fragment it is a parameter.
    - Standard input is the list of the lines still to be read; the
      [while True] loops of [main] carry a bound on their rounds, which the
      proofs show is never reached once it exceeds the number of lines. *)

From Stdlib Require Import String Ascii List ZArith Bool Lia Arith.
From Stdlib Require Import DecimalString Sorted.
Import ListNotations.

Local Open Scope string_scope.
Local Open Scope Z_scope.

(** ** Python strings *)

Module PyStr.

(** [c.lower()] on an ASCII character. *)
Definition lower_char (c : ascii) : ascii :=
  let n := nat_of_ascii c in
  if (andb (Nat.leb 65 n) (Nat.leb n 90)) then ascii_of_nat (n + 32) else c.

(** [s.lower()]. *)
Fixpoint lower (s : string) : string :=
  match s with
  | EmptyString => EmptyString
  | String c s' => String (lower_char c) (lower s')
  end.

(** [s.startswith(p)]. *)
Fixpoint startswith (p s : string) : bool :=
  match p, s with
  | EmptyString, _ => true
  | String _ _, EmptyString => false
  | String a p', String b s' => andb (Ascii.eqb a b) (startswith p' s')
  end.

(** [p in s]: [p] occurs in [s] as a contiguous substring. *)
Fixpoint contains (p s : string) : bool :=
  match s with
  | EmptyString => startswith p EmptyString
  | String _ s' => orb (startswith p s) (contains p s')
  end.

(** [sep.join(xs)]. *)
Fixpoint join (sep : string) (xs : list string) : string :=
  match xs with
  | [] => EmptyString
  | [x] => x
  | x :: xs' => x ++ sep ++ join sep xs'
  end.

(** [s.replace(old, new)] for a non-empty [old]: the occurrences of [old]
    are found from the left and do not overlap.  [skip] counts the
    characters of an occurrence that are still to be dropped. *)
Fixpoint replace_from (old new : string) (skip : nat) (s : string) : string :=
  match s with
  | EmptyString => EmptyString
  | String c s' =>
      match skip with
      | S k => replace_from old new k s'
      | O =>
          if startswith old s
          then new ++ replace_from old new (Nat.pred (String.length old)) s'
          else String c (replace_from old new O s')
      end
  end.

Definition replace (old new s : string) : string := replace_from old new O s.

(** [s.endswith(p)]. *)
Definition endswith (p s : string) : bool :=
  let n := String.length s in
  let k := String.length p in
  andb (Nat.leb k n) (String.eqb (substring (n - k) k s) p).

(** [s[:n]]. *)
Definition take (n : nat) (s : string) : string := substring 0 n s.

(** The characters [int] skips around the numeral of an ASCII string:
    space, [\t], [\n], [\v], [\f], [\r]. *)
Definition is_space (c : ascii) : bool :=
  let n := nat_of_ascii c in
  orb (Nat.eqb n 32) (andb (Nat.leb 9 n) (Nat.leb n 13)).

Fixpoint lstrip (s : string) : string :=
  match s with
  | EmptyString => EmptyString
  | String c s' => if is_space c then lstrip s' else s
  end.

(** Right strip, by structural recursion: a character is kept when it is
    not a space or when something is kept after it. *)
Fixpoint rstrip (s : string) : string :=
  match s with
  | EmptyString => EmptyString
  | String c s' =>
      match rstrip s' with
      | EmptyString => if is_space c then EmptyString else String c EmptyString
      | r => String c r
      end
  end.

Definition strip (s : string) : string := rstrip (lstrip s).

(** [s.isascii()]. *)
Fixpoint is_ascii (s : string) : bool :=
  match s with
  | EmptyString => true
  | String c s' => andb (Nat.ltb (nat_of_ascii c) 128) (is_ascii s')
  end.

Definition digit_of (c : ascii) : option Z :=
  let n := nat_of_ascii c in
  if andb (Nat.leb 48 n) (Nat.leb n 57) then Some (Z.of_nat (n - 48)) else None.

Definition is_underscore (c : ascii) : bool := Ascii.eqb c "_"%char.

(** The digits of a base-10 numeral, read from the left with accumulator
    [acc].  [after_digit] tells whether the previous character was a digit:
    an underscore is accepted only between two digits. *)
Fixpoint digits (after_digit : bool) (acc : Z) (s : string) : option Z :=
  match s with
  | EmptyString => if after_digit then Some acc else None
  | String c s' =>
      match digit_of c with
      | Some d => digits true (10 * acc + d) s'
      | None =>
          if andb (is_underscore c) after_digit
          then match s' with
               | String c' _ =>
                   match digit_of c' with
                   | Some _ => digits false acc s'
                   | None => None
                   end
               | EmptyString => None
               end
          else None
      end
  end.

(** The number of digits in a numeral. *)
Fixpoint digit_count (s : string) : nat :=
  match s with
  | EmptyString => O
  | String c s' =>
      match digit_of c with
      | Some _ => S (digit_count s')
      | None => digit_count s'
      end
  end.

(** [sys.get_int_max_str_digits()]: the default bound on the digits that
    [int] converts. *)
Definition max_str_digits : nat := 4300.

(** [int(s)] on an ASCII string: [None] stands for [ValueError], which a
    malformed numeral raises and a numeral of more digits than the bound
    as well. *)
Definition int (s : string) : option Z :=
  if Nat.ltb max_str_digits (digit_count (strip s))
  then None
  else
    match strip s with
    | String "+"%char r => digits false 0 r
    | String "-"%char r => option_map Z.opp (digits false 0 r)
    | r => digits false 0 r
    end.

(** [str(n)] on an [int]. *)
Definition str_int (n : Z) : string := NilZero.string_of_int (Z.to_int n).

(** [s.rjust(w)]: pad with spaces on the left up to width [w]. *)
Fixpoint spaces (n : nat) : string :=
  match n with
  | O => EmptyString
  | S k => String " "%char (spaces k)
  end.

Definition rjust (w : nat) (s : string) : string :=
  spaces (w - String.length s) ++ s.

(** [f"{n:3d}"]. *)
Definition fmt_3d (n : Z) : string := rjust 3 (str_int n).

(** [ch * n] for a one-character string. *)
Fixpoint repeat_char (c : ascii) (n : nat) : string :=
  match n with
  | O => EmptyString
  | S k => String c (repeat_char c k)
  end.

End PyStr.

(** ** Exceptions and outcomes *)

Inductive exn_class : Type :=
| ValueError        (* also raised by [int] on a malformed numeral *)
| re_error          (* [re.error]: the pattern does not compile *)
| IndexError
| KeyError          (* the frame has no such column *)
| AttributeError    (* [.str] on a column that is not of object dtype *)
| OSError           (* the file cannot be opened or read *)
| ParserError.      (* the reader cannot parse the file *)

(** An exception object: its class and [str(e)]. *)
Record exn : Type := Exn { exn_cls : exn_class; exn_msg : string }.

Inductive outcome (A : Type) : Type :=
| Returns (a : A)
| Raises (e : exn).
Arguments Returns {A} a.
Arguments Raises {A} e.

(** ** The regular expressions of [re], on a fragment

    [Series.str.contains(pat, case=False, na=False)] leaves [regex] at its
    default [True]: [pat] is compiled by [re.compile(pat, re.IGNORECASE)]
    and a cell matches when [search] finds the pattern anywhere in it. *)

Module Re.

(** The characters with a meaning of their own in a pattern. *)
Definition special (c : ascii) : bool :=
  existsb (Ascii.eqb c)
    ["."; "^"; "$"; "*"; "+"; "?"; "{"; "}"; "["; "]"; "\"; "|"; "("; ")"]%char.

(** The fragment: a sequence of ordinary characters and dots. *)
Inductive atom : Type :=
| Lit (c : ascii)      (* an ordinary character matches itself *)
| AnyChar.             (* [.] matches any character but a newline *)

Fixpoint parse (pat : string) : option (list atom) :=
  match pat with
  | EmptyString => Some []
  | String c pat' =>
      match parse pat' with
      | None => None
      | Some p =>
          if Ascii.eqb c "."%char then Some (AnyChar :: p)
          else if special c then None
          else Some (Lit c :: p)
      end
  end.

(** One atom against one character, under [re.IGNORECASE]. *)
Definition atom_matches (a : atom) (c : ascii) : bool :=
  match a with
  | Lit x => Ascii.eqb (PyStr.lower_char x) (PyStr.lower_char c)
  | AnyChar => negb (Ascii.eqb c "010"%char)
  end.

(** The pattern matches a prefix of [s]. *)
Fixpoint match_here (p : list atom) (s : string) : bool :=
  match p, s with
  | [], _ => true
  | _ :: _, EmptyString => false
  | a :: p', String c s' => andb (atom_matches a c) (match_here p' s')
  end.

(** [pattern.search(s) is not None]. *)
Fixpoint search (p : list atom) (s : string) : bool :=
  match s with
  | EmptyString => match_here p EmptyString
  | String _ s' => orb (match_here p s) (search p s')
  end.

(** A pattern without special characters, and its atoms. *)
Fixpoint plain (pat : string) : bool :=
  match pat with
  | EmptyString => true
  | String c pat' => andb (negb (special c)) (plain pat')
  end.

Fixpoint lits (pat : string) : list atom :=
  match pat with
  | EmptyString => []
  | String c pat' => Lit c :: lits pat'
  end.

(** A repetition operator with nothing before it. *)
Definition leading_repeat (pat : string) : bool :=
  match pat with
  | String c _ => existsb (Ascii.eqb c) ["*"; "+"; "?"]%char
  | EmptyString => false
  end.

(** A compiled pattern, seen through [search]. *)
Definition matcher : Type := string -> bool.

(** [re.compile(pat, re.IGNORECASE)].  [beyond] is the library on the
    patterns that are outside the fragment. *)
Definition compile_ignorecase (beyond : string -> outcome matcher)
    (pat : string) : outcome matcher :=
  if leading_repeat pat
  then Raises (Exn re_error "nothing to repeat at position 0")
  else match parse pat with
       | Some p => Returns (search p)
       | None => beyond pat
       end.

End Re.

(** ** The data model *)

(** A cell of a text column: a string, or [NaN] for a blank. *)
Definition cell : Type := option string.

(** A cell of the [Year] column as the reader delivers it. *)
Inductive year_cell : Type :=
| YearNaN                  (* blank *)
| YearInt (n : Z) (fits : andb (Z.leb (- 2 ^ 63) n) (Z.ltb n (2 ^ 63)) = true)
                           (* an integer, in a column of dtype int64 *)
| YearFloat (n : Z) (exact : Z.leb (Z.abs n) (2 ^ 53) = true)
                           (* the float [n.0], in a numeric column with
                              blanks; [exact]: the integer is a float, and
                              one that [str] prints without an exponent *)
| YearStr (s : string).    (* text *)

(** The columns of the source table. *)
Record source_row : Type := {
  Title : cell;
  Subtitle : cell;
  Author_1 : cell;
  Author_2 : cell;
  Author_3 : cell;
  Author_4 : cell;
  Author_5 : cell;
  Type_ : cell;
  Format : cell;
  Topic : cell;
  Publisher : cell;
  Year : year_cell;
  Free_Download : option cell   (* [None]: the table has no such column *)
}.

(** A row after [load_library_data]: the columns [ID] and [Authors] are
    added to the source columns. *)
Record row : Type := {
  ID : Z;
  Authors : string;
  cols : source_row
}.

(** A [DataFrame]: [Blank] is [pd.DataFrame()], without columns and
    without rows; [Table rows] has the columns of the data model. *)
Inductive frame : Type :=
| Blank
| Table (rows : list row).

Definition rows_of (d : frame) : list row :=
  match d with
  | Blank => []
  | Table rows => rows
  end.

(** [str(v)] of a text cell and of a year cell. *)
Definition str_cell (c : cell) : string :=
  match c with
  | Some s => s
  | None => "nan"
  end.

Definition str_year (y : year_cell) : string :=
  match y with
  | YearNaN => "nan"
  | YearInt n _ => PyStr.str_int n
  | YearFloat n _ => PyStr.str_int n ++ ".0"
  | YearStr s => s
  end.

(** ** The world: a heap of frames and standard output *)

Definition loc : Type := nat.

Record world : Type := {
  heap : list frame;
  stdout : list string
}.

(** A computation runs in a world and returns or raises. *)
Definition M (A : Type) : Type := world -> outcome A * world.

Definition ret {A} (a : A) : M A := fun w => (Returns a, w).

Definition bind {A B} (m : M A) (k : A -> M B) : M B :=
  fun w =>
    match m w with
    | (Returns a, w') => k a w'
    | (Raises e, w') => (Raises e, w')
    end.

Notation "x <- m ;; k" := (bind m (fun x => k))
  (at level 61, m at next level, right associativity).
Notation "m ;;; k" := (bind m (fun _ => k))
  (at level 61, right associativity).

Definition raise {A} (e : exn) : M A := fun w => (Raises e, w).

Definition lift {A} (o : outcome A) : M A := fun w => (o, w).

(** [try: m  except <classes>: h]. *)
Definition try_except {A} (m : M A) (caught : exn_class -> bool)
    (h : exn -> M A) : M A :=
  fun w =>
    match m w with
    | (Returns a, w') => (Returns a, w')
    | (Raises e, w') => if caught (exn_cls e) then h e w' else (Raises e, w')
    end.

(** [except Exception]: every class of the model derives from it. *)
Definition any_Exception (_ : exn_class) : bool := true.

Definition is_ValueError (c : exn_class) : bool :=
  match c with
  | ValueError => true
  | _ => false
  end.

Definition print (s : string) : M unit :=
  fun w => (Returns tt, {| heap := heap w; stdout := stdout w ++ [s] |}).

(** A new object: its location is the next free one. *)
Definition alloc (d : frame) : M loc :=
  fun w => (Returns (length (heap w)),
            {| heap := heap w ++ [d]; stdout := stdout w |}).

(** The frame a reference points to. *)
Definition deref (l : loc) : M frame :=
  fun w => (Returns (nth l (heap w) Blank), w).

Fixpoint for_each {A} (xs : list A) (body : A -> M unit) : M unit :=
  match xs with
  | [] => ret tt
  | x :: xs' => body x ;;; for_each xs' body
  end.

(** ** pandas *)

Module Pandas.

(** [df[name]]: a column; the frame without columns has none. *)
Definition getitem {A} (name : string) (f : row -> A) (d : frame)
  : M (list A) :=
  match d with
  | Table rows => ret (map f rows)
  | Blank => raise (Exn KeyError ("'" ++ name ++ "'"))
  end.

(** [a | b] on two boolean series. *)
Definition mask_or (a b : list bool) : list bool :=
  map (fun xy => orb (fst xy) (snd xy)) (combine a b).

(** [df[mask]]: the rows whose mask bit is set, in index order. *)
Definition select (d : frame) (mask : list bool) : frame :=
  match d with
  | Table rows => Table (map fst (filter snd (combine rows mask)))
  | Blank => Blank
  end.

(** The column holds a string. *)
Definition holds_str (s : list cell) : bool :=
  existsb (fun c => match c with
                    | Some _ => true
                    | None => false
                    end) s.

Definition no_rows (s : list cell) : bool :=
  match s with
  | [] => true
  | _ :: _ => false
  end.

(** [series.str]: the accessor is there for a column of object dtype and
    raises on any other.  A column that holds a string is of object dtype.
    A column without one is of dtype float64, but for a column the reader
    filled ([reader]) in a table without rows, which is of object dtype;
    the [Authors] column of a table without rows is what [apply] returns
    on an empty frame, an empty series of dtype float64.  The text of the
    message is that of pandas 2; no statement depends on it. *)
Definition str_accessor (reader : bool) (s : list cell) : M (list cell) :=
  if orb (holds_str s) (andb reader (no_rows s))
  then ret s
  else raise (Exn AttributeError
                "Can only use .str accessor with string values!").

(** [series.str.contains(pat, case=False, na=False)]. *)
Definition str_contains (beyond : string -> outcome Re.matcher)
    (reader : bool) (s : list cell) (pat : string) : M (list bool) :=
  texts <- str_accessor reader s ;;
  m <- lift (Re.compile_ignorecase beyond pat) ;;
  ret (map (fun c => match c with
                     | Some x => m x
                     | None => false
                     end) texts).

(** [series.unique()]: the distinct values in order of first appearance. *)
Fixpoint unique (seen : list cell) (s : list cell) : list cell :=
  match s with
  | [] => []
  | c :: s' =>
      if existsb (fun x => match x, c with
                           | Some a, Some b => String.eqb a b
                           | None, None => true
                           | _, _ => false
                           end) seen
      then unique seen s'
      else c :: unique (c :: seen) s'
  end.

(** [df.empty]. *)
Definition empty (d : frame) : bool :=
  match d with
  | Table (_ :: _) => false
  | _ => true
  end.

(** [df[df['ID'] == n].index[0]]. *)
Fixpoint first_index (n : Z) (rows : list row) : option nat :=
  match rows with
  | [] => None
  | r :: rows' => if Z.eqb (ID r) n then Some O
                  else option_map S (first_index n rows')
  end.

End Pandas.

(** ** The libraries the scripts call

    [Path_suffix] is [pathlib.Path(p).suffix]; the two readers stand for the
    file system and the parsers, and return the rows of a table with the
    expected columns or raise; [re_beyond] is [re] beyond the fragment. *)
Record pylib : Type := {
  Path_suffix : string -> string;
  read_excel : string -> outcome (list source_row);
  read_csv : string -> outcome (list source_row);
  re_beyond : string -> outcome Re.matcher
}.

(** An instance of the class: the attribute [df] refers to a frame. *)
Record LivingLibrary : Type := { df : loc }.

Definition nl : string := String "010"%char EmptyString.

(** [r] with its [Year] column set to [y]. *)
Definition set_Year (y : year_cell) (r : source_row) : source_row :=
  {| Title := Title r; Subtitle := Subtitle r;
     Author_1 := Author_1 r; Author_2 := Author_2 r; Author_3 := Author_3 r;
     Author_4 := Author_4 r; Author_5 := Author_5 r;
     Type_ := Type_ r; Format := Format r; Topic := Topic r;
     Publisher := Publisher r; Year := y; Free_Download := Free_Download r |}.

(** ** [legacy/living_lib.py] *)

Module Legacy.
Section Methods.
Variable lib : pylib.

(** [df[author_cols].fillna('')], one row of it. *)
Definition author_cols (r : source_row) : list string :=
  map (fun c => match c with
                | Some s => s
                | None => ""
                end)
      [Author_1 r; Author_2 r; Author_3 r; Author_4 r; Author_5 r].

(** The [lambda] applied to a row: [val != '' and str(val) != 'n/a']
    filters, [', '.join] collapses. *)
Definition join_authors (r : source_row) : string :=
  PyStr.join ", "
    (filter (fun val => andb (negb (String.eqb val ""))
                             (negb (String.eqb val "n/a")))
            (author_cols r)).

(** [df['Authors'].replace('', 'Unknown')], one value of it. *)
Definition replace_blank (s : string) : string :=
  if String.eqb s "" then "Unknown" else s.

(** The columns [load_library_data] adds: [ID] is
    [range(1, len(df) + 1)]. *)
Definition add_columns (rows : list source_row) : list row :=
  map (fun ir => {| ID := fst ir;
                    Authors := replace_blank (join_authors (snd ir));
                    cols := snd ir |})
      (combine (map Z.of_nat (seq 1 (length rows))) rows).

Definition load_library_data (file_path : string) : M loc :=
  try_except
    (rows <- (if String.eqb (Path_suffix lib file_path) ".xlsx"
              then lift (read_excel lib file_path)
              else if String.eqb (Path_suffix lib file_path) ".csv"
              then lift (read_csv lib file_path)
              else raise (Exn ValueError
                            "Unsupported file format. Use .xlsx or .csv")) ;;
     alloc (Table (add_columns rows)))
    any_Exception
    (fun e =>
       print ("Error loading file: " ++ exn_msg e) ;;;
       alloc Blank).

Definition init (spreadsheet_path : string) : M LivingLibrary :=
  l <- load_library_data spreadsheet_path ;;
  ret {| df := l |}.

(** The frame [matches] of [search_books]. *)
Definition search_matches (self : LivingLibrary) (query : string) : M frame :=
  let query := PyStr.lower query in
  d <- deref (df self) ;;
  title_col <- Pandas.getitem "Title" (fun r => Title (cols r)) d ;;
  title <- Pandas.str_contains (re_beyond lib) true title_col query ;;
  authors_col <- Pandas.getitem "Authors" (fun r => Some (Authors r)) d ;;
  authors <- Pandas.str_contains (re_beyond lib) false authors_col query ;;
  topic_col <- Pandas.getitem "Topic" (fun r => Topic (cols r)) d ;;
  topic <- Pandas.str_contains (re_beyond lib) true topic_col query ;;
  subtitle_col <- Pandas.getitem "Subtitle" (fun r => Subtitle (cols r)) d ;;
  subtitle <- Pandas.str_contains (re_beyond lib) true subtitle_col query ;;
  matches <- alloc (Pandas.select d
                      (Pandas.mask_or
                         (Pandas.mask_or (Pandas.mask_or title authors) topic)
                         subtitle)) ;;
  deref matches.

Definition print_match (r : row) : M unit :=
  let authors_short :=
    if Nat.ltb 50 (String.length (Authors r))
    then PyStr.take 50 (Authors r) ++ "..."
    else Authors r in
  print (PyStr.fmt_3d (ID r) ++ ". " ++ str_cell (Title (cols r))) ;;;
  print ("     By: " ++ authors_short ++ " | Topic: "
         ++ str_cell (Topic (cols r))) ;;;
  print ("     Type: " ++ str_cell (Type_ (cols r)) ++ " | Format: "
         ++ str_cell (Format (cols r))) ;;;
  print (PyStr.repeat_char "-" 50).

Definition search_books (self : LivingLibrary) (query : string) : M unit :=
  matches <- search_matches self query ;;
  if Pandas.empty matches
  then print ("No items found matching '" ++ PyStr.lower query ++ "'")
  else
    print (nl ++ "Search results for '" ++ PyStr.lower query ++ "':") ;;;
    print (PyStr.repeat_char "-" 50) ;;;
    for_each (rows_of matches) print_match.

End Methods.
End Legacy.

(** ** [living_lib2.py] *)

Module Current.
Section Methods.
Variable lib : pylib.

(** [df['Year'].fillna('Unknown').astype(str).str.replace('.0', '',
    regex=False)], one value of it. *)
Definition normalize_year (y : year_cell) : string :=
  let filled := match y with
                | YearNaN => YearStr "Unknown"
                | _ => y
                end in
  PyStr.replace ".0" "" (str_year filled).

Definition author_cols (r : source_row) : list string :=
  map (fun c => match c with
                | Some s => s
                | None => ""
                end)
      [Author_1 r; Author_2 r; Author_3 r; Author_4 r; Author_5 r].

Definition join_authors (r : source_row) : string :=
  PyStr.join ", "
    (filter (fun val => andb (negb (String.eqb val ""))
                             (negb (String.eqb val "n/a")))
            (author_cols r)).

Definition replace_blank (s : string) : string :=
  if String.eqb s "" then "Unknown" else s.

(** The columns [load_library_data] sets: [ID], [Year], [Authors]. *)
Definition add_columns (rows : list source_row) : list row :=
  map (fun ir => {| ID := fst ir;
                    Authors := replace_blank (join_authors (snd ir));
                    cols := set_Year (YearStr (normalize_year (Year (snd ir))))
                              (snd ir) |})
      (combine (map Z.of_nat (seq 1 (length rows))) rows).

Definition load_library_data (file_path : string) : M loc :=
  try_except
    (rows <- (if String.eqb (Path_suffix lib file_path) ".xlsx"
              then lift (read_excel lib file_path)
              else if String.eqb (Path_suffix lib file_path) ".csv"
              then lift (read_csv lib file_path)
              else raise (Exn ValueError
                            "Unsupported file format. Use .xlsx or .csv")) ;;
     alloc (Table (add_columns rows)))
    any_Exception
    (fun e =>
       print ("Error loading file: " ++ exn_msg e) ;;;
       alloc Blank).

Definition init (spreadsheet_path : string) : M LivingLibrary :=
  l <- load_library_data spreadsheet_path ;;
  ret {| df := l |}.

(** The filter of [display_inventory] when [if filter_type:] takes the
    branch: [None] and [''] are false. *)
Definition truthy (filter_type : option string) : option string :=
  match filter_type with
  | None => None
  | Some s => if String.eqb s "" then None else Some s
  end.

(** The frame [display_df] of [display_inventory] when the rows are
    about to be printed. *)
Definition display_df (self : LivingLibrary) (filter_type : option string)
  : M frame :=
  d <- deref (df self) ;;
  copy <- alloc d ;;
  shown <- (match truthy filter_type with
            | Some pat =>
                c <- deref copy ;;
                type_col <- Pandas.getitem "Type" (fun r => Type_ (cols r)) c ;;
                mask <- Pandas.str_contains (re_beyond lib) true type_col pat ;;
                alloc (Pandas.select c mask)
            | None => ret copy
            end) ;;
  deref shown.

Definition is_yes (c : cell) (accepted : list string) : bool :=
  existsb (String.eqb (PyStr.lower (str_cell c))) accepted.

Definition print_row (r : row) : M unit :=
  print (PyStr.fmt_3d (ID r) ++ ". " ++ str_cell (Title (cols r))) ;;;
  print ("     Authors: " ++ Authors r) ;;;
  print ("     Type: " ++ str_cell (Type_ (cols r)) ++ " | Format: "
         ++ str_cell (Format (cols r))) ;;;
  print ("     Topic: " ++ str_cell (Topic (cols r))) ;;;
  print ("     Publisher: " ++ str_cell (Publisher (cols r)) ++ " ("
         ++ str_year (Year (cols r)) ++ ")") ;;;
  (match Free_Download (cols r) with
   | Some c => if is_yes c ["yes"]
               then print " You can download this for free!"
               else ret tt
   | None => ret tt
   end) ;;;
  print (PyStr.repeat_char "-" 50).

Definition display_inventory (self : LivingLibrary)
    (filter_type : option string) : M unit :=
  shown <- display_df self filter_type ;;
  if Pandas.empty shown
  then print "Inventory is empty."
  else
    print (nl ++ PyStr.repeat_char "=" 50) ;;;
    print "MY LIVING LIBRARY." ;;;
    print (PyStr.repeat_char "=" 50) ;;;
    for_each (rows_of shown) print_row.

Definition search_matches (self : LivingLibrary) (query : string) : M frame :=
  let query := PyStr.lower query in
  d <- deref (df self) ;;
  title_col <- Pandas.getitem "Title" (fun r => Title (cols r)) d ;;
  title <- Pandas.str_contains (re_beyond lib) true title_col query ;;
  authors_col <- Pandas.getitem "Authors" (fun r => Some (Authors r)) d ;;
  authors <- Pandas.str_contains (re_beyond lib) false authors_col query ;;
  topic_col <- Pandas.getitem "Topic" (fun r => Topic (cols r)) d ;;
  topic <- Pandas.str_contains (re_beyond lib) true topic_col query ;;
  subtitle_col <- Pandas.getitem "Subtitle" (fun r => Subtitle (cols r)) d ;;
  subtitle <- Pandas.str_contains (re_beyond lib) true subtitle_col query ;;
  matches <- alloc (Pandas.select d
                      (Pandas.mask_or
                         (Pandas.mask_or (Pandas.mask_or title authors) topic)
                         subtitle)) ;;
  deref matches.

Definition print_match (r : row) : M unit :=
  let authors_short :=
    if Nat.ltb 50 (String.length (Authors r))
    then PyStr.take 50 (Authors r) ++ "..."
    else Authors r in
  print (PyStr.fmt_3d (ID r) ++ ". " ++ str_cell (Title (cols r))) ;;;
  print ("     By: " ++ authors_short ++ " | Topic: "
         ++ str_cell (Topic (cols r))) ;;;
  print ("     Type: " ++ str_cell (Type_ (cols r)) ++ " | Format: "
         ++ str_cell (Format (cols r))) ;;;
  print (PyStr.repeat_char "-" 50).

Definition search_books (self : LivingLibrary) (query : string) : M unit :=
  matches <- search_matches self query ;;
  if Pandas.empty matches
  then print ("No items found matching '" ++ PyStr.lower query ++ "'")
  else
    print (nl ++ "Search results for '" ++ PyStr.lower query ++ "':") ;;;
    print (PyStr.repeat_char "-" 50) ;;;
    for_each (rows_of matches) print_match.

Definition print_item (item : row) : M unit :=
  print (nl ++ "Accessing: " ++ str_cell (Title (cols item))) ;;;
  print ("Authors: " ++ Authors item) ;;;
  print ("Type: " ++ str_cell (Type_ (cols item)) ++ " | Format: "
         ++ str_cell (Format (cols item))) ;;;
  print ("Topic: " ++ str_cell (Topic (cols item))) ;;;
  print ("Publisher: " ++ str_cell (Publisher (cols item)) ++ " ("
         ++ str_year (Year (cols item)) ++ ")") ;;;
  (match Subtitle (cols item) with
   | Some s => print ("Subtitle: " ++ s)
   | None => ret tt
   end) ;;;
  (match Free_Download (cols item) with
   | Some c => if is_yes c ["yes"; "true"]
               then print " This item is available as a free download!"
               else ret tt
   | None => ret tt
   end).

(** [access_item] returns a pair of a status and a message. *)
Definition access_item (self : LivingLibrary) (book_id : string)
  : M (Z * string) :=
  try_except
    (book_id <- (match PyStr.int book_id with
                 | Some n => ret n
                 | None => raise (Exn ValueError
                                    "invalid literal for int() with base 10")
                 end) ;;
     d <- deref (df self) ;;
     ids <- Pandas.getitem "ID" ID d ;;
     if negb (existsb (Z.eqb book_id) ids)
     then ret (-1, "Invalid item ID")
     else
       book_idx <- (match Pandas.first_index book_id (rows_of d) with
                    | Some i => ret i
                    | None => raise (Exn IndexError
                                       "index 0 is out of bounds")
                    end) ;;
       item <- (match nth_error (rows_of d) book_idx with
                | Some r => ret r
                | None => raise (Exn IndexError
                                   "single positional indexer is out-of-bounds")
                end) ;;
       print_item item ;;;
       ret (0, "Item details displayed"))
    is_ValueError
    (fun _ => ret (-1, "Please enter a valid item ID number")).

Definition get_types (self : LivingLibrary) : M (list cell) :=
  d <- deref (df self) ;;
  types <- Pandas.getitem "Type" (fun r => Type_ (cols r)) d ;;
  ret (Pandas.unique [] types).

End Methods.
End Current.

(** ** What the specification says, in its own words *)

(** [p] occurs in [s]: some text before it, some text after it. *)
Definition Substring (p s : string) : Prop :=
  exists before after, s = before ++ p ++ after.

(** Case-insensitive substring test. *)
Definition icontains (p : string) (c : cell) : bool :=
  match c with
  | Some s => PyStr.contains (PyStr.lower p) (PyStr.lower s)
  | None => false
  end.

(** The entry matches the query on one of the four searched fields. *)
Definition entry_matches (query : string) (r : row) : bool :=
  orb (orb (orb (icontains query (Title (cols r)))
                (icontains query (Some (Authors r))))
           (icontains query (Topic (cols r))))
      (icontains query (Subtitle (cols r))).

(** The names among the author columns: present, not empty, not [n/a]. *)
Definition named_authors (r : source_row) : list string :=
  flat_map (fun c => match c with
                     | Some s => if orb (String.eqb s "") (String.eqb s "n/a")
                                 then []
                                 else [s]
                     | None => []
                     end)
           [Author_1 r; Author_2 r; Author_3 r; Author_4 r; Author_5 r].

(** The collapsed authors field of the data model. *)
Definition collapsed_authors (r : source_row) : string :=
  match named_authors r with
  | [] => "Unknown"
  | names => PyStr.join ", " names
  end.

(** The year with an exact trailing [.0] removed. *)
Definition strip_trailing_dot_zero (s : string) : string :=
  if PyStr.endswith ".0" s
  then substring 0 (String.length s - 2) s
  else s.

(** [xs] is [ys] with some elements left out, the order kept. *)
Inductive Subseq {A : Type} : list A -> list A -> Prop :=
| Subseq_nil : Subseq [] []
| Subseq_skip : forall x xs ys, Subseq xs ys -> Subseq xs (x :: ys)
| Subseq_keep : forall x xs ys, Subseq xs ys -> Subseq (x :: xs) (x :: ys).

(** The mask of [search_books] on one row, for a compiled pattern. *)
Definition row_hit (m : Re.matcher) (r : row) : bool :=
  let on (c : cell) := match c with
                       | Some x => m x
                       | None => false
                       end in
  orb (orb (orb (on (Title (cols r))) (on (Some (Authors r))))
           (on (Topic (cols r))))
      (on (Subtitle (cols r))).

(** The mask of [display_inventory] on one row. *)
Definition type_hit (m : Re.matcher) (r : row) : bool :=
  match Type_ (cols r) with
  | Some x => m x
  | None => false
  end.

(** The frame the attribute [df] of [self] refers to. *)
Definition store (self : LivingLibrary) (w : world) : frame :=
  nth (df self) (heap w) Blank.

(** ** A library and a shelf for the examples *)

(** [PurePosixPath(p).suffix], as pathlib computes it up to Python 3.13.
    The components of the path are the pieces between slashes that are
    neither empty nor a single dot; the name is the last component; the
    suffix is the text from the last dot of the name, when that dot is
    neither its first nor its last character. *)
Fixpoint split_on (sep : ascii) (s : string) : list string :=
  match s with
  | EmptyString => [EmptyString]
  | String c s' =>
      if Ascii.eqb c sep then EmptyString :: split_on sep s'
      else match split_on sep s' with
           | piece :: pieces => String c piece :: pieces
           | [] => [String c EmptyString]
           end
  end.

Definition components (p : string) : list string :=
  filter (fun piece => negb (orb (String.eqb piece "") (String.eqb piece ".")))
         (split_on "/" p).

Fixpoint after_last (sep : ascii) (s : string) : option string :=
  match s with
  | EmptyString => None
  | String c s' =>
      match after_last sep s' with
      | Some r => Some r
      | None => if Ascii.eqb c sep then Some s' else None
      end
  end.

Definition posix_suffix (p : string) : string :=
  match last (components p) EmptyString with
  | EmptyString => EmptyString
  | String _ rest =>
      match after_last "." rest with
      | Some EmptyString => EmptyString
      | Some ext => String "." ext
      | None => EmptyString
      end
  end.

Definition blank_row : source_row :=
  {| Title := None; Subtitle := None;
     Author_1 := None; Author_2 := None; Author_3 := None;
     Author_4 := None; Author_5 := None;
     Type_ := None; Format := None; Topic := None; Publisher := None;
     Year := YearNaN; Free_Download := None |}.

Definition book (title topic : string) : source_row :=
  {| Title := Some title; Subtitle := None;
     Author_1 := None; Author_2 := None; Author_3 := None;
     Author_4 := None; Author_5 := None;
     Type_ := Some "Book"; Format := Some "PDF"; Topic := Some topic;
     Publisher := None; Year := YearFloat 2008 eq_refl;
     Free_Download := None |}.

Definition set_Subtitle (c : cell) (r : source_row) : source_row :=
  {| Title := Title r; Subtitle := c;
     Author_1 := Author_1 r; Author_2 := Author_2 r; Author_3 := Author_3 r;
     Author_4 := Author_4 r; Author_5 := Author_5 r;
     Type_ := Type_ r; Format := Format r; Topic := Topic r;
     Publisher := Publisher r; Year := Year r;
     Free_Download := Free_Download r |}.

(** Three books; the first has a subtitle, so each of the four searched
    columns holds a string. *)
Definition shelf : list source_row :=
  [set_Subtitle (Some "A Handbook of Agile Craftsmanship")
     (book "Clean Code" "Software");
   book "The Pragmatic Programmer" "Software";
   book "Deep Work" "Productivity"].

Definition demo_lib : pylib :=
  {| Path_suffix := posix_suffix;
     read_excel := fun _ => Raises (Exn OSError "No such file or directory");
     read_csv := fun p => if String.eqb p "data/justLib.csv"
                          then Returns shelf
                          else Raises (Exn OSError "No such file or directory");
     re_beyond := fun _ => Raises (Exn re_error "unterminated subpattern") |}.

Definition empty_world : world := {| heap := []; stdout := [] |}.

(** The world after [LivingLibrary("data/justLib.csv")]. *)
Definition demo_world : world :=
  snd (Current.init demo_lib "data/justLib.csv" empty_world).

Definition demo_self : LivingLibrary := {| df := 0%nat |}.

(** The same three books, none with a subtitle, loaded. *)
Definition bare_shelf : list source_row :=
  [book "Clean Code" "Software";
   book "The Pragmatic Programmer" "Software";
   book "Deep Work" "Productivity"].

Definition bare_world : world :=
  {| heap := [Table (Current.add_columns bare_shelf)]; stdout := [] |}.

(** ** Notions used in the statements *)

(** [m] leaves every object of the heap as it is: it can only add
    objects. *)
Definition read_only {A} (m : M A) : Prop :=
  forall w, exists added, heap (snd (m w)) = (heap w ++ added)%list.

(** The three results of [access_item]. *)
Definition InvalidIdFormat : Z * string :=
  (-1, "Please enter a valid item ID number").
Definition NotFound : Z * string := (-1, "Invalid item ID").
Definition Displayed : Z * string := (0, "Item details displayed").

(** What the [if]/[elif]/[else] at the head of [load_library_data]
    delivers for a path. *)
Definition delivered (lib : pylib) (file_path : string)
  : outcome (list source_row) :=
  if String.eqb (Path_suffix lib file_path) ".xlsx"
  then read_excel lib file_path
  else if String.eqb (Path_suffix lib file_path) ".csv"
  then read_csv lib file_path
  else Raises (Exn ValueError "Unsupported file format. Use .xlsx or .csv").

(** A row with its [Year] blanked: what [search_books] can see of it. *)
Definition forget_year (r : row) : row :=
  {| ID := ID r; Authors := Authors r; cols := set_Year YearNaN (cols r) |}.

(** The lines [access_item] prints for the entry it found. *)
Definition detail_lines (item : row) : list string :=
  List.app
    [nl ++ "Accessing: " ++ str_cell (Title (cols item));
     "Authors: " ++ Authors item;
     "Type: " ++ str_cell (Type_ (cols item)) ++ " | Format: "
       ++ str_cell (Format (cols item));
     "Topic: " ++ str_cell (Topic (cols item));
     "Publisher: " ++ str_cell (Publisher (cols item)) ++ " ("
       ++ str_year (Year (cols item)) ++ ")"]
    (List.app
       match Subtitle (cols item) with
       | Some s => ["Subtitle: " ++ s]
       | None => []
       end
       match Free_Download (cols item) with
       | Some c => if Current.is_yes c ["yes"; "true"]
                   then [" This item is available as a free download!"]
                   else []
       | None => []
       end).

(** Every string cell of a column is ASCII text. *)
Definition ascii_cell (c : cell) : bool :=
  match c with
  | Some s => PyStr.is_ascii s
  | None => true
  end.

(** The four columns [search_books] reads are ASCII text, and each of them
    holds a string: the accessor [.str] is there on each. *)
Definition searched_ascii (r : row) : bool :=
  andb (andb (ascii_cell (Title (cols r))) (PyStr.is_ascii (Authors r)))
       (andb (ascii_cell (Topic (cols r))) (ascii_cell (Subtitle (cols r)))).

Definition searchable (rows : list row) : bool :=
  andb (andb (Pandas.holds_str (map (fun r => Title (cols r)) rows))
             (Pandas.holds_str (map (fun r => Topic (cols r)) rows)))
       (Pandas.holds_str (map (fun r => Subtitle (cols r)) rows)).

(** What [search_books] selects from a frame, or what it raises on it:
    the method run on a store that holds the frame and nothing else. *)
Definition selected (lib : pylib) (query : string) (d : frame)
  : outcome frame :=
  fst (Current.search_matches lib {| df := 0%nat |} query
         {| heap := [d]; stdout := [] |}).

(** The outcome is an exception of the class [cls]. *)
Definition raises_a {A} (cls : exn_class) (o : outcome A) : Prop :=
  match o with
  | Raises (Exn c _) => c = cls
  | Returns _ => False
  end.

(** [m] never raises. *)
Definition always_returns (m : M unit) : Prop :=
  forall w, fst (m w) = Returns tt.

(** The lines [search_books] prints for one match and for a selection. *)
Definition match_lines (r : row) : list string :=
  [PyStr.fmt_3d (ID r) ++ ". " ++ str_cell (Title (cols r));
   "     By: "
     ++ (if Nat.ltb 50 (String.length (Authors r))
         then PyStr.take 50 (Authors r) ++ "..."
         else Authors r)
     ++ " | Topic: " ++ str_cell (Topic (cols r));
   "     Type: " ++ str_cell (Type_ (cols r)) ++ " | Format: "
     ++ str_cell (Format (cols r));
   PyStr.repeat_char "-" 50].

Definition search_lines (query : string) (matches : frame) : list string :=
  if Pandas.empty matches
  then ["No items found matching '" ++ PyStr.lower query ++ "'"]
  else (nl ++ "Search results for '" ++ PyStr.lower query ++ "':")
         :: PyStr.repeat_char "-" 50
         :: flat_map match_lines (rows_of matches).

(** A shelf with one book whose title and topic both end in a question
    mark. *)
Definition puzzles : list source_row := [book "What If?" "Why?"].

Definition puzzles_world : world :=
  {| heap := [Table (Current.add_columns puzzles)]; stdout := [] |}.

(** No dot occurs in [s]. *)
Fixpoint dotless (s : string) : bool :=
  match s with
  | EmptyString => true
  | String c s' => andb (negb (Ascii.eqb c "."%char)) (dotless s')
  end.

(** ** The console of [living_lib2.py]: [input], the helpers and [main] *)

(** [c.isspace()] on an ASCII character: the characters [str.strip]
    removes. *)
Definition str_isspace (c : ascii) : bool :=
  let n := nat_of_ascii c in
  orb (Nat.eqb n 32)
      (orb (andb (Nat.leb 9 n) (Nat.leb n 13))
           (andb (Nat.leb 28 n) (Nat.leb n 31))).

Fixpoint str_lstrip (s : string) : string :=
  match s with
  | EmptyString => EmptyString
  | String c s' => if str_isspace c then str_lstrip s' else s
  end.

Fixpoint str_rstrip (s : string) : string :=
  match s with
  | EmptyString => EmptyString
  | String c s' =>
      match str_rstrip s' with
      | EmptyString => if str_isspace c then EmptyString
                       else String c EmptyString
      | r => String c r
      end
  end.

(** [s.strip()]. *)
Definition str_strip (s : string) : string := str_rstrip (str_lstrip s).

(** [x in words] on a list of strings. *)
Definition word_in (x : string) (words : list string) : bool :=
  existsb (String.eqb x) words.

(** What escapes [main]: an exception of the store, the [EOFError] of
    [input] at the end of standard input, the [TypeError] of [', '.join]
    over a cell that is not a string. *)
Inductive uncaught : Type :=
| FromStore (e : exn)
| EOFError
| TypeError.

(** A console computation reads lines of standard input and runs in a
    world.  [OutOfFuel] is the loop bound of the model, not an outcome of
    the script. *)
Inductive reply (A : Type) : Type :=
| Ok (a : A) (stdin : list string) (w : world)
| Fail (e : uncaught) (stdin : list string) (w : world)
| OutOfFuel.
Arguments Ok {A} a stdin w.
Arguments Fail {A} e stdin w.
Arguments OutOfFuel {A}.

Definition C (A : Type) : Type := list string -> world -> reply A.

Definition cret {A} (a : A) : C A := fun i w => Ok a i w.

Definition cbind {A B} (m : C A) (k : A -> C B) : C B :=
  fun i w =>
    match m i w with
    | Ok a i' w' => k a i' w'
    | Fail e i' w' => Fail e i' w'
    | OutOfFuel => OutOfFuel
    end.

Notation "x <~ m ;; k" := (cbind m (fun x => k))
  (at level 61, m at next level, right associativity).
Notation "m ~;; k" := (cbind m (fun _ => k))
  (at level 61, right associativity).

(** A method of the store, called from the console. *)
Definition run {A} (m : M A) : C A :=
  fun i w =>
    match m w with
    | (Returns a, w') => Ok a i w'
    | (Raises e, w') => Fail (FromStore e) i w'
    end.

Definition say (s : string) : C unit := run (print s).

(** [input(prompt)]: the prompt goes to standard output, the next line is
    the result. *)
Definition input (prompt : string) : C string :=
  fun i w =>
    let w' := {| heap := heap w; stdout := stdout w ++ [prompt] |} in
    match i with
    | [] => Fail EOFError [] w'
    | line :: rest => Ok line rest w'
    end.

(** [', '.join(values)] over the values of a column. *)
Fixpoint all_str (cs : list cell) : option (list string) :=
  match cs with
  | [] => Some []
  | None :: _ => None
  | Some s :: cs' => option_map (cons s) (all_str cs')
  end.

Definition join_cells (cs : list cell) : C string :=
  match all_str cs with
  | Some xs => cret (PyStr.join ", " xs)
  | None => fun i w => Fail TypeError i w
  end.

Definition goodbye : string :=
  "Thank you for visiting the Living Library. Goodbye!".

(** The ways out of one round of a loop: [continue], or [break] and
    [return]. *)
Inductive flow : Type :=
| Again
| Leave.

Module Console.
Section Script.
Variable lib : pylib.
(** [Path(p).exists()]. *)
Variable path_exists : string -> bool.

Definition quit_words : list string := ["!q"; "quit"; "exit"].
Definition back_words : list string := ["!b"; "back"; "return"; "menu"].
Definition access_words : list string := ["a"; "access"; "view"; "open"].
Definition inventory_words : list string :=
  ["i"; "inventory"; "list"; "show"; "browse"].
Definition search_words : list string := ["s"; "search"; "find"].

(** [check_quit_or_back] returns ['QUIT'], ['BACK'] or [False]: [None] is
    [False]. *)
Definition check_quit_or_back (user_input : string) : M (option string) :=
  let user_input := str_strip (PyStr.lower user_input) in
  if word_in user_input quit_words
  then print goodbye ;;; ret (Some "QUIT")
  else if word_in user_input back_words
  then ret (Some "BACK")
  else ret None.

(** The truth value of what [check_quit_or_back] returns. *)
Definition is_true (v : option string) : bool :=
  match v with
  | Some s => negb (String.eqb s "")
  | None => false
  end.

Definition safe_input (prompt : string) : C string :=
  user_input <~ input prompt ;;
  v <~ run (check_quit_or_back user_input) ;;
  if is_true v then cret "BACK" else cret user_input.

(** [library.df['Topic'].unique()]. *)
Definition topics_of (library : LivingLibrary) : C (list cell) :=
  run (d <- deref (df library) ;;
       topics <- Pandas.getitem "Topic" (fun r => Topic (cols r)) d ;;
       ret (Pandas.unique [] topics)).

(** The line of topics: the first [shown] of them when there are more than
    ten, all of them otherwise. *)
Definition topics_line (lead : string) (shown : nat) (topics : list cell)
  : C string :=
  if Nat.ltb 10 (length topics)
  then
    s <~ join_cells (firstn shown topics) ;;
    cret (lead ++ "Available topics: " ++ s ++ "...")
  else
    s <~ join_cells topics ;;
    cret ("Available topics: " ++ s).

(** The branch [elif user_choice in access_words]. *)
Definition access_branch (library : LivingLibrary) : C flow :=
  run (Current.display_inventory lib library None) ~;;
  book_id <~ safe_input (nl ++ "Enter item ID to view details: ") ;;
  if String.eqb book_id "QUIT"
  then say goodbye ~;; cret Leave
  else if String.eqb book_id "BACK"
  then cret Again
  else
    rm <~ run (Current.access_item library book_id) ;;
    (if Z.eqb (fst rm) 0
     then say (snd rm)
     else say ("Error: " ++ snd rm)) ~;;
    cret Again.

(** The branch [elif user_choice in inventory_words]. *)
Definition inventory_branch (library : LivingLibrary) : C flow :=
  types <~ run (Current.get_types library) ;;
  types_text <~ join_cells types ;;
  say (nl ++ "Available types: " ++ types_text) ~;;
  topics <~ topics_of library ;;
  line <~ topics_line nl 3 topics ;;
  say line ~;;
  answer <~ safe_input
              (nl ++ "Filter by type or topic (or press Enter for all): ") ;;
  let filter_choice := str_strip answer in
  if String.eqb filter_choice "QUIT"
  then say goodbye ~;; cret Leave
  else if String.eqb filter_choice "BACK"
  then cret Again
  else
    run (Current.display_inventory lib library
           (if String.eqb filter_choice "" then None
            else Some filter_choice)) ~;;
    pause <~ safe_input (nl ++ "Press Enter to return to main menu...") ;;
    if String.eqb pause "QUIT"
    then say goodbye ~;; cret Leave
    else cret Again.

(** The inner [while True] of the branch
    [elif user_choice in search_words]: [Again] is its [break], back to
    the menu; [Leave] is its [return]. *)
Fixpoint search_loop (fuel : nat) (library : LivingLibrary) : C flow :=
  match fuel with
  | O => fun _ _ => OutOfFuel
  | S fuel' =>
      topics <~ topics_of library ;;
      say (nl ++ PyStr.repeat_char "=" 50) ~;;
      say "Available Topics:" ~;;
      line <~ topics_line "" 10 topics ;;
      say line ~;;
      say (PyStr.repeat_char "=" 50) ~;;
      query <~ safe_input "Enter search term (title, author, or topic): " ;;
      if word_in query ["QUIT"; "BACK"]
      then cret Again
      else
        run (Current.search_books lib library query) ~;;
        answer <~ safe_input
                    "Did you find what you were looking for? (yes/no): " ;;
        let found := PyStr.lower answer in
        if word_in found ["yes"; "y"]
        then
          link_id <~ safe_input
                       "Enter the ID of the item you want to access: " ;;
          if word_in link_id ["QUIT"; "BACK"]
          then cret Again
          else
            run (Current.access_item library link_id) ~;;
            say goodbye ~;;
            cret Leave
        else if word_in found ["no"; "n"]
        then search_loop fuel' library
        else
          say "Invalid input. Returning to main menu." ~;;
          cret Again
  end.

(** The lines at the head of every round of the menu. *)
Definition menu_banner (library : LivingLibrary) : C unit :=
  say (nl ++ PyStr.repeat_char "=" 50) ~;;
  say "Welcome to the Living Library." ~;;
  say (PyStr.repeat_char "=" 50 ++ nl) ~;;
  n <~ run (d <- deref (df library) ;; ret (length (rows_of d))) ;;
  say ("Loaded " ++ PyStr.str_int (Z.of_nat n)
       ++ " items from the library, lets find you the perfect resource...")
    ~;;
  say "" ~;;
  say "Available Commands: " ~;;
  say ("  a/access    - View item details " ++ nl
       ++ "  i/inventory - Show inventory " ++ nl
       ++ "  s/search    - Search catalog" ++ nl) ~;;
  say "Life Hacks: " ~;;
  say ("  !b/back      - Back to main menu" ++ nl
       ++ "  !q/quit      - Exit").

(** The [while True] of [main]. *)
Fixpoint menu_loop (fuel : nat) (library : LivingLibrary) : C unit :=
  match fuel with
  | O => fun _ _ => OutOfFuel
  | S fuel' =>
      menu_banner library ~;;
      answer <~ safe_input (nl ++ "Enter Command: ") ;;
      let user_choice := str_strip (PyStr.lower answer) in
      if String.eqb user_choice "BACK"
      then menu_loop fuel' library
      else if word_in user_choice quit_words
      then say goodbye
      else if word_in user_choice access_words
      then
        f <~ access_branch library ;;
        match f with
        | Again => menu_loop fuel' library
        | Leave => cret tt
        end
      else if word_in user_choice inventory_words
      then
        f <~ inventory_branch library ;;
        match f with
        | Again => menu_loop fuel' library
        | Leave => cret tt
        end
      else if word_in user_choice search_words
      then
        f <~ search_loop fuel' library ;;
        match f with
        | Again => menu_loop fuel' library
        | Leave => cret tt
        end
      else
        say "Invalid command. Please try again." ~;;
        menu_loop fuel' library
  end.

Definition spreadsheet_path : string := "data\justLib.csv".

Definition main (fuel : nat) : C unit :=
  if negb (path_exists spreadsheet_path)
  then
    say ("Spreadsheet not found at " ++ spreadsheet_path) ~;;
    say ("Please update the spreadsheet_path variable "
         ++ "with the correct file path.")
  else
    library <~ run (Current.init lib spreadsheet_path) ;;
    d <~ run (deref (df library)) ;;
    if Pandas.empty d
    then say "DataFrame appears to be empty. Exiting."
    else menu_loop fuel library.

End Script.
End Console.

(** ** The rest of [legacy/living_lib.py]: the other methods and [main] *)

Module LegacyConsole.
Section Script.
Variable lib : pylib.
Variable path_exists : string -> bool.

(** [display_inventory]: the statements are those of the current script,
    the second line of the banner apart. *)
Definition display_inventory (self : LivingLibrary)
    (filter_type : option string) : M unit :=
  shown <- Current.display_df lib self filter_type ;;
  if Pandas.empty shown
  then print "Inventory is empty."
  else
    print (nl ++ PyStr.repeat_char "=" 50) ;;;
    print ("MY LIVING LIBRARY, " ++ nl ++ "Welcome to the Dojo.") ;;;
    print (PyStr.repeat_char "=" 50) ;;;
    for_each (rows_of shown) Current.print_row.

(** [access_item] and [get_types] have the statements of the current
    script. *)
Definition access_item (self : LivingLibrary) (book_id : string)
  : M (Z * string) :=
  Current.access_item self book_id.

Definition get_types (self : LivingLibrary) : M (list cell) :=
  Current.get_types self.

Definition quit_words : list string := ["q"; "quit"; "exit"].
Definition access_words : list string := ["a"; "access"; "view"; "open"].
Definition inventory_words : list string :=
  ["i"; "inventory"; "list"; "show"; "browse"].
Definition search_words : list string := ["s"; "search"; "find"].

(** [str(message)] for the pair [access_item] returns: the messages hold
    no quote and no character to escape. *)
Definition str_pair (message : Z * string) : string :=
  "(" ++ PyStr.str_int (fst message) ++ ", '" ++ snd message ++ "')".

Definition farewell : string :=
  "Thank you for visting the Living Library. Goodbye!".

Definition menu_banner (library : LivingLibrary) : C unit :=
  say (nl ++ PyStr.repeat_char "=" 50) ~;;
  say "Welcome to the Living Library." ~;;
  say (PyStr.repeat_char "=" 50 ++ nl) ~;;
  n <~ run (d <- deref (df library) ;; ret (length (rows_of d))) ;;
  say ("Loaded " ++ PyStr.str_int (Z.of_nat n)
       ++ " items from the library, lets find you the perfect resource...")
    ~;;
  say "" ~;;
  say "Available Commands: " ~;;
  say ("  a/access    - View item details " ++ nl
       ++ "  b/browse    - Browse all items" ++ nl
       ++ "  i/inventory - Show inventory (filter by type)" ++ nl
       ++ "  s/search    - Search catalog" ++ nl
       ++ "  q/quit      - Exit").

(** The [while True] of [main]: it ends by [return] with the farewell
    text as the value. *)
Fixpoint menu_loop (fuel : nat) (library : LivingLibrary)
  : C (option string) :=
  match fuel with
  | O => fun _ _ => OutOfFuel
  | S fuel' =>
      menu_banner library ~;;
      answer <~ input (nl ++ "Enter Command: ") ;;
      let user_choice := str_strip (PyStr.lower answer) in
      if word_in user_choice quit_words
      then cret (Some farewell)
      else if word_in user_choice access_words
      then
        run (display_inventory library None) ~;;
        book_id <~ input (nl ++ "Enter item ID to view details: ") ;;
        message <~ run (access_item library book_id) ;;
        say (str_pair message) ~;;
        menu_loop fuel' library
      else if word_in user_choice inventory_words
      then
        types <~ run (get_types library) ;;
        types_text <~ join_cells types ;;
        say (nl ++ "Available types: " ++ types_text) ~;;
        topics <~ Console.topics_of library ;;
        line <~ Console.topics_line nl 10 topics ;;
        say line ~;;
        answer <~ input "Filter by type or topic (or press Enter for all): " ;;
        let filter_choice := str_strip answer in
        run (display_inventory library
               (if String.eqb filter_choice "" then None
                else Some filter_choice)) ~;;
        menu_loop fuel' library
      else if word_in user_choice search_words
      then
        query <~ input "Enter search term (title, author, or topic): " ;;
        run (Legacy.search_books lib library query) ~;;
        menu_loop fuel' library
      else
        say "Invalid command. Please try again." ~;;
        menu_loop fuel' library
  end.

Definition spreadsheet_path : string := "data\justLib.csv".

Definition main (fuel : nat) : C (option string) :=
  if negb (path_exists spreadsheet_path)
  then
    say ("Spreadsheet not found at " ++ spreadsheet_path) ~;;
    say ("Please update the spreadsheet_path variable "
         ++ "with the correct file path.") ~;;
    cret None
  else
    library <~ run (Legacy.init lib spreadsheet_path) ;;
    d <~ run (deref (df library)) ;;
    if Pandas.empty d
    then say "Failed to load library data. Exiting." ~;; cret None
    else menu_loop fuel library.

End Script.
End LegacyConsole.

(** What [safe_input] answers for a line: the commands to quit and to go
    back both come out as ['BACK']. *)
Definition answered (line : string) : string :=
  if word_in (str_strip (PyStr.lower line))
       (Console.quit_words ++ Console.back_words)
  then "BACK"
  else line.

(** A library whose one table is at the path of [main]. *)
Definition desk_lib : pylib :=
  {| Path_suffix := posix_suffix;
     read_excel := fun _ => Raises (Exn OSError "No such file or directory");
     read_csv := fun p => if String.eqb p Console.spreadsheet_path
                          then Returns shelf
                          else Raises (Exn OSError "No such file or directory");
     re_beyond := fun _ => Raises (Exn re_error "unterminated subpattern") |}.

(** [later] is what is left of [earlier] after at least one line was
    read. *)
Definition read_from (earlier later : list string) : Prop :=
  exists lines, lines <> [] /\ earlier = (lines ++ later)%list.

(** A postcondition for a console computation: when it completes, [Q]
    holds of the result, of the lines left and of the world; [spin] is
    what is claimed when the loop bound of the model runs out. *)
Definition post {A} (spin : Prop) (m : C A) (i : list string) (w : world)
    (Q : A -> list string -> world -> Prop) : Prop :=
  match m i w with
  | Ok a i' w' => Q a i' w'
  | Fail _ _ _ => True
  | OutOfFuel => spin
  end.

(** The computation completes, and [Q] holds then. *)
Definition ends {A} (m : C A) (i : list string) (w : world)
    (Q : A -> list string -> world -> Prop) : Prop :=
  match m i w with
  | Ok a i' w' => Q a i' w'
  | Fail _ _ _ => False
  | OutOfFuel => False
  end.

(** The lines a method adds to standard output. *)
Definition printed_by {A} (m : M A) (w : world) : list string :=
  skipn (length (stdout w)) (stdout (snd (m w))).

(** An entry whose free-download cell reads [TRUE]. *)
Definition flagged_row : row :=
  {| ID := 1; Authors := "Unknown";
     cols := {| Title := Some "Notes"; Subtitle := None;
                Author_1 := None; Author_2 := None; Author_3 := None;
                Author_4 := None; Author_5 := None; Type_ := Some "Book";
                Format := None; Topic := None; Publisher := None;
                Year := YearNaN; Free_Download := Some (Some "TRUE") |} |}.

(** * Proofs *)

(** ** Lists and masks *)

Lemma mask_or_map {A} (f g : A -> bool) (xs : list A) :
  Pandas.mask_or (map f xs) (map g xs) = map (fun x => orb (f x) (g x)) xs.
Proof.
  unfold Pandas.mask_or.
  induction xs as [|x xs IH]; simpl; [reflexivity|].
  f_equal. exact IH.
Qed.

Lemma select_map (f : row -> bool) (rows : list row) :
  Pandas.select (Table rows) (map f rows) = Table (filter f rows).
Proof.
  unfold Pandas.select. f_equal.
  induction rows as [|r d IH]; simpl; [reflexivity|].
  destruct (f r); simpl; rewrite IH; reflexivity.
Qed.

Lemma Subseq_refl {A} (xs : list A) : Subseq xs xs.
Proof. induction xs; constructor; assumption. Qed.

Lemma filter_Subseq {A} (f : A -> bool) (xs : list A) :
  Subseq (filter f xs) xs.
Proof.
  induction xs as [|x xs IH]; simpl.
  - constructor.
  - destruct (f x); constructor; assumption.
Qed.

Lemma nth_alloc {A} (xs : list A) (x dflt : A) :
  nth (length xs) (xs ++ [x]) dflt = x.
Proof.
  rewrite app_nth2 by lia.
  replace (length xs - length xs)%nat with O by lia.
  reflexivity.
Qed.

Lemma nth_kept {A} (xs ys : list A) (l : nat) (dflt : A) :
  (l < length xs)%nat -> nth l (xs ++ ys) dflt = nth l xs dflt.
Proof. intros H. apply app_nth1. exact H. Qed.

(** ** The selection of [search_books] and of [display_inventory] *)

Lemma search_mask (m : Re.matcher) (rows : list row) :
  let on := fun c : cell => match c with
                            | Some x => m x
                            | None => false
                            end in
  Pandas.select (Table rows)
    (Pandas.mask_or
       (Pandas.mask_or
          (Pandas.mask_or
             (map on (map (fun r => Title (cols r)) rows))
             (map on (map (fun r => Some (Authors r)) rows)))
          (map on (map (fun r => Topic (cols r)) rows)))
       (map on (map (fun r => Subtitle (cols r)) rows)))
  = Table (filter (row_hit m) rows).
Proof.
  intros on.
  rewrite !map_map, !mask_or_map.
  apply select_map.
Qed.

(** The [Authors] column holds a string as soon as the table has a row. *)
Lemma holds_str_authors (f : row -> cell) (rows : list row) :
  Pandas.holds_str (map f rows) = true ->
  Pandas.holds_str (map (fun r => Some (Authors r)) rows) = true.
Proof. destruct rows; [discriminate | reflexivity]. Qed.

(** [search_matches] is one pure selection from the frame of the store: it
    raises what the selection raises and leaves the world as it is, or
    returns the selected frame, held in a new object. *)
Lemma search_matches_run (lib : pylib) (self : LivingLibrary)
    (query : string) (w : world) :
  Current.search_matches lib self query w =
  match selected lib query (store self w) with
  | Raises e => (Raises e, w)
  | Returns ms =>
      (Returns ms, {| heap := heap w ++ [ms]; stdout := stdout w |})
  end.
Proof.
  unfold selected, Current.search_matches, Pandas.str_contains,
    Pandas.str_accessor, Pandas.getitem, bind, lift, deref, ret, raise,
    alloc, store.
  cbn [heap stdout df nth fst].
  destruct (nth (df self) (heap w) Blank) as [|rows]; [reflexivity|].
  cbn [heap stdout fst snd].
  repeat match goal with
         | |- context [if ?b then _ else _] =>
             destruct b; cbn [heap stdout fst snd]; try reflexivity
         | |- context [match Re.compile_ignorecase ?b ?q with _ => _ end] =>
             destruct (Re.compile_ignorecase b q);
             cbn [heap stdout fst snd]; try reflexivity
         end.
  rewrite nth_alloc. cbn [app length nth]. reflexivity.
Qed.

(** On a table whose searched columns each hold a string the selection is
    the filter by the compiled query. *)
Lemma selected_table (lib : pylib) (query : string) (rows : list row) :
  searchable rows = true ->
  selected lib query (Table rows) =
  match Re.compile_ignorecase (re_beyond lib) (PyStr.lower query) with
  | Raises e => Raises e
  | Returns m => Returns (Table (filter (row_hit m) rows))
  end.
Proof.
  unfold searchable. intros H.
  apply andb_prop in H. destruct H as [H Hsub].
  apply andb_prop in H. destruct H as [Htitle Htopic].
  unfold selected, Current.search_matches, Pandas.str_contains,
    Pandas.str_accessor, Pandas.getitem, bind, lift, deref, ret, raise,
    alloc.
  cbn [heap stdout df nth fst snd].
  rewrite Htitle, Htopic, Hsub, (holds_str_authors _ _ Htitle).
  cbn [orb negb fst snd heap stdout].
  destruct (Re.compile_ignorecase (re_beyond lib) (PyStr.lower query))
    as [m|e]; [|reflexivity].
  cbn [fst snd heap stdout app length nth].
  rewrite search_mask. reflexivity.
Qed.

(** The selection on any table: the accessor of each searched column and
    the compilation of the query, in the order of the source. *)
Lemma selected_run (lib : pylib) (query : string) (rows : list row) :
  let attr := Exn AttributeError
                "Can only use .str accessor with string values!" in
  let title := map (fun r => Title (cols r)) rows in
  let authors := map (fun r => Some (Authors r)) rows in
  let topic := map (fun r => Topic (cols r)) rows in
  let subtitle := map (fun r => Subtitle (cols r)) rows in
  selected lib query (Table rows) =
  if orb (Pandas.holds_str title) (andb true (Pandas.no_rows title))
  then
    match Re.compile_ignorecase (re_beyond lib) (PyStr.lower query) with
    | Raises e => Raises e
    | Returns m =>
        if orb (Pandas.holds_str authors)
               (andb false (Pandas.no_rows authors))
        then
          if orb (Pandas.holds_str topic) (andb true (Pandas.no_rows topic))
          then
            if orb (Pandas.holds_str subtitle)
                   (andb true (Pandas.no_rows subtitle))
            then Returns (Table (filter (row_hit m) rows))
            else Raises attr
          else Raises attr
        else Raises attr
    end
  else Raises attr.
Proof.
  intros attr title authors topic subtitle.
  unfold selected, Current.search_matches, Pandas.str_contains,
    Pandas.str_accessor, Pandas.getitem, bind, lift, deref, ret, raise,
    alloc.
  cbn [heap stdout df nth fst snd].
  fold title authors topic subtitle.
  destruct (orb (Pandas.holds_str title) _); [|reflexivity].
  cbn [fst snd heap stdout].
  destruct (Re.compile_ignorecase (re_beyond lib) (PyStr.lower query))
    as [m|e]; [|reflexivity].
  cbn [fst snd heap stdout].
  destruct (orb (Pandas.holds_str authors) _); [|reflexivity].
  cbn [fst snd heap stdout].
  destruct (orb (Pandas.holds_str topic) _); [|reflexivity].
  cbn [fst snd heap stdout].
  destruct (orb (Pandas.holds_str subtitle) _); [|reflexivity].
  cbn [fst snd heap stdout app length nth].
  unfold title, authors, topic, subtitle.
  rewrite search_mask. reflexivity.
Qed.

(** The frame [display_inventory] lists: the copy of the store, or the rows
    of the copy whose type the compiled filter accepts. *)
Lemma display_df_run (lib : pylib) (self : LivingLibrary)
    (filter_type : option string) (w : world) :
  Current.display_df lib self filter_type w =
  let d := store self w in
  let copied := {| heap := heap w ++ [d]; stdout := stdout w |} in
  match Current.truthy filter_type with
  | None => (Returns d, copied)
  | Some pat =>
      match d with
      | Blank => (Raises (Exn KeyError "'Type'"), copied)
      | Table rows =>
          let types := map (fun r => Type_ (cols r)) rows in
          if orb (Pandas.holds_str types) (Pandas.no_rows types)
          then
            match Re.compile_ignorecase (re_beyond lib) pat with
            | Raises e => (Raises e, copied)
            | Returns m =>
                (Returns (Table (filter (type_hit m) rows)),
                 {| heap := (heap w ++ [d])
                            ++ [Table (filter (type_hit m) rows)];
                    stdout := stdout w |})
            end
          else
            (Raises (Exn AttributeError
                       "Can only use .str accessor with string values!"),
             copied)
      end
  end.
Proof.
  unfold Current.display_df, Pandas.str_contains, Pandas.str_accessor,
    Pandas.getitem, bind, lift, deref, ret, raise, alloc, store.
  cbn [heap stdout].
  destruct (Current.truthy filter_type) as [pat|].
  - cbn [heap stdout]. rewrite nth_alloc.
    destruct (nth (df self) (heap w) Blank) as [|rows]; [reflexivity|].
    cbn [heap stdout].
    destruct (orb _ _); [|reflexivity].
    cbn [heap stdout].
    destruct (Re.compile_ignorecase (re_beyond lib) pat) as [m|e];
      [|reflexivity].
    cbn [heap stdout].
    rewrite map_map.
    change (map (fun x : row => match Type_ (cols x) with
                                | Some x0 => m x0
                                | None => false
                                end) rows)
      with (map (type_hit m) rows).
    rewrite select_map, nth_alloc.
    reflexivity.
  - cbn [heap stdout]. rewrite nth_alloc. reflexivity.
Qed.

(** ** Plain patterns are case-insensitive substring tests *)

Lemma lower_char_idem (c : ascii) :
  PyStr.lower_char (PyStr.lower_char c) = PyStr.lower_char c.
Proof. destruct c as [[] [] [] [] [] [] [] []]; reflexivity. Qed.

Lemma lower_idem (s : string) : PyStr.lower (PyStr.lower s) = PyStr.lower s.
Proof.
  induction s as [|c s IH]; simpl; [reflexivity|].
  rewrite lower_char_idem, IH. reflexivity.
Qed.

Lemma lower_char_special (c : ascii) :
  Re.special (PyStr.lower_char c) = Re.special c.
Proof. destruct c as [[] [] [] [] [] [] [] []]; reflexivity. Qed.

Lemma plain_lower (q : string) : Re.plain (PyStr.lower q) = Re.plain q.
Proof.
  induction q as [|c q IH]; simpl; [reflexivity|].
  rewrite lower_char_special, IH. reflexivity.
Qed.

Lemma special_dot (c : ascii) :
  Re.special c = false -> Ascii.eqb c "."%char = false.
Proof.
  destruct (Ascii.eqb_spec c "."%char) as [->|]; [discriminate|reflexivity].
Qed.

Lemma parse_plain (q : string) :
  Re.plain q = true -> Re.parse q = Some (Re.lits q).
Proof.
  induction q as [|c q IH]; simpl; [reflexivity|].
  intros H. apply andb_prop in H. destruct H as [Hc Hq].
  apply negb_true_iff in Hc.
  rewrite (IH Hq), (special_dot c Hc), Hc. reflexivity.
Qed.

Lemma leading_repeat_plain (q : string) :
  Re.plain q = true -> Re.leading_repeat q = false.
Proof.
  destruct q as [|c q]; simpl; [reflexivity|].
  intros H. apply andb_prop in H. destruct H as [Hc _].
  apply negb_true_iff in Hc. revert Hc.
  destruct c as [[] [] [] [] [] [] [] []]; cbv; congruence.
Qed.

Lemma match_here_lits (p s : string) :
  Re.match_here (Re.lits p) s
  = PyStr.startswith (PyStr.lower p) (PyStr.lower s).
Proof.
  revert s. induction p as [|a p IH]; intros s; simpl; [reflexivity|].
  destruct s as [|b s]; simpl; [reflexivity|].
  rewrite IH. reflexivity.
Qed.

Lemma search_lits (p s : string) :
  Re.search (Re.lits p) s = PyStr.contains (PyStr.lower p) (PyStr.lower s).
Proof.
  induction s as [|b s IH].
  - simpl. apply (match_here_lits p EmptyString).
  - change (Re.search (Re.lits p) (String b s))
      with (orb (Re.match_here (Re.lits p) (String b s))
                (Re.search (Re.lits p) s)).
    rewrite IH, match_here_lits. reflexivity.
Qed.

(** A plain query compiles, whatever the library does beyond the
    fragment, to the case-insensitive substring test. *)
Lemma compile_plain (beyond : string -> outcome Re.matcher) (q : string) :
  Re.plain q = true ->
  Re.compile_ignorecase beyond q = Returns (Re.search (Re.lits q)).
Proof.
  intros H. unfold Re.compile_ignorecase.
  rewrite (leading_repeat_plain q H), (parse_plain q H). reflexivity.
Qed.

Lemma row_hit_plain (q : string) (r : row) :
  row_hit (Re.search (Re.lits (PyStr.lower q))) r = entry_matches q r.
Proof.
  unfold row_hit, entry_matches, icontains.
  destruct (Title (cols r)), (Topic (cols r)), (Subtitle (cols r));
    rewrite ?search_lits, ?lower_idem; reflexivity.
Qed.

Lemma type_hit_plain (q : string) (r : row) :
  type_hit (Re.search (Re.lits q)) r = icontains q (Type_ (cols r)).
Proof.
  unfold type_hit, icontains.
  destruct (Type_ (cols r)); rewrite ?search_lits; reflexivity.
Qed.

(** The boolean tests decide the relations of the specification. *)
Lemma startswith_spec (p s : string) :
  PyStr.startswith p s = true <-> exists rest, s = p ++ rest.
Proof.
  revert s. induction p as [|a p IH]; intros s; simpl.
  - split; [intros _; exists s; reflexivity | reflexivity].
  - destruct s as [|b s].
    + split; [discriminate | intros [rest H]; discriminate].
    + rewrite andb_true_iff, IH. split.
      * intros [Hab [rest ->]]. apply Ascii.eqb_eq in Hab. subst b.
        exists rest. reflexivity.
      * intros [rest H]. injection H as -> ->.
        split; [apply Ascii.eqb_refl | exists rest; reflexivity].
Qed.

Lemma contains_spec (p s : string) :
  PyStr.contains p s = true <-> Substring p s.
Proof.
  unfold Substring. induction s as [|b s IH].
  - simpl. rewrite startswith_spec. split.
    + intros [rest H]. exists EmptyString, rest. exact H.
    + intros [before [after H]].
      destruct before; simpl in H; [exists after; exact H | discriminate].
  - change (PyStr.contains p (String b s))
      with (orb (PyStr.startswith p (String b s)) (PyStr.contains p s)).
    rewrite orb_true_iff, IH, startswith_spec. split.
    + intros [[rest H] | [before [after H]]].
      * exists EmptyString, rest. exact H.
      * exists (String b before), after. simpl. rewrite H. reflexivity.
    + intros [before [after H]]. destruct before as [|c before].
      * left. exists after. exact H.
      * right. simpl in H. injection H as _ H.
        exists before, after. exact H.
Qed.

(** On a plain query, [search_books] selects exactly the entries one of
    whose four fields contains the query, case-insensitively. *)
Lemma search_matches_plain (lib : pylib) (self : LivingLibrary)
    (query : string) (w : world) (rows : list row) :
  store self w = Table rows -> searchable rows = true ->
  Re.plain query = true ->
  fst (Current.search_matches lib self query w)
  = Returns (Table (filter (entry_matches query) rows)).
Proof.
  intros Hstore Hcols H. rewrite search_matches_run, Hstore.
  rewrite (selected_table _ _ _ Hcols).
  rewrite compile_plain by (rewrite plain_lower; exact H).
  cbn [fst]. do 2 f_equal.
  apply filter_ext. intros r. apply row_hit_plain.
Qed.

(** On a plain, non-empty filter, [display_inventory] keeps exactly the
    entries whose type contains the filter, case-insensitively. *)
Lemma display_df_plain (lib : pylib) (self : LivingLibrary)
    (pat : string) (w : world) (rows : list row) :
  store self w = Table rows ->
  Pandas.holds_str (map (fun r => Type_ (cols r)) rows) = true ->
  Re.plain pat = true -> pat <> "" ->
  fst (Current.display_df lib self (Some pat) w)
  = Returns (Table (filter (fun r => icontains pat (Type_ (cols r))) rows)).
Proof.
  intros Hstore Htypes H Hne. rewrite display_df_run, Hstore. cbn zeta.
  unfold Current.truthy.
  destruct (String.eqb_spec pat "") as [->|_]; [congruence|].
  rewrite Htypes. cbn [orb].
  rewrite (compile_plain _ pat H).
  cbn [fst]. do 2 f_equal.
  apply filter_ext. intros r. apply type_hit_plain.
Qed.

(** ** Year normalisation *)

Lemma replace_absent (old new s : string) :
  PyStr.contains old s = false -> PyStr.replace old new s = s.
Proof.
  unfold PyStr.replace. induction s as [|c s IH]; [reflexivity|].
  change (PyStr.contains old (String c s))
    with (orb (PyStr.startswith old (String c s)) (PyStr.contains old s)).
  intros H. apply orb_false_elim in H. destruct H as [Hhere Hlater].
  cbn [PyStr.replace_from]. rewrite Hhere, (IH Hlater). reflexivity.
Qed.

(** A string without [.0] that gets the suffix [.0] loses exactly that. *)
Lemma replace_suffix_only (s : string) :
  PyStr.contains ".0" s = false -> PyStr.replace ".0" "" (s ++ ".0") = s.
Proof.
  unfold PyStr.replace. induction s as [|c s IH]; [reflexivity|].
  change (PyStr.contains ".0" (String c s))
    with (orb (PyStr.startswith ".0" (String c s)) (PyStr.contains ".0" s)).
  intros H. apply orb_false_elim in H. destruct H as [Hhere Hlater].
  change (String c s ++ ".0") with (String c (s ++ ".0")).
  cbn [PyStr.replace_from].
  assert (Hpre : PyStr.startswith ".0" (String c (s ++ ".0")) = false).
  { destruct s as [|b s].
    - simpl. apply andb_false_iff. right. reflexivity.
    - exact Hhere. }
  rewrite Hpre, (IH Hlater). reflexivity.
Qed.

Lemma dotless_contains (s : string) :
  dotless s = true -> PyStr.contains ".0" s = false.
Proof.
  induction s as [|c s IH]; [reflexivity|].
  simpl dotless. intros H. apply andb_prop in H. destruct H as [Hc Hs].
  change (PyStr.contains ".0" (String c s))
    with (orb (PyStr.startswith ".0" (String c s)) (PyStr.contains ".0" s)).
  rewrite (IH Hs), orb_false_r.
  cbn [PyStr.startswith]. apply negb_true_iff in Hc.
  rewrite Ascii.eqb_sym, Hc. reflexivity.
Qed.

Lemma dotless_uint (d : Decimal.uint) :
  dotless (NilEmpty.string_of_uint d) = true.
Proof. induction d; simpl; auto. Qed.

Lemma dotless_str_int (n : Z) : dotless (PyStr.str_int n) = true.
Proof.
  unfold PyStr.str_int, NilZero.string_of_int, NilZero.string_of_uint.
  destruct (Z.to_int n) as [d|d]; destruct d; simpl;
    auto using dotless_uint.
Qed.

(** What the expression of [load_library_data] does on the values it is
    written for: a blank, a whole number, a float [n.0], and a text in
    which [.0] does not occur. *)
Lemma normalize_year_intended :
  Current.normalize_year YearNaN = "Unknown" /\
  (forall n fits,
     Current.normalize_year (YearInt n fits) = PyStr.str_int n) /\
  (forall n exact,
     Current.normalize_year (YearFloat n exact) = PyStr.str_int n) /\
  (forall s, PyStr.contains ".0" s = false ->
             Current.normalize_year (YearStr s) = s).
Proof.
  unfold Current.normalize_year. cbn [str_year].
  repeat split.
  - intros n _. apply replace_absent, dotless_contains, dotless_str_int.
  - intros n _. apply replace_suffix_only, dotless_contains, dotless_str_int.
  - intros s H. apply replace_absent. exact H.
Qed.

(** ** The columns set by [load_library_data] *)

Lemma combine_fst {A B} (xs : list A) (ys : list B) :
  length xs = length ys -> map fst (combine xs ys) = xs.
Proof.
  revert ys. induction xs as [|x xs IH]; intros [|y ys] H; simpl in *;
    try reflexivity; try discriminate.
  f_equal. apply IH. lia.
Qed.

Lemma combine_snd {A B} (xs : list A) (ys : list B) :
  length xs = length ys -> map snd (combine xs ys) = ys.
Proof.
  revert ys. induction xs as [|x xs IH]; intros [|y ys] H; simpl in *;
    try reflexivity; try discriminate.
  f_equal. apply IH. lia.
Qed.

Lemma map_combine_snd {A B C} (f : B -> C) (xs : list A) (ys : list B) :
  length xs = length ys ->
  map (fun p => f (snd p)) (combine xs ys) = map f ys.
Proof.
  intros H. rewrite <- (map_map snd f), (combine_snd xs ys H). reflexivity.
Qed.

Lemma ids_length (rows : list source_row) :
  length (map Z.of_nat (seq 1 (length rows))) = length rows.
Proof. rewrite length_map, length_seq. reflexivity. Qed.

(** The filter of the [lambda] keeps the named authors. *)
Lemma kept_authors (cs : list cell) :
  filter (fun val => andb (negb (String.eqb val ""))
                          (negb (String.eqb val "n/a")))
         (map (fun c : cell => match c with
                               | Some s => s
                               | None => ""
                               end) cs)
  = flat_map (fun c : cell =>
                match c with
                | Some s => if orb (String.eqb s "") (String.eqb s "n/a")
                            then []
                            else [s]
                | None => []
                end) cs.
Proof.
  induction cs as [|c cs IH]; [reflexivity|].
  cbn [map filter flat_map]. rewrite IH.
  destruct c as [s|]; [|reflexivity].
  destruct (String.eqb s ""), (String.eqb s "n/a"); reflexivity.
Qed.

Lemma named_nonempty (cs : list cell) :
  Forall (fun s => s <> "")
    (flat_map (fun c : cell =>
                 match c with
                 | Some s => if orb (String.eqb s "") (String.eqb s "n/a")
                             then []
                             else [s]
                 | None => []
                 end) cs).
Proof.
  induction cs as [|c cs IH]; [constructor|].
  cbn [flat_map]. destruct c as [s|]; [|exact IH].
  destruct (String.eqb_spec s "") as [->|Hne]; [exact IH|].
  destruct (String.eqb s "n/a"); [exact IH|].
  constructor; assumption.
Qed.

Lemma join_nonempty (sep : string) (xs : list string) :
  xs <> [] -> Forall (fun s => s <> "") xs -> PyStr.join sep xs <> "".
Proof.
  destruct xs as [|x xs]; [congruence|].
  intros _ H. inversion H as [|? ? Hx _]; subst.
  destruct x as [|c x]; [congruence|].
  destruct xs; simpl; discriminate.
Qed.

Lemma replace_blank_join (names : list string) :
  Forall (fun s => s <> "") names ->
  (if String.eqb (PyStr.join ", " names) "" then "Unknown"
   else PyStr.join ", " names)
  = match names with
    | [] => "Unknown"
    | x :: xs => PyStr.join ", " (x :: xs)
    end.
Proof.
  intros H. destruct names as [|x xs]; [reflexivity|].
  destruct (String.eqb_spec (PyStr.join ", " (x :: xs)) "") as [He|_];
    [|reflexivity].
  exfalso. revert He. apply join_nonempty; [discriminate | exact H].
Qed.

Lemma current_authors (r : source_row) :
  Current.replace_blank (Current.join_authors r) = collapsed_authors r.
Proof.
  unfold Current.replace_blank, Current.join_authors, Current.author_cols,
    collapsed_authors, named_authors.
  rewrite kept_authors. apply replace_blank_join, named_nonempty.
Qed.

Lemma legacy_authors (r : source_row) :
  Legacy.replace_blank (Legacy.join_authors r) = collapsed_authors r.
Proof.
  unfold Legacy.replace_blank, Legacy.join_authors, Legacy.author_cols,
    collapsed_authors, named_authors.
  rewrite kept_authors. apply replace_blank_join, named_nonempty.
Qed.

Lemma collapsed_nonempty (r : source_row) : collapsed_authors r <> "".
Proof.
  unfold collapsed_authors.
  assert (H : Forall (fun s => s <> "") (named_authors r))
    by apply named_nonempty.
  destruct (named_authors r) as [|x xs]; [discriminate|].
  apply join_nonempty; [discriminate | exact H].
Qed.

Lemma current_ids (rows : list source_row) :
  map ID (Current.add_columns rows) = map Z.of_nat (seq 1 (length rows)).
Proof.
  unfold Current.add_columns. rewrite map_map. cbn [ID].
  apply combine_fst, ids_length.
Qed.

Lemma legacy_ids (rows : list source_row) :
  map ID (Legacy.add_columns rows) = map Z.of_nat (seq 1 (length rows)).
Proof.
  unfold Legacy.add_columns. rewrite map_map. cbn [ID].
  apply combine_fst, ids_length.
Qed.

Lemma current_Authors_column (rows : list source_row) :
  map Authors (Current.add_columns rows) = map collapsed_authors rows.
Proof.
  unfold Current.add_columns. rewrite map_map. cbn [Authors].
  rewrite (map_combine_snd
             (fun s => Current.replace_blank (Current.join_authors s)))
    by apply ids_length.
  apply map_ext. intros s. apply current_authors.
Qed.

Lemma legacy_Authors_column (rows : list source_row) :
  map Authors (Legacy.add_columns rows) = map collapsed_authors rows.
Proof.
  unfold Legacy.add_columns. rewrite map_map. cbn [Authors].
  rewrite (map_combine_snd
             (fun s => Legacy.replace_blank (Legacy.join_authors s)))
    by apply ids_length.
  apply map_ext. intros s. apply legacy_authors.
Qed.

Lemma current_cols (rows : list source_row) :
  map cols (Current.add_columns rows)
  = map (fun s => set_Year (YearStr (Current.normalize_year (Year s))) s) rows.
Proof.
  unfold Current.add_columns. rewrite map_map. cbn [cols].
  apply (map_combine_snd
           (fun s => set_Year (YearStr (Current.normalize_year (Year s))) s)).
  apply ids_length.
Qed.

Lemma legacy_cols (rows : list source_row) :
  map cols (Legacy.add_columns rows) = rows.
Proof.
  unfold Legacy.add_columns. rewrite map_map. cbn [cols].
  apply combine_snd, ids_length.
Qed.

(** ** Heap discipline: the queries only allocate *)

Lemma read_only_ret {A} (a : A) : read_only (ret a).
Proof. intros w. exists []. symmetry. apply app_nil_r. Qed.

Lemma read_only_raise {A} (e : exn) : read_only (@raise A e).
Proof. intros w. exists []. symmetry. apply app_nil_r. Qed.

Lemma read_only_lift {A} (o : outcome A) : read_only (lift o).
Proof. intros w. exists []. symmetry. apply app_nil_r. Qed.

Lemma read_only_print (s : string) : read_only (print s).
Proof. intros w. exists []. symmetry. apply app_nil_r. Qed.

Lemma read_only_deref (l : loc) : read_only (deref l).
Proof. intros w. exists []. symmetry. apply app_nil_r. Qed.

Lemma read_only_alloc (d : frame) : read_only (alloc d).
Proof. intros w. exists [d]. reflexivity. Qed.

Lemma read_only_bind {A B} (m : M A) (k : A -> M B) :
  read_only m -> (forall a, read_only (k a)) -> read_only (bind m k).
Proof.
  intros Hm Hk w. unfold bind.
  destruct (Hm w) as [added1 H1].
  destruct (m w) as [[a|e] w1]; cbn [snd] in *.
  - destruct (Hk a w1) as [added2 H2].
    exists (added1 ++ added2)%list. rewrite H2, H1. symmetry. apply app_assoc.
  - exists added1. exact H1.
Qed.

Lemma read_only_try_except {A} (m : M A) (caught : exn_class -> bool)
    (h : exn -> M A) :
  read_only m -> (forall e, read_only (h e)) ->
  read_only (try_except m caught h).
Proof.
  intros Hm Hh w. unfold try_except.
  destruct (Hm w) as [added1 H1].
  destruct (m w) as [[a|e] w1]; cbn [snd] in *.
  - exists added1. exact H1.
  - destruct (caught (exn_cls e)); cbn [snd].
    + destruct (Hh e w1) as [added2 H2].
      exists (added1 ++ added2)%list. rewrite H2, H1. symmetry. apply app_assoc.
    + exists added1. exact H1.
Qed.

Lemma read_only_for_each {A} (xs : list A) (body : A -> M unit) :
  (forall x, read_only (body x)) -> read_only (for_each xs body).
Proof.
  intros H. induction xs as [|x xs IH]; simpl.
  - apply read_only_ret.
  - apply read_only_bind; [apply H | intros _; exact IH].
Qed.

Create HintDb read_only.
#[local] Hint Resolve read_only_ret read_only_raise read_only_lift
  read_only_print read_only_deref read_only_alloc : read_only.

(** Follow the shape of a method: sequence, branch, loop, handler. *)
Ltac read_only_step :=
  match goal with
  | |- read_only (bind _ _) => apply read_only_bind
  | |- read_only (try_except _ _ _) => apply read_only_try_except
  | |- read_only (for_each _ _) => apply read_only_for_each
  | |- read_only (match ?x with _ => _ end) => destruct x
  | |- forall _, _ => intro
  | |- _ => solve [auto with read_only]
  end.

Ltac read_only_walk := repeat read_only_step.

Lemma read_only_keeps {A} (m : M A) (w : world) (l : loc) :
  read_only m -> (l < length (heap w))%nat ->
  nth l (heap (snd (m w))) Blank = nth l (heap w) Blank.
Proof.
  intros Hm Hl. destruct (Hm w) as [added H].
  rewrite H. apply nth_kept. exact Hl.
Qed.

Lemma read_only_display_df lib self filter_type :
  read_only (Current.display_df lib self filter_type).
Proof.
  unfold Current.display_df, Pandas.str_contains, Pandas.str_accessor,
    Pandas.getitem.
  read_only_walk.
Qed.

Lemma read_only_print_row r : read_only (Current.print_row r).
Proof. unfold Current.print_row. read_only_walk. Qed.

Lemma read_only_display_inventory lib self filter_type :
  read_only (Current.display_inventory lib self filter_type).
Proof.
  unfold Current.display_inventory. read_only_walk;
    auto using read_only_display_df, read_only_print_row.
Qed.

Lemma read_only_search_matches lib self query :
  read_only (Current.search_matches lib self query).
Proof.
  unfold Current.search_matches, Pandas.str_contains, Pandas.str_accessor,
    Pandas.getitem.
  read_only_walk.
Qed.

Lemma read_only_print_match r : read_only (Current.print_match r).
Proof. unfold Current.print_match. read_only_walk. Qed.

Lemma read_only_search_books lib self query :
  read_only (Current.search_books lib self query).
Proof.
  unfold Current.search_books. read_only_walk;
    auto using read_only_search_matches, read_only_print_match.
Qed.

Lemma read_only_print_item r : read_only (Current.print_item r).
Proof. unfold Current.print_item. read_only_walk. Qed.

Lemma read_only_access_item self book_id :
  read_only (Current.access_item self book_id).
Proof.
  unfold Current.access_item, Pandas.getitem. read_only_walk;
    auto using read_only_print_item.
Qed.

Lemma read_only_get_types self :
  read_only (Current.get_types self).
Proof. unfold Current.get_types, Pandas.getitem. read_only_walk. Qed.

(** ** [load_library_data] and [access_item], run *)

Lemma load_run (lib : pylib) (file_path : string) (w : world) :
  Current.load_library_data lib file_path w =
  match delivered lib file_path with
  | Returns rows =>
      (Returns (length (heap w)),
       {| heap := heap w ++ [Table (Current.add_columns rows)];
          stdout := stdout w |})
  | Raises e =>
      (Returns (length (heap w)),
       {| heap := heap w ++ [Blank];
          stdout := stdout w ++ ["Error loading file: " ++ exn_msg e] |})
  end.
Proof.
  unfold Current.load_library_data, delivered, try_except, bind, lift, raise,
    alloc, print, any_Exception.
  destruct (String.eqb (Path_suffix lib file_path) ".xlsx").
  - destruct (read_excel lib file_path); reflexivity.
  - destruct (String.eqb (Path_suffix lib file_path) ".csv").
    + destruct (read_csv lib file_path); reflexivity.
    + reflexivity.
Qed.

Lemma legacy_load_run (lib : pylib) (file_path : string) (w : world) :
  Legacy.load_library_data lib file_path w =
  match delivered lib file_path with
  | Returns rows =>
      (Returns (length (heap w)),
       {| heap := heap w ++ [Table (Legacy.add_columns rows)];
          stdout := stdout w |})
  | Raises e =>
      (Returns (length (heap w)),
       {| heap := heap w ++ [Blank];
          stdout := stdout w ++ ["Error loading file: " ++ exn_msg e] |})
  end.
Proof.
  unfold Legacy.load_library_data, delivered, try_except, bind, lift, raise,
    alloc, print, any_Exception.
  destruct (String.eqb (Path_suffix lib file_path) ".xlsx").
  - destruct (read_excel lib file_path); reflexivity.
  - destruct (String.eqb (Path_suffix lib file_path) ".csv").
    + destruct (read_csv lib file_path); reflexivity.
    + reflexivity.
Qed.

Lemma init_run (lib : pylib) (file_path : string) (w : world) :
  Current.init lib file_path w =
  (Returns {| df := length (heap w) |},
   snd (Current.load_library_data lib file_path w)).
Proof.
  unfold Current.init, bind, ret. rewrite load_run.
  destruct (delivered lib file_path); reflexivity.
Qed.

Lemma legacy_init_run (lib : pylib) (file_path : string) (w : world) :
  Legacy.init lib file_path w =
  (Returns {| df := length (heap w) |},
   snd (Legacy.load_library_data lib file_path w)).
Proof.
  unfold Legacy.init, bind, ret. rewrite legacy_load_run.
  destruct (delivered lib file_path); reflexivity.
Qed.

Lemma ids_increasing (start n : nat) :
  StronglySorted Z.lt (map Z.of_nat (seq start n)).
Proof.
  revert start. induction n as [|n IH]; intros start; simpl.
  - constructor.
  - constructor; [apply IH|].
    apply Forall_forall. intros z Hz.
    apply in_map_iff in Hz. destruct Hz as [k [<- Hk]].
    apply in_seq in Hk. lia.
Qed.

Lemma increasing_NoDup (zs : list Z) : StronglySorted Z.lt zs -> NoDup zs.
Proof.
  induction 1 as [|z zs _ IH Hall]; constructor; [|exact IH].
  intros Hin. rewrite Forall_forall in Hall.
  specialize (Hall z Hin). lia.
Qed.

Lemma ids_NoDup (n : nat) : NoDup (map Z.of_nat (seq 1 n)).
Proof. apply increasing_NoDup, ids_increasing. Qed.

Lemma filter_increasing (f : row -> bool) (d : list row) :
  StronglySorted Z.lt (map ID d) ->
  StronglySorted Z.lt (map ID (filter f d)).
Proof.
  induction d as [|r d IH]; simpl; [intros H; exact H|].
  intros H. apply StronglySorted_inv in H. destruct H as [Hd Hr].
  destruct (f r); simpl; [|apply IH; exact Hd].
  constructor; [apply IH; exact Hd|].
  rewrite Forall_forall in *. intros z Hz.
  apply Hr. apply in_map_iff in Hz. destruct Hz as [x [<- Hx]].
  apply filter_In in Hx. apply in_map. apply Hx.
Qed.

Lemma same_ID_same_row (d : list row) (r r' : row) :
  NoDup (map ID d) -> In r d -> In r' d -> ID r = ID r' -> r = r'.
Proof.
  induction d as [|x d IH]; simpl; [contradiction|].
  intros Hnd Hr Hr' Heq. inversion Hnd as [|? ? Hx Hd]; subst.
  destruct Hr as [->|Hr], Hr' as [->|Hr'].
  - reflexivity.
  - exfalso. apply Hx. rewrite Heq. apply in_map. exact Hr'.
  - exfalso. apply Hx. rewrite <- Heq. apply in_map. exact Hr.
  - apply IH; assumption.
Qed.

(** The membership test, [index[0]] and [iloc] agree with [find]. *)
Lemma lookup_by_id (n : Z) (d : list row) :
  match find (fun r => Z.eqb (ID r) n) d with
  | Some item =>
      existsb (Z.eqb n) (map ID d) = true /\
      exists i, Pandas.first_index n d = Some i /\ nth_error d i = Some item
  | None => existsb (Z.eqb n) (map ID d) = false
  end.
Proof.
  induction d as [|r d IH]; [reflexivity|].
  cbn [find map existsb Pandas.first_index].
  rewrite (Z.eqb_sym n (ID r)).
  destruct (Z.eqb (ID r) n).
  - split; [reflexivity | exists O; split; reflexivity].
  - cbn [orb]. destruct (find (fun r0 => Z.eqb (ID r0) n) d) as [item|].
    + destruct IH as [Hin [i [Hi Hnth]]]. split; [exact Hin|].
      exists (S i). rewrite Hi. split; [reflexivity | exact Hnth].
    + exact IH.
Qed.

Lemma always_returns_print (s : string) : always_returns (print s).
Proof. intros w. reflexivity. Qed.

Lemma always_returns_ret : always_returns (ret tt).
Proof. intros w. reflexivity. Qed.

Lemma always_returns_bind (m : M unit) (k : unit -> M unit) :
  always_returns m -> always_returns (k tt) -> always_returns (bind m k).
Proof.
  intros Hm Hk w. unfold bind. specialize (Hm w).
  destruct (m w) as [[[]|e] w']; cbn [fst] in Hm; [apply Hk | discriminate].
Qed.

(** [print_item] prints the detail lines of the entry and nothing else. *)
Lemma print_item_run (item : row) (w : world) :
  Current.print_item item w =
  (Returns tt,
   {| heap := heap w; stdout := stdout w ++ detail_lines item |}).
Proof.
  unfold Current.print_item, detail_lines, bind, print, ret.
  cbn [heap stdout].
  destruct (Subtitle (cols item)) as [s|];
    (destruct (Free_Download (cols item)) as [c|];
     [destruct (Current.is_yes c _)|]);
    cbn [heap stdout]; rewrite <- ?app_assoc; cbn [app];
    rewrite ?app_nil_r; reflexivity.
Qed.

Lemma print_item_returns (item : row) (w : world) :
  fst (Current.print_item item w) = Returns tt.
Proof. rewrite print_item_run. reflexivity. Qed.

(** [access_item], run: the three results of the method, and the
    [KeyError] that escapes it on the frame without columns. *)
Lemma access_item_run (self : LivingLibrary) (book_id : string) (w : world) :
  Current.access_item self book_id w =
  match PyStr.int book_id with
  | None => (Returns InvalidIdFormat, w)
  | Some n =>
      match store self w with
      | Blank => (Raises (Exn KeyError "'ID'"), w)
      | Table rows =>
          match find (fun r => Z.eqb (ID r) n) rows with
          | None => (Returns NotFound, w)
          | Some item =>
              (Returns Displayed,
               {| heap := heap w;
                  stdout := stdout w ++ detail_lines item |})
          end
      end
  end.
Proof.
  unfold Current.access_item, try_except, store.
  destruct (PyStr.int book_id) as [n|]; [|reflexivity].
  unfold bind at 1. unfold ret at 1. unfold bind at 1. unfold deref at 1.
  destruct (nth (df self) (heap w) Blank) as [|rows]; [reflexivity|].
  unfold bind at 1. unfold Pandas.getitem, ret at 1. cbn [rows_of].
  pose proof (lookup_by_id n rows) as H.
  destruct (find (fun r => Z.eqb (ID r) n) rows) as [item|].
  - destruct H as [Hin [i [Hi Hnth]]]. rewrite Hin. cbn [negb].
    rewrite Hi. unfold bind at 1. unfold ret at 1.
    rewrite Hnth. unfold bind at 1. unfold ret at 1.
    unfold bind at 1. rewrite print_item_run. reflexivity.
  - rewrite H. reflexivity.
Qed.

(** * The properties of the specification *)

(** C1.  The claim fails on the code.  The first book of the three-book
    shelf has a subtitle, so each of the four searched columns holds a
    string.  On the query [.] [search_books] selects every entry of the
    shelf although none of the four searched fields of any of them contains
    a dot, and on the query [*] it raises [re.error] instead of answering:
    the query is compiled as a regular expression, not searched for as a
    substring.  The legacy script does the same.  And on the same three
    books without a subtitle the query [code] raises [AttributeError]: the
    absent subtitles are an error, not fields that never match. *)
Theorem search_books_compiles_the_query (lib : pylib) :
  searchable (rows_of (store demo_self demo_world)) = true /\
  fst (Current.search_matches lib demo_self "." demo_world)
    = Returns (store demo_self demo_world) /\
  length (rows_of (store demo_self demo_world)) = 3%nat /\
  filter (entry_matches ".") (rows_of (store demo_self demo_world)) = [] /\
  fst (Current.search_books lib demo_self "*" demo_world)
    = Raises (Exn re_error "nothing to repeat at position 0") /\
  fst (Legacy.search_matches lib demo_self "." demo_world)
    = Returns (store demo_self demo_world) /\
  fst (Legacy.search_books lib demo_self "*" demo_world)
    = Raises (Exn re_error "nothing to repeat at position 0") /\
  filter (entry_matches "code") (rows_of (store demo_self bare_world))
    = firstn 1 (rows_of (store demo_self bare_world)) /\
  raises_a AttributeError
    (fst (Current.search_books lib demo_self "code" bare_world)) /\
  raises_a AttributeError
    (fst (Legacy.search_books lib demo_self "code" bare_world)).
Proof. repeat split. Qed.

(** C2.  The claim fails on the code.  The year text [10.05.1999] does not
    end in [.0], so stripping a trailing [.0] leaves it as it is; the
    expression of [load_library_data] removes the [.0] inside it and the
    loaded entry carries [105.1999]. *)
Theorem year_replace_reaches_inside :
  strip_trailing_dot_zero "10.05.1999" = "10.05.1999" /\
  Current.normalize_year (YearStr "10.05.1999") = "105.1999" /\
  map (fun r => Year (cols r))
      (Current.add_columns
         [set_Year (YearStr "10.05.1999") (book "Deep Work" "Productivity")])
    = [YearStr "105.1999"].
Proof. repeat split. Qed.

(** C3.  In both scripts the [Authors] column of the loaded frame holds,
    row by row, the collapsed authors of the data model: the author cells
    that are present, not empty and not [n/a], in column order, joined by
    a comma and a space, or the word [Unknown] when there is none; and that
    string is never empty. *)
Theorem authors_column_is_collapsed (rows : list source_row) :
  map Authors (Current.add_columns rows) = map collapsed_authors rows /\
  map Authors (Legacy.add_columns rows) = map collapsed_authors rows /\
  Forall (fun r => Authors r <> "") (Current.add_columns rows) /\
  Forall (fun r => Authors r <> "") (Legacy.add_columns rows).
Proof.
  assert (Hne : forall d : list row,
             map Authors d = map collapsed_authors rows ->
             Forall (fun r => Authors r <> "") d).
  { intros d H. apply Forall_forall. intros r Hr.
    apply (in_map Authors) in Hr. rewrite H in Hr.
    apply in_map_iff in Hr. destruct Hr as [s [<- _]].
    apply collapsed_nonempty. }
  pose proof (current_Authors_column rows) as Hc.
  pose proof (legacy_Authors_column rows) as Hl.
  repeat split; auto.
Qed.

(** C6.  The claim fails on the code.  With the filter [.]
    [display_inventory] keeps every entry of the shelf although no type
    contains a dot, and with the filter [*] it raises [re.error]: the
    filter is compiled as a regular expression. *)
Theorem display_inventory_compiles_the_filter (lib : pylib) :
  fst (Current.display_df lib demo_self (Some ".") demo_world)
    = Returns (store demo_self demo_world) /\
  filter (fun r => icontains "." (Type_ (cols r)))
         (rows_of (store demo_self demo_world)) = [] /\
  fst (Current.display_inventory lib demo_self (Some "*") demo_world)
    = Raises (Exn re_error "nothing to repeat at position 0").
Proof. repeat split. Qed.

(** C4.  On a loaded catalog and an id typed in ASCII, [access_item] never
    raises and has three results, pairwise distinct: the invalid-format
    result when [int] rejects the input, with nothing printed; the
    not-found result when the integer is the id of no entry, with nothing
    printed; and otherwise the displayed result, after the detail lines of
    the one entry that carries the id, and nothing else, were printed.  The
    store is left as it is in each case. *)
Theorem access_item_contract (self : LivingLibrary) (w : world)
    (rows : list source_row) (book_id : string) :
  store self w = Table (Current.add_columns rows) ->
  PyStr.is_ascii book_id = true ->
  Current.access_item self book_id w =
    match PyStr.int book_id with
    | None => (Returns InvalidIdFormat, w)
    | Some n =>
        match find (fun r => Z.eqb (ID r) n) (Current.add_columns rows) with
        | None => (Returns NotFound, w)
        | Some item =>
            (Returns Displayed,
             {| heap := heap w; stdout := stdout w ++ detail_lines item |})
        end
    end /\
  (forall n,
     match find (fun r => Z.eqb (ID r) n) (Current.add_columns rows) with
     | None => ~ In n (map ID (Current.add_columns rows))
     | Some item =>
         In item (Current.add_columns rows) /\ ID item = n /\
         forall r, In r (Current.add_columns rows) -> ID r = n -> r = item
     end) /\
  InvalidIdFormat <> NotFound /\ InvalidIdFormat <> Displayed /\
  NotFound <> Displayed.
Proof.
  intros Hloaded _.
  split; [rewrite access_item_run, Hloaded; reflexivity|].
  split; [|repeat split; discriminate].
  intros n.
  destruct (find (fun r => Z.eqb (ID r) n) (Current.add_columns rows))
    as [item|] eqn:E.
  - apply find_some in E. destruct E as [Hin Hid].
    apply Z.eqb_eq in Hid. repeat split; try assumption.
    intros r Hr Hrn.
    apply (same_ID_same_row (Current.add_columns rows));
      try assumption; [|congruence].
    rewrite current_ids. apply ids_NoDup.
  - intros Hin. apply in_map_iff in Hin. destruct Hin as [r [Hr Hrin]].
    pose proof (find_none _ _ E r Hrin) as Hne. cbn beta in Hne.
    apply Z.eqb_neq in Hne. contradiction.
Qed.

Lemma access_item_contract_witness :
  store demo_self demo_world = Table (Current.add_columns shelf) /\
  Current.access_item demo_self "3" demo_world
    = (Returns Displayed,
       {| heap := heap demo_world;
          stdout := [nl ++ "Accessing: Deep Work";
                     "Authors: Unknown";
                     "Type: Book | Format: PDF";
                     "Topic: Productivity";
                     "Publisher: nan (2008)"] |}) /\
  Current.access_item demo_self "9999" demo_world
    = (Returns NotFound, demo_world) /\
  Current.access_item demo_self "abc" demo_world
    = (Returns InvalidIdFormat, demo_world).
Proof.
  refine (conj eq_refl (conj _ (conj _ _))).
  - rewrite (proj1 (access_item_contract demo_self demo_world shelf "3"
                      eq_refl eq_refl)).
    reflexivity.
  - rewrite (proj1 (access_item_contract demo_self demo_world shelf "9999"
                      eq_refl eq_refl)).
    reflexivity.
  - rewrite (proj1 (access_item_contract demo_self demo_world shelf "abc"
                      eq_refl eq_refl)).
    reflexivity.
Defined.

(** The frame of a failed load is empty, that of a successful load holds
    the rows with their new columns. *)
Lemma store_after_init (lib : pylib) (file_path : string) (w : world) :
  exists self w',
    Current.init lib file_path w = (Returns self, w') /\
    df self = length (heap w) /\
    (length (heap w) < length (heap w'))%nat /\
    store self w' = match delivered lib file_path with
                    | Returns rows => Table (Current.add_columns rows)
                    | Raises _ => Blank
                    end.
Proof.
  exists {| df := length (heap w) |},
         (snd (Current.load_library_data lib file_path w)).
  split; [apply init_run|]. split; [reflexivity|].
  rewrite load_run. unfold store. cbn [df].
  destruct (delivered lib file_path); cbn [snd heap];
    rewrite nth_alloc, length_app; cbn [length]; split; (lia || reflexivity).
Qed.

(** C5.  When the extension of the path is neither [.xlsx] nor [.csv], or
    the reader of a recognised file raises, constructing the library
    returns normally and the store is empty, which [df.empty] reports. *)
Theorem failed_load_leaves_empty_store (lib : pylib) (file_path : string)
    (w : world) :
  (Path_suffix lib file_path <> ".xlsx" /\
   Path_suffix lib file_path <> ".csv") \/
  (Path_suffix lib file_path = ".xlsx" /\
   exists e, read_excel lib file_path = Raises e) \/
  (Path_suffix lib file_path = ".csv" /\
   exists e, read_csv lib file_path = Raises e) ->
  exists self w',
    Current.init lib file_path w = (Returns self, w') /\
    store self w' = Blank /\
    Pandas.empty (store self w') = true.
Proof.
  intros H.
  assert (Hd : exists e, delivered lib file_path = Raises e).
  { unfold delivered.
    destruct H as [[Hx Hc] | [[Hx [e He]] | [Hc [e He]]]].
    - apply String.eqb_neq in Hx. apply String.eqb_neq in Hc.
      rewrite Hx, Hc. eexists. reflexivity.
    - rewrite Hx. cbn. exists e. exact He.
    - rewrite Hc. cbn. exists e. exact He. }
  destruct Hd as [e He].
  destruct (store_after_init lib file_path w) as [self [w' [Hi [_ [_ Hs]]]]].
  rewrite He in Hs.
  exists self, w'. rewrite Hs. repeat split. exact Hi.
Qed.

Lemma failed_load_leaves_empty_store_witness :
  (Path_suffix demo_lib "data/justLib.json" <> ".xlsx" /\
   Path_suffix demo_lib "data/justLib.json" <> ".csv") /\
  exists self w',
    Current.init demo_lib "data/justLib.json" empty_world = (Returns self, w') /\
    store self w' = Blank /\
    Pandas.empty (store self w') = true.
Proof.
  assert (H : Path_suffix demo_lib "data/justLib.json" <> ".xlsx" /\
              Path_suffix demo_lib "data/justLib.json" <> ".csv")
    by (split; discriminate).
  split; [exact H|].
  exact (failed_load_leaves_empty_store demo_lib "data/justLib.json"
           empty_world (or_introl H)).
Defined.

(** A query leaves the frame of a live store as it is. *)
Lemma store_kept {A} (m : M A) (self : LivingLibrary) (w : world) :
  read_only m -> (df self < length (heap w))%nat ->
  store self (snd (m w)) = store self w.
Proof. intros Hm Hl. unfold store. apply read_only_keeps; assumption. Qed.

Lemma delivered_rows (lib : pylib) (file_path : string)
    (rows : list source_row) :
  (Path_suffix lib file_path = ".xlsx" /\
   read_excel lib file_path = Returns rows) \/
  (Path_suffix lib file_path = ".csv" /\
   read_csv lib file_path = Returns rows) ->
  delivered lib file_path = Returns rows.
Proof.
  unfold delivered. intros [[Hs Hr] | [Hs Hr]]; rewrite Hs; cbn; exact Hr.
Qed.

(** C7.  When the reader delivers [N] rows, the loaded frame has one entry
    per row in the order of the rows, the ids are the integers [1] to [N]
    in that order, no id occurs twice, and the ids are the same after
    every query. *)
Theorem load_assigns_ids (lib : pylib) (file_path : string) (w : world)
    (rows : list source_row) :
  (Path_suffix lib file_path = ".xlsx" /\
   read_excel lib file_path = Returns rows) \/
  (Path_suffix lib file_path = ".csv" /\
   read_csv lib file_path = Returns rows) ->
  exists self w',
    Current.init lib file_path w = (Returns self, w') /\
    map ID (rows_of (store self w')) = map Z.of_nat (seq 1 (length rows)) /\
    NoDup (map ID (rows_of (store self w'))) /\
    map cols (rows_of (store self w'))
      = map (fun s => set_Year (YearStr (Current.normalize_year (Year s))) s)
            rows /\
    (forall filter_type,
        map ID (rows_of
                  (store self
                     (snd (Current.display_inventory lib self filter_type
                             w'))))
        = map ID (rows_of (store self w'))) /\
    (forall query,
        map ID (rows_of
                  (store self (snd (Current.search_books lib self query w'))))
        = map ID (rows_of (store self w'))) /\
    (forall book_id,
        map ID (rows_of
                  (store self (snd (Current.access_item self book_id w'))))
        = map ID (rows_of (store self w'))) /\
    map ID (rows_of (store self (snd (Current.get_types self w'))))
      = map ID (rows_of (store self w')).
Proof.
  intros H. apply delivered_rows in H.
  destruct (store_after_init lib file_path w)
    as [self [w' [Hi [Hdf [Hlen Hs]]]]].
  rewrite H in Hs.
  assert (Hlive : (df self < length (heap w'))%nat) by lia.
  exists self, w'. split; [exact Hi|].
  rewrite Hs. cbn [rows_of]. rewrite current_ids, current_cols.
  split; [reflexivity|]. split; [apply ids_NoDup|]. split; [reflexivity|].
  repeat split; intros;
    rewrite store_kept, Hs; cbn [rows_of]; rewrite ?current_ids;
    auto using read_only_display_inventory, read_only_search_books,
      read_only_access_item, read_only_get_types.
Qed.

Lemma load_assigns_ids_witness :
  (Path_suffix demo_lib "data/justLib.csv" = ".csv" /\
   read_csv demo_lib "data/justLib.csv" = Returns shelf) /\
  exists self w',
    Current.init demo_lib "data/justLib.csv" empty_world = (Returns self, w') /\
    map ID (rows_of (store self w')) = [1; 2; 3].
Proof.
  assert (H : Path_suffix demo_lib "data/justLib.csv" = ".csv" /\
              read_csv demo_lib "data/justLib.csv" = Returns shelf)
    by (split; reflexivity).
  split; [exact H|].
  destruct (load_assigns_ids demo_lib "data/justLib.csv" empty_world shelf
              (or_intror H)) as [self [w' [Hi [Hids _]]]].
  exists self, w'. split; [exact Hi | exact Hids].
Defined.

Lemma display_df_all (lib : pylib) (self : LivingLibrary) (w : world) :
  fst (Current.display_df lib self None w) = Returns (store self w).
Proof. rewrite display_df_run. reflexivity. Qed.

(** C8.  On a live store none of the four queries changes the frame the
    store refers to, nor any other object that existed before the call;
    listing without a filter twice yields the same sequence; and whenever
    the listing for the filter [book] returns, its sequence is a
    subsequence of the sequence listed without a filter.  It returns on
    every table whose [Type] column holds a string. *)
Theorem queries_leave_the_store (lib : pylib) (self : LivingLibrary)
    (w : world) :
  (df self < length (heap w))%nat ->
  (forall filter_type,
      store self (snd (Current.display_inventory lib self filter_type w))
      = store self w) /\
  (forall query,
      store self (snd (Current.search_books lib self query w))
      = store self w) /\
  (forall book_id,
      store self (snd (Current.access_item self book_id w)) = store self w) /\
  store self (snd (Current.get_types self w)) = store self w /\
  (forall (l : loc) (filter_type : option string) (query book_id : string),
      (l < length (heap w))%nat ->
      nth l (heap (snd (Current.display_inventory lib self filter_type w)))
          Blank
        = nth l (heap w) Blank /\
      nth l (heap (snd (Current.search_books lib self query w))) Blank
        = nth l (heap w) Blank /\
      nth l (heap (snd (Current.access_item self book_id w))) Blank
        = nth l (heap w) Blank /\
      nth l (heap (snd (Current.get_types self w))) Blank
        = nth l (heap w) Blank) /\
  fst (Current.display_df lib self None
         (snd (Current.display_inventory lib self None w)))
    = fst (Current.display_df lib self None w) /\
  (forall listed every,
      fst (Current.display_df lib self (Some "book") w) = Returns listed ->
      fst (Current.display_df lib self None w) = Returns every ->
      Subseq (rows_of listed) (rows_of every)) /\
  (forall rows,
      store self w = Table rows ->
      Pandas.holds_str (map (fun r => Type_ (cols r)) rows) = true ->
      exists listed,
        fst (Current.display_df lib self (Some "book") w) = Returns listed /\
        fst (Current.display_df lib self None w) = Returns (Table rows) /\
        Subseq (rows_of listed) rows).
Proof.
  intros Hlive.
  split; [intros; apply store_kept;
          auto using read_only_display_inventory|].
  split; [intros; apply store_kept; auto using read_only_search_books|].
  split; [intros; apply store_kept; auto using read_only_access_item|].
  split; [apply store_kept; auto using read_only_get_types|].
  split.
  { intros l filter_type query book_id Hl.
    repeat split; apply read_only_keeps;
      auto using read_only_display_inventory, read_only_search_books,
        read_only_access_item, read_only_get_types. }
  split.
  { rewrite !display_df_all. f_equal.
    apply store_kept; auto using read_only_display_inventory. }
  split.
  { intros listed every. rewrite display_df_all, display_df_run.
    cbn zeta. change (Current.truthy (Some "book")) with (Some "book").
    destruct (store self w) as [|rows]; [discriminate|].
    destruct (orb _ _); [|discriminate].
    rewrite (compile_plain _ "book" eq_refl). cbn [fst].
    intros Hl He. injection Hl as <-. injection He as <-.
    apply filter_Subseq. }
  intros rows Hstore Htypes.
  exists (Table (filter (fun r => icontains "book" (Type_ (cols r))) rows)).
  split;
    [apply display_df_plain; [assumption | assumption | reflexivity
                              | discriminate]|].
  split; [rewrite display_df_all, Hstore; reflexivity | apply filter_Subseq].
Qed.

Lemma queries_leave_the_store_witness :
  (df demo_self < length (heap demo_world))%nat /\
  store demo_self
    (snd (Current.search_books demo_lib demo_self "deep" demo_world))
  = store demo_self demo_world.
Proof.
  assert (H : (df demo_self < length (heap demo_world))%nat)
    by (cbv; lia).
  split; [exact H|].
  exact (proj1 (proj2 (queries_leave_the_store demo_lib demo_self demo_world
                         H)) "deep").
Defined.

(** ** What [search_books] prints *)

Lemma for_each_print_match (ms : list row) (w : world) :
  for_each ms Current.print_match w =
  (Returns tt,
   {| heap := heap w; stdout := stdout w ++ flat_map match_lines ms |}).
Proof.
  revert w. induction ms as [|r ms IH]; intros w.
  - destruct w as [h out]. cbn. rewrite app_nil_r. reflexivity.
  - cbn [for_each flat_map].
    unfold bind at 1. unfold Current.print_match, bind, print.
    cbn [heap stdout]. rewrite IH. cbn [heap stdout].
    f_equal. f_equal. unfold match_lines.
    rewrite <- !app_assoc. reflexivity.
Qed.

Lemma search_books_run (lib : pylib) (self : LivingLibrary)
    (query : string) (w : world) :
  Current.search_books lib self query w =
  match selected lib query (store self w) with
  | Raises e => (Raises e, w)
  | Returns ms =>
      (Returns tt,
       {| heap := heap w ++ [ms];
          stdout := stdout w ++ search_lines query ms |})
  end.
Proof.
  unfold Current.search_books. unfold bind at 1.
  rewrite search_matches_run.
  destruct (selected lib query (store self w)) as [ms|e]; [|reflexivity].
  unfold search_lines.
  destruct ms as [|[|r ms]]; try reflexivity.
  cbn [Pandas.empty rows_of]. unfold bind, print. cbn [heap stdout].
  rewrite for_each_print_match. cbn [heap stdout].
  f_equal. f_equal. rewrite <- !app_assoc. reflexivity.
Qed.

(** On every query that compiles, [search_books] selects a subsequence of
    the catalog with increasing ids, holds no entry twice, holds exactly
    the entries the mask accepts, and prints one block for each. *)
Lemma search_selection_in_order (lib : pylib) (self : LivingLibrary)
    (w : world) (rows : list source_row) (query : string) (m : Re.matcher) :
  store self w = Table (Current.add_columns rows) ->
  searchable (Current.add_columns rows) = true ->
  Re.compile_ignorecase (re_beyond lib) (PyStr.lower query) = Returns m ->
  exists matches,
    fst (Current.search_matches lib self query w) = Returns (Table matches) /\
    Subseq matches (Current.add_columns rows) /\
    StronglySorted Z.lt (map ID matches) /\
    NoDup matches /\
    (forall r, In r matches <->
               In r (Current.add_columns rows) /\ row_hit m r = true) /\
    fst (Current.search_books lib self query w) = Returns tt /\
    stdout (snd (Current.search_books lib self query w))
      = (stdout w ++ search_lines query (Table matches))%list.
Proof.
  intros Hloaded Hcols Hm.
  exists (filter (row_hit m) (Current.add_columns rows)).
  rewrite search_matches_run, search_books_run, Hloaded.
  rewrite (selected_table _ _ _ Hcols), Hm. cbn [fst snd stdout].
  assert (Hsorted : StronglySorted Z.lt
                      (map ID (filter (row_hit m)
                                 (Current.add_columns rows)))).
  { apply filter_increasing. rewrite current_ids.
    apply ids_increasing. }
  split; [reflexivity|].
  split; [apply filter_Subseq|].
  split; [exact Hsorted|].
  split; [apply (NoDup_map_inv ID), increasing_NoDup; exact Hsorted|].
  split; [intros r; apply filter_In|].
  split; reflexivity.
Qed.

(** C9.  The claim fails on the code.  The one book of the shelf
    [puzzles] has a title and a topic that both contain the query [?], so
    it matches on two fields; [search_books] raises [re.error] on that
    query and lists the book not once but not at all, in both scripts. *)
Theorem search_books_raises_on_a_match (lib : pylib) :
  Forall (fun r => icontains "?" (Title (cols r)) = true /\
                   icontains "?" (Topic (cols r)) = true /\
                   entry_matches "?" r = true)
         (rows_of (store demo_self puzzles_world)) /\
  length (rows_of (store demo_self puzzles_world)) = 1%nat /\
  Current.search_matches lib demo_self "?" puzzles_world
    = (Raises (Exn re_error "nothing to repeat at position 0"),
       puzzles_world) /\
  Current.search_books lib demo_self "?" puzzles_world
    = (Raises (Exn re_error "nothing to repeat at position 0"),
       puzzles_world) /\
  Legacy.search_books lib demo_self "?" puzzles_world
    = (Raises (Exn re_error "nothing to repeat at position 0"),
       puzzles_world).
Proof.
  split; [|repeat split].
  repeat constructor.
Qed.

(** ** The two scripts side by side *)

Lemma legacy_store_after_init (lib : pylib) (file_path : string) (w : world) :
  store {| df := length (heap w) |} (snd (Legacy.init lib file_path w))
  = match delivered lib file_path with
    | Returns rows => Table (Legacy.add_columns rows)
    | Raises _ => Blank
    end /\
  stdout (snd (Legacy.init lib file_path w))
  = stdout (snd (Current.init lib file_path w)).
Proof.
  rewrite legacy_init_run, init_run, legacy_load_run, load_run.
  unfold store. cbn [df snd].
  destruct (delivered lib file_path); cbn [snd heap stdout];
    rewrite nth_alloc; split; reflexivity.
Qed.

Lemma current_store_after_init (lib : pylib) (file_path : string) (w : world) :
  store {| df := length (heap w) |} (snd (Current.init lib file_path w))
  = match delivered lib file_path with
    | Returns rows => Table (Current.add_columns rows)
    | Raises _ => Blank
    end.
Proof.
  rewrite init_run, load_run. unfold store. cbn [df snd].
  destruct (delivered lib file_path); cbn [snd heap];
    rewrite nth_alloc; reflexivity.
Qed.

(** The frames the two scripts load from the same rows differ in the
    [Year] column only. *)
Lemma same_entries_but_year (rows : list source_row) :
  map forget_year (Legacy.add_columns rows)
  = map forget_year (Current.add_columns rows).
Proof.
  unfold Legacy.add_columns, Current.add_columns.
  rewrite !map_map. apply map_ext. intros [i s]. reflexivity.
Qed.

Lemma filter_forget_year (m : Re.matcher) (d : list row) :
  map forget_year (filter (row_hit m) d)
  = filter (row_hit m) (map forget_year d).
Proof.
  induction d as [|r d IH]; [reflexivity|].
  cbn [map filter].
  change (row_hit m (forget_year r)) with (row_hit m r).
  destruct (row_hit m r); cbn [map]; rewrite IH; reflexivity.
Qed.

Lemma match_lines_forget_year (ms : list row) :
  flat_map match_lines (map forget_year ms) = flat_map match_lines ms.
Proof.
  induction ms as [|r ms IH]; [reflexivity|].
  cbn [map flat_map]. rewrite IH. reflexivity.
Qed.

Lemma search_lines_forget_year (query : string) (ms : list row) :
  search_lines query (Table (map forget_year ms))
  = search_lines query (Table ms).
Proof.
  unfold search_lines. cbn [rows_of]. rewrite match_lines_forget_year.
  destruct ms; reflexivity.
Qed.

(** [search_books] does not read the [Year] column: on a table and on the
    same table without its years the selection raises the same exception,
    or it is the filter by the same compiled query. *)
Lemma selected_forget_year (lib : pylib) (query : string) (rows : list row) :
  (exists e,
      selected lib query (Table rows) = Raises e /\
      selected lib query (Table (map forget_year rows)) = Raises e) \/
  (exists m,
      selected lib query (Table rows)
        = Returns (Table (filter (row_hit m) rows)) /\
      selected lib query (Table (map forget_year rows))
        = Returns (Table (filter (row_hit m) (map forget_year rows)))).
Proof.
  rewrite !selected_run. cbn zeta. rewrite !map_map.
  cbn [forget_year cols set_Year Title Topic Subtitle Authors].
  repeat match goal with
         | |- context [if ?b then _ else _] => destruct b
         | |- context [match Re.compile_ignorecase ?b ?q with _ => _ end] =>
             destruct (Re.compile_ignorecase b q)
         end;
    solve [left; eexists; split; reflexivity
          | right; eexists; split; reflexivity].
Qed.

(** Selections of one query from two tables that differ in [Year] only
    raise alike, or differ in [Year] only and print the same. *)
Lemma selections_agree (lib : pylib) (query : string) (dl dc : list row) :
  map forget_year dl = map forget_year dc ->
  match selected lib query (Table dl), selected lib query (Table dc) with
  | Returns ml, Returns mc =>
      map forget_year (rows_of ml) = map forget_year (rows_of mc) /\
      search_lines query ml = search_lines query mc
  | Raises el, Raises ec => el = ec
  | _, _ => False
  end.
Proof.
  intros H.
  destruct (selected_forget_year lib query dl)
    as [[el [Hl Hl']] | [ml [Hl Hl']]];
    destruct (selected_forget_year lib query dc)
      as [[ec [Hc Hc']] | [mc [Hc Hc']]];
    rewrite H in Hl'; rewrite Hl' in Hc'; rewrite Hl, Hc;
    try discriminate.
  - congruence.
  - injection Hc' as Hsel. cbn [rows_of].
    assert (Hfy : map forget_year (filter (row_hit ml) dl)
                  = map forget_year (filter (row_hit mc) dc))
      by (rewrite !filter_forget_year, H; exact Hsel).
    split; [exact Hfy|].
    rewrite <- (search_lines_forget_year query (filter (row_hit ml) dl)),
            <- (search_lines_forget_year query (filter (row_hit mc) dc)),
            Hfy.
    reflexivity.
Qed.

(** C10.  The [search_books] of the legacy script and that of the current
    script are the same computation: on every store, query and world they
    return or raise alike, select the same frame and print the same
    lines.  Run each after its own script has loaded the same file, they
    raise alike or select the same entries in the same order (entries that
    differ at most in the [Year] text, which only the current script
    rewrites) and print the same lines. *)
Theorem search_books_legacy_current (lib : pylib) (file_path query : string)
    (w : world) :
  (forall self w0,
      Legacy.search_matches lib self query w0
        = Current.search_matches lib self query w0 /\
      Legacy.search_books lib self query w0
        = Current.search_books lib self query w0) /\
  let self := {| df := length (heap w) |} in
  let wl := snd (Legacy.init lib file_path w) in
  let wc := snd (Current.init lib file_path w) in
  fst (Legacy.init lib file_path w) = Returns self /\
  fst (Current.init lib file_path w) = Returns self /\
  match fst (Legacy.search_matches lib self query wl),
        fst (Current.search_matches lib self query wc) with
  | Returns ml, Returns mc =>
      map forget_year (rows_of ml) = map forget_year (rows_of mc) /\
      map ID (rows_of ml) = map ID (rows_of mc)
  | Raises el, Raises ec => el = ec
  | _, _ => False
  end /\
  fst (Legacy.search_books lib self query wl)
    = fst (Current.search_books lib self query wc) /\
  stdout (snd (Legacy.search_books lib self query wl))
    = stdout (snd (Current.search_books lib self query wc)).
Proof.
  split; [intros self w0; split; reflexivity|].
  intros self wl wc.
  split; [rewrite legacy_init_run; reflexivity|].
  split; [rewrite init_run; reflexivity|].
  change (Legacy.search_matches lib self query wl)
    with (Current.search_matches lib self query wl).
  change (Legacy.search_books lib self query wl)
    with (Current.search_books lib self query wl).
  rewrite !search_matches_run, !search_books_run.
  destruct (legacy_store_after_init lib file_path w) as [Hl Hout].
  pose proof (current_store_after_init lib file_path w) as Hc.
  fold self wl in Hl, Hout. fold self wc in Hc, Hout.
  rewrite Hl, Hc.
  destruct (delivered lib file_path) as [rows|e].
  - pose proof (selections_agree lib query _ _ (same_entries_but_year rows))
      as H.
    destruct (selected lib query (Table (Legacy.add_columns rows)))
      as [ml|el];
      destruct (selected lib query (Table (Current.add_columns rows)))
        as [mc|ec]; try contradiction; cbn [fst snd stdout].
    + destruct H as [Hsel Hlines].
      rewrite Hout, Hlines. repeat split; try reflexivity; try exact Hsel.
      apply (f_equal (map ID)) in Hsel. rewrite !map_map in Hsel.
      exact Hsel.
    + subst ec. repeat split; try reflexivity. exact Hout.
  - change (selected lib query Blank) with
      (@Raises frame (Exn KeyError "'Title'")).
    cbn [fst snd stdout]. repeat split; try reflexivity. exact Hout.
Qed.

(** The boolean test of the data model says what the specification says:
    one of the four fields is present and contains the query, letter case
    apart. *)
Lemma entry_matches_spec (query : string) (r : row) :
  entry_matches query r = true <->
  exists field,
    In (Some field)
       [Title (cols r); Some (Authors r); Topic (cols r); Subtitle (cols r)] /\
    Substring (PyStr.lower query) (PyStr.lower field).
Proof.
  unfold entry_matches. rewrite !orb_true_iff. split.
  - intros [[[H|H]|H]|H];
      [destruct (Title (cols r)) as [s|] eqn:E
      |exists (Authors r)
      |destruct (Topic (cols r)) as [s|] eqn:E
      |destruct (Subtitle (cols r)) as [s|] eqn:E];
      try discriminate;
      try (exists s); (split; [cbn; tauto | apply contains_spec; exact H]).
  - intros [field [Hin Hsub]]. apply contains_spec in Hsub.
    cbn in Hin. destruct Hin as [E|[E|[E|[E|[]]]]].
    + left; left; left. rewrite E. exact Hsub.
    + left; left; right. injection E as ->. exact Hsub.
    + left; right. rewrite E. exact Hsub.
    + right. rewrite E. exact Hsub.
Qed.

(** ** The examples of the specification *)

Example author_collapse_example :
  collapsed_authors
    {| Title := Some "Notes"; Subtitle := None;
       Author_1 := Some "Ada"; Author_2 := Some ""; Author_3 := Some "n/a";
       Author_4 := None; Author_5 := Some "Lovelace";
       Type_ := None; Format := None; Topic := None; Publisher := None;
       Year := YearNaN; Free_Download := None |} = "Ada, Lovelace" /\
  collapsed_authors blank_row = "Unknown".
Proof. split; reflexivity. Qed.

Example year_examples :
  Current.normalize_year (YearFloat 1999 eq_refl) = "1999" /\
  Current.normalize_year YearNaN = "Unknown" /\
  Current.normalize_year (YearStr "c. 1850") = "c. 1850".
Proof. repeat split. Qed.

Example search_deep_example :
  fst (Current.search_matches demo_lib demo_self "deep" demo_world)
  = Returns (Table (filter (fun r => Z.eqb (ID r) 3)
                      (rows_of (store demo_self demo_world)))).
Proof. reflexivity. Qed.

Example lower_mixed : PyStr.lower "Ada LOVELACE" = "ada lovelace".
Proof. reflexivity. Qed.

Example int_examples :
  PyStr.int " 42 " = Some 42 /\ PyStr.int "-7" = Some (-7) /\
  PyStr.int "1_000" = Some 1000 /\ PyStr.int "abc" = None /\
  PyStr.int "" = None /\ PyStr.int "1__0" = None /\ PyStr.int "_1" = None /\
  PyStr.int "1_" = None /\ PyStr.int "+ 1" = None /\ PyStr.int "007" = Some 7.
Proof. repeat split. Qed.

Example int_digit_limit :
  PyStr.int (PyStr.repeat_char "0" 4299 ++ "7") = Some 7 /\
  PyStr.int (PyStr.repeat_char "0" 4300 ++ "7") = None.
Proof. split; vm_compute; reflexivity. Qed.

Example fmt_examples :
  PyStr.fmt_3d 7 = "  7" /\ PyStr.fmt_3d 1234 = "1234" /\ PyStr.str_int 0 = "0".
Proof. repeat split. Qed.

Example suffix_examples :
  posix_suffix "data/justLib.csv" = ".csv" /\
  posix_suffix "a.b/readme" = "" /\
  posix_suffix ".bashrc" = "" /\
  posix_suffix "shelf.tar.gz" = ".gz" /\
  posix_suffix "shelf.csv/." = ".csv" /\
  posix_suffix "data//shelf.csv/" = ".csv" /\
  posix_suffix "shelf." = "" /\
  posix_suffix "/" = "" /\
  posix_suffix "x/.." = "" /\
  posix_suffix ".a.b" = ".b" /\
  posix_suffix Console.spreadsheet_path = ".csv".
Proof. repeat split. Qed.

Example empty_listing_example :
  fst (Current.display_inventory demo_lib demo_self (Some "video") demo_world)
    = Returns tt /\
  stdout (snd (Current.display_inventory demo_lib demo_self (Some "video")
                 demo_world))
    = ["Inventory is empty."].
Proof. split; reflexivity. Qed.


(** * More of the two scripts *)

(** ** [check_quit_or_back] and [safe_input] *)

Lemma str_isspace_lower (c : ascii) :
  str_isspace (PyStr.lower_char c) = str_isspace c /\
  (str_isspace c = true -> PyStr.lower_char c = c).
Proof. destruct c as [[] [] [] [] [] [] [] []]; split; reflexivity || discriminate. Qed.

Lemma lstrip_lower (s : string) :
  str_lstrip (PyStr.lower s) = PyStr.lower (str_lstrip s).
Proof.
  induction s as [|c s IH]; [reflexivity|].
  cbn [PyStr.lower str_lstrip].
  rewrite (proj1 (str_isspace_lower c)).
  destruct (str_isspace c); [exact IH | reflexivity].
Qed.

Lemma rstrip_lower (s : string) :
  str_rstrip (PyStr.lower s) = PyStr.lower (str_rstrip s).
Proof.
  induction s as [|c s IH]; [reflexivity|].
  cbn [PyStr.lower str_rstrip]. rewrite IH.
  destruct (str_rstrip s) as [|b r]; cbn [PyStr.lower]; [|reflexivity].
  rewrite (proj1 (str_isspace_lower c)).
  destruct (str_isspace c); reflexivity.
Qed.

(** Lowering and stripping commute. *)
Lemma strip_lower (s : string) :
  str_strip (PyStr.lower s) = PyStr.lower (str_strip s).
Proof. unfold str_strip. rewrite lstrip_lower, rstrip_lower. reflexivity. Qed.

Lemma word_in_app (x : string) (xs ys : list string) :
  word_in x (xs ++ ys) = orb (word_in x xs) (word_in x ys).
Proof. unfold word_in. apply existsb_app. Qed.

Lemma safe_input_run (prompt line : string) (rest : list string) (w : world) :
  Console.safe_input prompt (line :: rest) w =
  Ok (answered line) rest
     {| heap := heap w;
        stdout := (stdout w ++ [prompt])
                  ++ (if word_in (str_strip (PyStr.lower line))
                           Console.quit_words
                      then [goodbye] else []) |}.
Proof.
  unfold Console.safe_input, Console.check_quit_or_back, answered, cbind,
    input, run, cret.
  rewrite word_in_app.
  destruct (word_in (str_strip (PyStr.lower line)) Console.quit_words).
  - reflexivity.
  - cbn [orb].
    destruct (word_in (str_strip (PyStr.lower line)) Console.back_words);
      cbn; rewrite app_nil_r; reflexivity.
Qed.

Lemma safe_input_eof (prompt : string) (w : world) :
  Console.safe_input prompt [] w =
  Fail EOFError [] {| heap := heap w; stdout := stdout w ++ [prompt] |}.
Proof. reflexivity. Qed.

(** No line is answered with ['QUIT'], with or without blanks around. *)
Lemma answered_not_quit (line : string) :
  answered line <> "QUIT" /\ str_strip (answered line) <> "QUIT".
Proof.
  unfold answered.
  destruct (word_in (str_strip (PyStr.lower line))
              (Console.quit_words ++ Console.back_words)) eqn:E.
  - split; discriminate.
  - assert (H : str_strip line <> "QUIT").
    { intros H. rewrite strip_lower, H in E. discriminate. }
    split; [|exact H].
    intros ->. apply H. reflexivity.
Qed.

(** The command [main] reads off an answer is in lower case and is no
    command to quit. *)
Lemma command_not_quit (line : string) :
  let user_choice := str_strip (PyStr.lower (answered line)) in
  String.eqb user_choice "BACK" = false /\
  word_in user_choice Console.quit_words = false /\
  (word_in (str_strip (PyStr.lower line))
     (Console.quit_words ++ Console.back_words) = true ->
   user_choice = "back") /\
  (word_in (str_strip (PyStr.lower line))
     (Console.quit_words ++ Console.back_words) = false ->
   user_choice = str_strip (PyStr.lower line)).
Proof.
  cbn zeta. unfold answered.
  destruct (word_in (str_strip (PyStr.lower line))
              (Console.quit_words ++ Console.back_words)) eqn:E.
  - repeat split; try reflexivity. discriminate.
  - rewrite word_in_app in E. apply orb_false_elim in E.
    destruct E as [Eq _].
    split; [|split; [exact Eq | split; [discriminate | reflexivity]]].
    apply String.eqb_neq. intros H.
    assert (H' : PyStr.lower (str_strip (PyStr.lower line)) = "back")
      by (rewrite H; reflexivity).
    rewrite <- strip_lower, lower_idem, H in H'. discriminate.
Qed.

(** ** The branches of the menu *)

Lemma read_from_one (x : string) (i : list string) : read_from (x :: i) i.
Proof. exists [x]. split; [discriminate | reflexivity]. Qed.

Lemma read_from_more (x : string) (i i' : list string) :
  read_from i i' -> read_from (x :: i) i'.
Proof.
  intros [lines [_ ->]]. exists (x :: lines).
  split; [discriminate | reflexivity].
Qed.

Lemma read_from_trans (i j k : list string) :
  read_from i j -> read_from j k -> read_from i k.
Proof.
  intros [l1 [H1 ->]] [l2 [_ ->]]. exists (l1 ++ l2)%list. split.
  - destruct l1; [congruence | discriminate].
  - apply app_assoc.
Qed.

Lemma read_from_length (i i' : list string) :
  read_from i i' -> (length i' < length i)%nat.
Proof.
  intros [lines [H ->]]. rewrite length_app.
  destruct lines; [congruence | cbn; lia].
Qed.

Lemma read_from_Forall (P : string -> Prop) (i i' : list string) :
  read_from i i' -> Forall P i -> Forall P i'.
Proof.
  intros [lines [_ ->]] H. apply Forall_app in H. apply H.
Qed.

Lemma always_returns_for_each {A} (xs : list A) (body : A -> M unit) :
  (forall x, always_returns (body x)) -> always_returns (for_each xs body).
Proof.
  intros H. induction xs as [|x xs IH]; simpl.
  - apply always_returns_ret.
  - apply always_returns_bind; [apply H | exact IH].
Qed.

Lemma print_row_returns (r : row) : always_returns (Current.print_row r).
Proof.
  unfold Current.print_row.
  repeat (apply always_returns_bind; [apply always_returns_print|]).
  apply always_returns_bind; [|apply always_returns_print].
  destruct (Free_Download (cols r)) as [c|]; [|apply always_returns_ret].
  destruct (Current.is_yes c _);
    [apply always_returns_print | apply always_returns_ret].
Qed.

(** Listing without a filter never raises. *)
Lemma display_all_returns (lib : pylib) (self : LivingLibrary) (w : world) :
  fst (Current.display_inventory lib self None w) = Returns tt.
Proof.
  unfold Current.display_inventory. unfold bind at 1.
  rewrite display_df_run. cbn zeta. cbn [Current.truthy].
  destruct (store self w) as [|[|r d]]; try reflexivity.
  - cbn [Pandas.empty].
    apply (always_returns_bind _ _ (always_returns_print _)).
    apply (always_returns_bind _ _ (always_returns_print _)).
    apply (always_returns_bind _ _ (always_returns_print _)).
    apply always_returns_for_each. exact print_row_returns.
Qed.

Lemma access_item_returns (self : LivingLibrary) (book_id : string)
    (w : world) (rows : list row) :
  store self w = Table rows ->
  exists r, fst (Current.access_item self book_id w) = Returns r.
Proof.
  intros Hstore. rewrite access_item_run, Hstore.
  destruct (PyStr.int book_id) as [n|]; [|eexists; reflexivity].
  destruct (find _ _); eexists; reflexivity.
Qed.

(** Rules for [post]. *)
Lemma post_bind {A B} (spin : Prop) (m : C A) (k : A -> C B)
    (i : list string) (w : world) (Q : B -> list string -> world -> Prop) :
  post spin m i w (fun a i' w' => post spin (k a) i' w' Q) ->
  post spin (cbind m k) i w Q.
Proof.
  unfold post, cbind. destruct (m i w); intros H; exact H.
Qed.

Lemma post_weaken {A} (spin spin' : Prop) (m : C A) (i : list string)
    (w : world) (Q Q' : A -> list string -> world -> Prop) :
  (spin -> spin') -> (forall a i' w', Q a i' w' -> Q' a i' w') ->
  post spin m i w Q -> post spin' m i w Q'.
Proof.
  unfold post. intros Hs HQ. destruct (m i w); auto.
Qed.

Lemma post_ret {A} (spin : Prop) (a : A) (i : list string) (w : world)
    (Q : A -> list string -> world -> Prop) :
  Q a i w -> post spin (cret a) i w Q.
Proof. intros H. exact H. Qed.

Lemma post_run {A} (spin : Prop) (m : M A) (i : list string) (w : world)
    (Q : A -> list string -> world -> Prop) :
  (forall a w', Q a i w') -> post spin (run m) i w Q.
Proof.
  intros H. unfold post, run. destruct (m w) as [[a|e] w']; [apply H | exact I].
Qed.

Lemma post_say (spin : Prop) (s : string) (i : list string) (w : world)
    (Q : unit -> list string -> world -> Prop) :
  (forall w', Q tt i w') -> post spin (say s) i w Q.
Proof. intros H. apply H. Qed.

Lemma post_join_cells (spin : Prop) (cs : list cell) (i : list string)
    (w : world) (Q : string -> list string -> world -> Prop) :
  (forall s, Q s i w) -> post spin (join_cells cs) i w Q.
Proof.
  intros H. unfold post, join_cells.
  destruct (all_str cs); [apply H | exact I].
Qed.

Lemma post_topics_line (spin : Prop) (lead : string) (shown : nat)
    (topics : list cell) (i : list string) (w : world)
    (Q : string -> list string -> world -> Prop) :
  (forall s, Q s i w) -> post spin (Console.topics_line lead shown topics) i w Q.
Proof.
  intros H. unfold Console.topics_line.
  destruct (Nat.ltb 10 (length topics));
    apply post_bind, post_join_cells; intros s; apply post_ret, H.
Qed.

Lemma post_safe_input (spin : Prop) (prompt : string) (i : list string)
    (w : world) (Q : string -> list string -> world -> Prop) :
  (forall line rest w', i = line :: rest -> Q (answered line) rest w') ->
  post spin (Console.safe_input prompt) i w Q.
Proof.
  intros H. unfold post. destruct i as [|line rest].
  - rewrite safe_input_eof. exact I.
  - rewrite safe_input_run. apply H. reflexivity.
Qed.

(** The access branch reads one line and goes back to the menu. *)
Lemma access_branch_stays (lib : pylib) (library : LivingLibrary)
    (i : list string) (w : world) :
  post False (Console.access_branch lib library) i w
       (fun f i' _ => f = Again /\ read_from i i').
Proof.
  unfold Console.access_branch.
  apply post_bind, post_run. intros _ w1.
  apply post_bind, post_safe_input. intros line rest w2 ->.
  destruct (answered_not_quit line) as [Hq _].
  apply String.eqb_neq in Hq. rewrite Hq.
  destruct (String.eqb (answered line) "BACK").
  - apply post_ret. split; [reflexivity | apply read_from_one].
  - apply post_bind, post_run. intros rm w3.
    apply post_bind.
    destruct (Z.eqb (fst rm) 0); apply post_say; intros w4;
      apply post_ret; (split; [reflexivity | apply read_from_one]).
Qed.

(** The inventory branch reads one or two lines and goes back to the
    menu. *)
Lemma inventory_branch_stays (lib : pylib) (library : LivingLibrary)
    (i : list string) (w : world) :
  post False (Console.inventory_branch lib library) i w
       (fun f i' _ => f = Again /\ read_from i i').
Proof.
  unfold Console.inventory_branch.
  apply post_bind, post_run. intros types w1.
  apply post_bind, post_join_cells. intros types_text.
  apply post_bind, post_say. intros w2.
  apply post_bind. unfold Console.topics_of. apply post_run. intros topics w3.
  apply post_bind, post_topics_line. intros line.
  apply post_bind, post_say. intros w4.
  apply post_bind, post_safe_input. intros answer rest w5 ->.
  destruct (answered_not_quit answer) as [_ Hq].
  apply String.eqb_neq in Hq. rewrite Hq.
  destruct (String.eqb (str_strip (answered answer)) "BACK").
  - apply post_ret. split; [reflexivity | apply read_from_one].
  - apply post_bind, post_run. intros _ w6.
    apply post_bind, post_safe_input. intros pause rest' w7 ->.
    destruct (answered_not_quit pause) as [Hp _].
    apply String.eqb_neq in Hp. rewrite Hp.
    apply post_ret. split; [reflexivity|].
    apply read_from_more, read_from_one.
Qed.

(** Every round of the search loop reads a line before it repeats. *)
Lemma search_loop_reads (lib : pylib) (library : LivingLibrary) (fuel : nat) :
  forall (i : list string) (w : world),
    (length i < fuel)%nat ->
    post False (Console.search_loop lib fuel library) i w
         (fun _ i' _ => read_from i i').
Proof.
  induction fuel as [|fuel IH]; intros i w Hfuel; [lia|].
  cbn [Console.search_loop].
  apply post_bind. unfold Console.topics_of. apply post_run. intros topics w1.
  apply post_bind, post_say. intros w2.
  apply post_bind, post_say. intros w3.
  apply post_bind, post_topics_line. intros line.
  apply post_bind, post_say. intros w4.
  apply post_bind, post_say. intros w5.
  apply post_bind, post_safe_input. intros query rest w6 ->.
  destruct (word_in (answered query) ["QUIT"; "BACK"]).
  { apply post_ret, read_from_one. }
  apply post_bind, post_run. intros _ w7.
  apply post_bind, post_safe_input. intros found rest' w8 ->.
  cbn zeta.
  destruct (word_in (PyStr.lower (answered found)) ["yes"; "y"]).
  { apply post_bind, post_safe_input. intros link rest'' w9 ->.
    destruct (word_in (answered link) ["QUIT"; "BACK"]).
    - apply post_ret. do 2 apply read_from_more. apply read_from_one.
    - apply post_bind, post_run. intros _ w10.
      apply post_bind, post_say. intros w11.
      apply post_ret. do 2 apply read_from_more. apply read_from_one. }
  destruct (word_in (PyStr.lower (answered found)) ["no"; "n"]).
  - eapply post_weaken; [| |apply IH].
    + exact (fun H => H).
    + cbn beta. intros _ i' _ H.
      apply read_from_more, read_from_more. exact H.
    + cbn [length] in Hfuel. lia.
  - apply post_bind, post_say. intros w9.
    apply post_ret. apply read_from_more, read_from_one.
Qed.

Lemma post_banner (spin : Prop) (library : LivingLibrary) (i : list string)
    (w : world) (Q : unit -> list string -> world -> Prop) :
  (forall w', Q tt i w') -> post spin (Console.menu_banner library) i w Q.
Proof.
  intros H. unfold Console.menu_banner.
  repeat (apply post_bind;
          (apply post_say || apply post_run); intros).
  apply post_say, H.
Qed.

(** ** The menu loop *)

(** Every round of the menu reads a line before it repeats: with more
    rounds allowed than there are lines, the bound of the model is never
    reached. *)
Lemma menu_loop_reads (lib : pylib) (library : LivingLibrary) (fuel : nat) :
  forall (i : list string) (w : world),
    (length i < fuel)%nat ->
    post False (Console.menu_loop lib fuel library) i w (fun _ _ _ => True).
Proof.
  induction fuel as [|fuel IH]; intros i w Hfuel; [lia|].
  cbn [Console.menu_loop].
  apply post_bind, post_banner. intros w1.
  apply post_bind, post_safe_input. intros line rest w2 ->.
  cbn [length] in Hfuel. cbn zeta.
  assert (Hnext : forall i' w', (length i' <= length rest)%nat ->
            post False (Console.menu_loop lib fuel library) i' w'
                 (fun _ _ _ => True))
    by (intros i' w' Hle; apply IH; lia).
  assert (Hflow : forall (f : flow) i' w', read_from rest i' ->
            post False (match f with
                        | Again => Console.menu_loop lib fuel library
                        | Leave => cret tt
                        end) i' w' (fun _ _ _ => True)).
  { intros [|] i' w' Hr; [|exact I].
    apply Hnext. apply read_from_length in Hr. lia. }
  destruct (String.eqb _ "BACK"); [apply Hnext; lia|].
  destruct (word_in _ Console.quit_words); [apply post_say; trivial|].
  destruct (word_in _ Console.access_words).
  { apply post_bind.
    eapply post_weaken; [| |apply access_branch_stays]; [tauto|].
    cbn beta. intros f i' w' [_ Hr]. apply Hflow, Hr. }
  destruct (word_in _ Console.inventory_words).
  { apply post_bind.
    eapply post_weaken; [| |apply inventory_branch_stays]; [tauto|].
    cbn beta. intros f i' w' [_ Hr]. apply Hflow, Hr. }
  destruct (word_in _ Console.search_words).
  { apply post_bind.
    eapply post_weaken; [| |apply search_loop_reads]; [tauto| |lia].
    cbn beta. intros f i' w' Hr. apply Hflow, Hr. }
  apply post_bind, post_say. intros w3. apply Hnext. lia.
Qed.

(** Without a command to search among the lines, the menu loop never
    completes: no command to quit takes the [break], and the branches to
    access and to list always come back to the menu. *)
Lemma menu_loop_stays (lib : pylib) (library : LivingLibrary) (fuel : nat) :
  forall (i : list string) (w : world),
    Forall (fun line => word_in (str_strip (PyStr.lower line))
                          Console.search_words = false) i ->
    post True (Console.menu_loop lib fuel library) i w (fun _ _ _ => False).
Proof.
  induction fuel as [|fuel IH]; intros i w Hi; [exact I|].
  cbn [Console.menu_loop].
  apply post_bind, post_banner. intros w1.
  apply post_bind, post_safe_input. intros line rest w2 ->.
  cbn zeta.
  apply Forall_cons_iff in Hi. destruct Hi as [Hline Hrest].
  destruct (command_not_quit line) as [Hback [Hquit [Hyes Hno]]].
  cbn zeta in Hback, Hquit, Hyes, Hno.
  rewrite Hback, Hquit.
  assert (Hflow : forall (f : flow) i' w', f = Again /\ read_from rest i' ->
            post True (match f with
                       | Again => Console.menu_loop lib fuel library
                       | Leave => cret tt
                       end) i' w' (fun _ _ _ => False)).
  { intros f i' w' [-> Hr]. apply IH.
    apply (read_from_Forall _ rest); assumption. }
  destruct (word_in _ Console.access_words).
  { apply post_bind.
    eapply post_weaken; [| |apply access_branch_stays]; [tauto|].
    cbn beta. intros f i' w' H. apply Hflow, H. }
  destruct (word_in _ Console.inventory_words).
  { apply post_bind.
    eapply post_weaken; [| |apply inventory_branch_stays]; [tauto|].
    cbn beta. intros f i' w' H. apply Hflow, H. }
  destruct (word_in (str_strip (PyStr.lower (answered line)))
              Console.search_words) eqn:Es.
  { exfalso.
    destruct (word_in (str_strip (PyStr.lower line))
                (Console.quit_words ++ Console.back_words)) eqn:E.
    - rewrite (Hyes eq_refl) in Es. discriminate.
    - rewrite (Hno eq_refl) in Es. congruence. }
  apply post_bind, post_say. intros w3. apply IH. exact Hrest.
Qed.

(** Two continuations that agree on what [m] hands them give the same
    computation. *)
Lemma cbind_agree {A B} (m : C A) (k1 k2 : A -> C B) (i : list string)
    (w : world) :
  post True m i w (fun a i' w' => k1 a i' w' = k2 a i' w') ->
  cbind m k1 i w = cbind m k2 i w.
Proof.
  unfold post, cbind. destruct (m i w); intros H; [exact H | reflexivity..].
Qed.

(** The result of the search loop does not depend on the bound, once the
    bound exceeds the number of lines. *)
Lemma search_loop_bound (lib : pylib) (library : LivingLibrary) (f1 : nat) :
  forall (f2 : nat) (i : list string) (w : world),
    (length i < f1)%nat -> (length i < f2)%nat ->
    Console.search_loop lib f1 library i w
    = Console.search_loop lib f2 library i w.
Proof.
  induction f1 as [|f1 IH]; intros f2 i w H1 H2; [lia|].
  destruct f2 as [|f2]; [lia|].
  cbn [Console.search_loop].
  apply cbind_agree. unfold Console.topics_of. apply post_run. intros topics w1.
  apply cbind_agree, post_say; intros. apply cbind_agree, post_say; intros.
  apply cbind_agree, post_topics_line; intros. apply cbind_agree, post_say; intros. apply cbind_agree, post_say; intros.
  apply cbind_agree, post_safe_input. intros query rest w6 ->.
  destruct (word_in (answered query) ["QUIT"; "BACK"]); [reflexivity|].
  apply cbind_agree, post_run; intros.
  apply cbind_agree, post_safe_input. intros found rest' w8 ->.
  cbn zeta.
  destruct (word_in (PyStr.lower (answered found)) ["yes"; "y"]);
    [reflexivity|].
  destruct (word_in (PyStr.lower (answered found)) ["no"; "n"]);
    [|reflexivity].
  cbn [length] in H1, H2. apply IH; lia.
Qed.

(** The same for the menu loop. *)
Lemma menu_loop_bound (lib : pylib) (library : LivingLibrary) (f1 : nat) :
  forall (f2 : nat) (i : list string) (w : world),
    (length i < f1)%nat -> (length i < f2)%nat ->
    Console.menu_loop lib f1 library i w
    = Console.menu_loop lib f2 library i w.
Proof.
  induction f1 as [|f1 IH]; intros f2 i w H1 H2; [lia|].
  destruct f2 as [|f2]; [lia|].
  cbn [Console.menu_loop].
  apply cbind_agree, post_banner; intros.
  apply cbind_agree, post_safe_input. intros line rest w2 ->.
  cbn [length] in H1, H2. cbn zeta.
  assert (Hflow : forall (f : flow) j v, read_from rest j ->
            match f with
            | Again => Console.menu_loop lib f1 library
            | Leave => cret tt
            end j v
            = match f with
              | Again => Console.menu_loop lib f2 library
              | Leave => cret tt
              end j v).
  { intros [|] j v Hr; [|reflexivity].
    apply read_from_length in Hr. apply IH; lia. }
  destruct (String.eqb _ "BACK"); [apply IH; lia|].
  destruct (word_in _ Console.quit_words); [reflexivity|].
  destruct (word_in _ Console.access_words).
  { apply cbind_agree.
    eapply post_weaken; [| |apply access_branch_stays]; [tauto|].
    cbn beta. intros f j v [_ Hr]. apply Hflow, Hr. }
  destruct (word_in _ Console.inventory_words).
  { apply cbind_agree.
    eapply post_weaken; [| |apply inventory_branch_stays]; [tauto|].
    cbn beta. intros f j v [_ Hr]. apply Hflow, Hr. }
  destruct (word_in _ Console.search_words).
  { unfold cbind.
    rewrite (search_loop_bound lib library f1 f2 rest) by lia.
    assert (Hlt : (length rest < f2)%nat) by lia.
    match goal with
    | |- context [Console.search_loop lib f2 library rest ?v] =>
        pose proof (search_loop_reads lib library f2 rest v Hlt) as Hr;
        unfold post in Hr;
        destruct (Console.search_loop lib f2 library rest v);
        [apply Hflow, Hr | reflexivity..]
    end. }
  apply cbind_agree, post_say; intros. apply IH; lia.
Qed.

Lemma banner_run (library : LivingLibrary) (i : list string) (w : world) :
  exists w1,
    Console.menu_banner library i w = Ok tt i w1 /\ heap w1 = heap w.
Proof. eexists. split; reflexivity. Qed.

Lemma main_loaded (lib : pylib) (path_exists : string -> bool) (fuel : nat)
    (i : list string) (w : world) (rows : list source_row) :
  path_exists Console.spreadsheet_path = true ->
  delivered lib Console.spreadsheet_path = Returns rows ->
  rows <> [] ->
  exists library w1,
    Console.main lib path_exists fuel i w
    = Console.menu_loop lib fuel library i w1.
Proof.
  intros Hp Hd Hrows. unfold Console.main. rewrite Hp. cbn [negb].
  unfold cbind at 1. unfold run at 1.
  destruct (store_after_init lib Console.spreadsheet_path w)
    as [library [w1 [Hi [_ [_ Hs]]]]].
  rewrite Hi, Hd in *. exists library, w1.
  unfold cbind, run, deref. fold (store library w1). rewrite Hs.
  destruct rows as [|r rows]; [congruence | reflexivity].
Qed.

(** X1.  [safe_input] reads one line, here a line of ASCII text, and never
    answers ['QUIT']: a command to quit prints the goodbye line and is
    answered, like a command to go back, with ['BACK']; any other line is
    answered as it was typed. *)
Theorem safe_input_turns_quit_into_back (prompt line : string)
    (rest : list string) (w : world) :
  PyStr.is_ascii line = true ->
  exists w',
    Console.safe_input prompt (line :: rest) w = Ok (answered line) rest w' /\
    heap w' = heap w /\
    answered line <> "QUIT" /\
    (if word_in (str_strip (PyStr.lower line)) Console.quit_words
     then answered line = "BACK" /\
          stdout w' = (stdout w ++ [prompt; goodbye])%list
     else stdout w' = (stdout w ++ [prompt])%list) /\
    (if word_in (str_strip (PyStr.lower line)) Console.back_words
     then answered line = "BACK"
     else True) /\
    (if word_in (str_strip (PyStr.lower line))
          (Console.quit_words ++ Console.back_words)
     then True
     else answered line = line).
Proof.
  intros _.
  eexists. split; [apply safe_input_run|].
  split; [reflexivity|]. split; [apply answered_not_quit|].
  cbn [stdout]. unfold answered. rewrite word_in_app.
  destruct (word_in (str_strip (PyStr.lower line)) Console.quit_words);
    destruct (word_in (str_strip (PyStr.lower line)) Console.back_words);
    cbn [orb]; rewrite <- ?app_assoc, ?app_nil_r; repeat split.
Qed.

Lemma safe_input_turns_quit_into_back_witness :
  PyStr.is_ascii " Quit " = true /\
  exists w',
    Console.safe_input "> " [" Quit "; "a"] empty_world = Ok "BACK" ["a"] w' /\
    stdout w' = ["> "; goodbye].
Proof.
  refine (conj eq_refl _).
  destruct (safe_input_turns_quit_into_back "> " " Quit " ["a"] empty_world
              eq_refl) as [w' [Hrun [_ [_ [Hquit _]]]]].
  exists w'. split; [exact Hrun | exact (proj2 Hquit)].
Defined.

(** X2.  At the menu of [main] a command to quit or to go back is an
    invalid command: after the banner and the prompt (and the goodbye line
    of a command to quit) the script prints that the command is invalid
    and starts the next round of the menu with the lines that are left. *)
Theorem quit_at_the_menu_is_invalid (lib : pylib) (library : LivingLibrary)
    (fuel : nat) (line : string) (rest : list string) (w : world) :
  word_in (str_strip (PyStr.lower line))
    (Console.quit_words ++ Console.back_words) = true ->
  exists w1 w2,
    Console.menu_banner library (line :: rest) w = Ok tt (line :: rest) w1 /\
    heap w2 = heap w /\
    stdout w2
    = (stdout w1
       ++ [(nl ++ "Enter Command: ")%string]
       ++ (if word_in (str_strip (PyStr.lower line)) Console.quit_words
           then [goodbye] else [])
       ++ ["Invalid command. Please try again."])%list /\
    Console.menu_loop lib (S fuel) library (line :: rest) w
    = Console.menu_loop lib fuel library rest w2.
Proof.
  intros Hword.
  destruct (banner_run library (line :: rest) w) as [w1 [Hb Hh]].
  exists w1. eexists. split; [exact Hb|].
  cbn [Console.menu_loop]. unfold cbind at 1. rewrite Hb.
  unfold cbind at 1. rewrite safe_input_run.
  destruct (command_not_quit line) as [_ [_ [Hyes _]]].
  cbn zeta in Hyes |- *. rewrite (Hyes Hword).
  change (String.eqb "back" "BACK") with false.
  change (word_in "back" Console.quit_words) with false.
  change (word_in "back" Console.access_words) with false.
  change (word_in "back" Console.inventory_words) with false.
  change (word_in "back" Console.search_words) with false.
  cbv iota. unfold cbind, say, run, print. cbn [heap stdout].
  split; [|split; [|reflexivity]].
  - exact Hh.
  - rewrite <- !app_assoc. reflexivity.
Qed.

Lemma quit_at_the_menu_is_invalid_witness :
  word_in (str_strip (PyStr.lower " Quit "))
    (Console.quit_words ++ Console.back_words) = true /\
  exists w2,
    Console.menu_loop desk_lib 3 demo_self [" Quit "; "exit"] demo_world
    = Console.menu_loop desk_lib 2 demo_self ["exit"] w2.
Proof.
  split; [reflexivity|].
  destruct (quit_at_the_menu_is_invalid desk_lib demo_self 2 " Quit "
              ["exit"] demo_world eq_refl) as [w1 [w2 [_ [_ [_ H]]]]].
  exists w2. exact H.
Defined.

(** X3.  Every round of the menu loop and of the search loop of [main]
    reads a line before it repeats: on finitely many lines of input the
    script comes to a result, the same for every loop bound of the model
    above the number of lines. *)
Theorem main_reads_before_it_repeats (lib : pylib)
    (path_exists : string -> bool) (fuel fuel' : nat) (i : list string)
    (w : world) :
  (length i < fuel)%nat -> (length i < fuel')%nat ->
  Console.main lib path_exists fuel i w <> OutOfFuel /\
  Console.main lib path_exists fuel i w
  = Console.main lib path_exists fuel' i w.
Proof.
  intros H1 H2. unfold Console.main.
  destruct (negb (path_exists Console.spreadsheet_path)).
  { split; [discriminate | reflexivity]. }
  unfold cbind, run, deref. rewrite init_run.
  destruct (Pandas.empty _); [split; [discriminate | reflexivity]|].
  split; [|apply menu_loop_bound; assumption].
  match goal with
  | |- Console.menu_loop lib fuel ?l i ?v <> _ =>
      pose proof (menu_loop_reads lib l fuel i v H1) as H
  end.
  unfold post in H. intros E. rewrite E in H. exact H.
Qed.

Lemma main_reads_before_it_repeats_witness :
  (length ["quit"; "a"; "2"] < 4)%nat /\ (length ["quit"; "a"; "2"] < 9)%nat /\
  Console.main desk_lib (fun _ => true) 4 ["quit"; "a"; "2"] empty_world
  = Console.main desk_lib (fun _ => true) 9 ["quit"; "a"; "2"] empty_world.
Proof.
  assert (H1 : (length ["quit"; "a"; "2"] < 4)%nat) by (cbn; lia).
  assert (H2 : (length ["quit"; "a"; "2"] < 9)%nat) by (cbn; lia).
  refine (conj H1 (conj H2 _)).
  exact (proj2 (main_reads_before_it_repeats desk_lib (fun _ => true) 4 9
                  ["quit"; "a"; "2"] empty_world H1 H2)).
Defined.

(** X4.  Once the catalog is loaded and not empty, [main] returns only
    through the search dialogue: when the input is ASCII text and no line
    of it is a command to search, it never returns, whatever commands to
    quit the input holds; it ends at the end of input or in an
    exception. *)
Theorem main_returns_only_through_search (lib : pylib)
    (path_exists : string -> bool) (fuel : nat) (i : list string) (w : world)
    (rows : list source_row) :
  path_exists Console.spreadsheet_path = true ->
  delivered lib Console.spreadsheet_path = Returns rows ->
  rows <> [] ->
  Forall (fun line => PyStr.is_ascii line = true) i ->
  Forall (fun line => word_in (str_strip (PyStr.lower line))
                        Console.search_words = false) i ->
  match Console.main lib path_exists fuel i w with
  | Ok _ _ _ => False
  | Fail _ _ _ => True
  | OutOfFuel => (fuel <= length i)%nat
  end.
Proof.
  intros Hp Hd Hrows _ Hi.
  destruct (main_loaded lib path_exists fuel i w rows Hp Hd Hrows)
    as [library [w1 Hm]].
  rewrite Hm.
  pose proof (menu_loop_stays lib library fuel i w1 Hi) as Hs.
  unfold post in Hs.
  destruct (Nat.le_gt_cases fuel (length i)) as [Hle|Hgt].
  - destruct (Console.menu_loop lib fuel library i w1); auto.
  - pose proof (menu_loop_reads lib library fuel i w1 Hgt) as Hr.
    unfold post in Hr.
    destruct (Console.menu_loop lib fuel library i w1); auto.
    contradiction.
Qed.

Lemma main_returns_only_through_search_witness :
  (fun _ : string => true) Console.spreadsheet_path = true /\
  delivered desk_lib Console.spreadsheet_path = Returns shelf /\
  shelf <> [] /\
  Forall (fun line => PyStr.is_ascii line = true) ["quit"; "a"; "2"; "!q"] /\
  Forall (fun line => word_in (str_strip (PyStr.lower line))
                        Console.search_words = false)
         ["quit"; "a"; "2"; "!q"] /\
  match Console.main desk_lib (fun _ => true) 9 ["quit"; "a"; "2"; "!q"]
          empty_world with
  | Ok _ _ _ => False
  | Fail _ _ _ => True
  | OutOfFuel => (9 <= length ["quit"; "a"; "2"; "!q"])%nat
  end.
Proof.
  assert (H3 : shelf <> []) by discriminate.
  assert (H4 : Forall (fun line => word_in (str_strip (PyStr.lower line))
                                     Console.search_words = false)
                      ["quit"; "a"; "2"; "!q"])
    by (repeat constructor).
  assert (Ha : Forall (fun line => PyStr.is_ascii line = true)
                      ["quit"; "a"; "2"; "!q"])
    by (repeat constructor).
  refine (conj eq_refl (conj eq_refl (conj H3 (conj Ha (conj H4 _))))).
  exact (main_returns_only_through_search desk_lib (fun _ => true) 9
           ["quit"; "a"; "2"; "!q"] empty_world shelf eq_refl eq_refl H3 Ha
           H4).
Defined.

(** ** The search dialogue *)

Lemma ends_bind {A B} (m : C A) (k : A -> C B) (i : list string) (w : world)
    (Q : B -> list string -> world -> Prop) :
  ends m i w (fun a i' w' => ends (k a) i' w' Q) -> ends (cbind m k) i w Q.
Proof. unfold ends, cbind. destruct (m i w); intros H; exact H. Qed.

Lemma ends_ret {A} (a : A) (i : list string) (w : world)
    (Q : A -> list string -> world -> Prop) :
  Q a i w -> ends (cret a) i w Q.
Proof. intros H. exact H. Qed.

Lemma ends_run {A} (m : M A) (a : A) (i : list string) (w w' : world)
    (Q : A -> list string -> world -> Prop) :
  m w = (Returns a, w') -> Q a i w' -> ends (run m) i w Q.
Proof. intros Hm H. unfold ends, run. rewrite Hm. exact H. Qed.

Lemma ends_say (s : string) (i : list string) (w : world)
    (Q : unit -> list string -> world -> Prop) :
  Q tt i {| heap := heap w; stdout := stdout w ++ [s] |} ->
  ends (say s) i w Q.
Proof. intros H. exact H. Qed.

Lemma ends_safe_input (prompt line : string) (rest : list string) (w : world)
    (Q : string -> list string -> world -> Prop) :
  Q (answered line) rest
    {| heap := heap w;
       stdout := (stdout w ++ [prompt])
                 ++ (if word_in (str_strip (PyStr.lower line))
                          Console.quit_words
                     then [goodbye] else []) |} ->
  ends (Console.safe_input prompt) (line :: rest) w Q.
Proof. intros H. unfold ends. rewrite safe_input_run. exact H. Qed.

Lemma unique_Forall (P : cell -> Prop) (s seen : list cell) :
  Forall P s -> Forall P (Pandas.unique seen s).
Proof.
  intros H. revert seen. induction H as [|c s Hc _ IH]; intros seen;
    cbn [Pandas.unique]; [constructor|].
  match goal with
  | |- Forall P (if ?b then _ else _) =>
      destruct b; [apply IH | constructor; [exact Hc | apply IH]]
  end.
Qed.

Lemma firstn_Forall_kept {A} (P : A -> Prop) (n : nat) (xs : list A) :
  Forall P xs -> Forall P (firstn n xs).
Proof.
  intros H. revert n. induction H as [|x xs Hx _ IH]; intros [|n];
    cbn [firstn]; constructor; [exact Hx | apply IH].
Qed.

Lemma all_str_present (cs : list cell) :
  Forall (fun c => c <> None) cs -> exists xs, all_str cs = Some xs.
Proof.
  induction 1 as [|c cs Hc _ [xs IH]]; [exists []; reflexivity|].
  destruct c as [s|]; [|congruence].
  exists (s :: xs). cbn [all_str]. rewrite IH. reflexivity.
Qed.

Lemma ends_topics_line (lead : string) (shown : nat) (topics : list cell)
    (i : list string) (w : world)
    (Q : string -> list string -> world -> Prop) :
  Forall (fun c => c <> None) topics ->
  (forall s, Q s i w) ->
  ends (Console.topics_line lead shown topics) i w Q.
Proof.
  intros Ht H. unfold Console.topics_line, join_cells.
  destruct (Nat.ltb 10 (length topics)).
  - destruct (all_str_present (firstn shown topics)
                (firstn_Forall_kept _ shown topics Ht)) as [xs ->].
    apply ends_bind, ends_ret, ends_ret, H.
  - destruct (all_str_present topics Ht) as [xs ->].
    apply ends_bind, ends_ret, ends_ret, H.
Qed.

Lemma no_command_is_typed_as_is (line : string) :
  word_in (str_strip (PyStr.lower line))
    (Console.quit_words ++ Console.back_words) = false ->
  answered line = line /\
  word_in (answered line) ["QUIT"; "BACK"] = false /\
  word_in (str_strip (PyStr.lower line)) Console.quit_words = false.
Proof.
  intros H. unfold answered. rewrite H.
  split; [reflexivity|]. split.
  - unfold word_in. cbn [existsb].
    destruct (String.eqb_spec line "QUIT") as [->|_]; [discriminate|].
    destruct (String.eqb_spec line "BACK") as [->|_]; [discriminate|].
    reflexivity.
  - rewrite word_in_app in H. apply orb_false_elim in H. apply H.
Qed.

Lemma yes_is_no_command (found : string) :
  word_in (PyStr.lower found) ["yes"; "y"] = true ->
  word_in (str_strip (PyStr.lower found))
    (Console.quit_words ++ Console.back_words) = false.
Proof.
  unfold word_in at 1. cbn [existsb]. rewrite !orb_true_iff.
  intros [H|[H|H]]; try discriminate;
    apply String.eqb_eq in H; rewrite H; reflexivity.
Qed.

Lemma all_str_texts (cs : list cell) :
  Forall (fun c => c <> None) cs -> all_str cs = Some (map str_cell cs).
Proof.
  induction 1 as [|c cs Hc _ IH]; [reflexivity|].
  destruct c as [s|]; [|congruence].
  cbn [all_str map str_cell]. rewrite IH. reflexivity.
Qed.

(** The line of topics when every topic is present. *)
Lemma topics_line_run (lead : string) (shown : nat) (topics : list cell)
    (i : list string) (w : world) :
  Forall (fun c => c <> None) topics ->
  Console.topics_line lead shown topics i w =
  Ok (if Nat.ltb 10 (length topics)
      then lead ++ "Available topics: "
           ++ PyStr.join ", " (map str_cell (firstn shown topics)) ++ "..."
      else "Available topics: " ++ PyStr.join ", " (map str_cell topics))
     i w.
Proof.
  intros Ht. unfold Console.topics_line, join_cells.
  destruct (Nat.ltb 10 (length topics)).
  - rewrite (all_str_texts _ (firstn_Forall_kept _ shown topics Ht)).
    reflexivity.
  - rewrite (all_str_texts _ Ht). reflexivity.
Qed.

Lemma topics_of_run (library : LivingLibrary) (rows : list row)
    (i : list string) (w : world) :
  store library w = Table rows ->
  Console.topics_of library i w
  = Ok (Pandas.unique [] (map (fun r => Topic (cols r)) rows)) i w.
Proof.
  unfold store. intros H.
  unfold Console.topics_of, run, bind, deref, Pandas.getitem, ret.
  rewrite H. reflexivity.
Qed.

(** On a plain query [search_books] prints the lines of the entries one of
    whose four fields contains the query, and holds them in a new
    object. *)
Lemma search_books_plain (lib : pylib) (self : LivingLibrary)
    (query : string) (w : world) (rows : list row) :
  store self w = Table rows -> searchable rows = true ->
  Re.plain query = true ->
  Current.search_books lib self query w
  = (Returns tt,
     {| heap := heap w ++ [Table (filter (entry_matches query) rows)];
        stdout := stdout w
                  ++ search_lines query
                       (Table (filter (entry_matches query) rows)) |}).
Proof.
  intros Hstore Hcols H. rewrite search_books_run, Hstore.
  rewrite (selected_table _ _ _ Hcols).
  rewrite compile_plain by (rewrite plain_lower; exact H).
  rewrite (filter_ext _ (entry_matches query))
    by (intros r; apply row_hit_plain).
  reflexivity.
Qed.

(** X5.  In the search dialogue of [main], on a table of ASCII text whose
    searched columns each hold a string and whose topics are all present,
    a query without special characters, the answer yes and an id that is
    no command end the session.  The script prints the topics, prompts for
    the query, prints the result of the search for it, prompts for the
    answer and for the id, prints the detail lines of the entry that
    carries the id (nothing when the id is no integer or of no entry),
    prints the goodbye line and returns; the rest of the input is left
    unread, and the selection of the search is the one new object. *)
Theorem yes_ends_the_session (lib : pylib) (library : LivingLibrary)
    (fuel : nat) (query found link : string) (rest : list string)
    (w : world) (rows : list row) :
  store library w = Table rows ->
  searchable rows = true ->
  Forall (fun r => searched_ascii r = true) rows ->
  Forall (fun r => Topic (cols r) <> None) rows ->
  PyStr.is_ascii query = true ->
  PyStr.is_ascii found = true ->
  PyStr.is_ascii link = true ->
  Re.plain query = true ->
  word_in (str_strip (PyStr.lower query))
    (Console.quit_words ++ Console.back_words) = false ->
  word_in (PyStr.lower found) ["yes"; "y"] = true ->
  word_in (str_strip (PyStr.lower link))
    (Console.quit_words ++ Console.back_words) = false ->
  let topics := Pandas.unique [] (map (fun r => Topic (cols r)) rows) in
  let topics_text :=
    if Nat.ltb 10 (length topics)
    then "Available topics: "
         ++ PyStr.join ", " (map str_cell (firstn 10 topics)) ++ "..."
    else "Available topics: " ++ PyStr.join ", " (map str_cell topics) in
  let matches := Table (filter (entry_matches query) rows) in
  let shown :=
    match PyStr.int link with
    | None => []
    | Some n => match find (fun r => Z.eqb (ID r) n) rows with
                | None => []
                | Some item => detail_lines item
                end
    end in
  Console.search_loop lib (S fuel) library
    (query :: found :: link :: rest) w
  = Ok Leave rest
      {| heap := heap w ++ [matches];
         stdout :=
           stdout w
           ++ [nl ++ PyStr.repeat_char "=" 50;
               "Available Topics:";
               topics_text;
               PyStr.repeat_char "=" 50;
               "Enter search term (title, author, or topic): "]
           ++ search_lines query matches
           ++ ["Did you find what you were looking for? (yes/no): ";
               "Enter the ID of the item you want to access: "]
           ++ shown
           ++ [goodbye] |}.
Proof.
  intros Hstore Hcols _ Htopics _ _ _ Hplain Hquery Hfound Hlink
    topics topics_text matches shown.
  destruct (no_command_is_typed_as_is query Hquery) as [Hq1 [Hq2 Hq3]].
  destruct (no_command_is_typed_as_is found (yes_is_no_command found Hfound))
    as [Hf1 [_ Hf3]].
  destruct (no_command_is_typed_as_is link Hlink) as [Hl1 [Hl2 Hl3]].
  assert (Hpresent : Forall (fun c => c <> None) topics).
  { apply unique_Forall, Forall_map. exact Htopics. }
  cbn [Console.search_loop].
  unfold cbind at 1. rewrite (topics_of_run library rows _ _ Hstore).
  fold topics.
  unfold cbind at 1. unfold say at 1, run at 1, print at 1.
  unfold cbind at 1. unfold say at 1, run at 1, print at 1.
  unfold cbind at 1. rewrite (topics_line_run "" 10 topics _ _ Hpresent).
  change (String.append "" ?x) with x. fold topics_text.
  unfold cbind at 1. unfold say at 1, run at 1, print at 1.
  unfold cbind at 1. unfold say at 1, run at 1, print at 1.
  unfold cbind at 1. rewrite safe_input_run, Hq2, Hq1, Hq3.
  cbn [heap stdout].
  unfold cbind at 1. unfold run at 1.
  rewrite (search_books_plain lib library query _ rows);
    [|exact Hstore | exact Hcols | exact Hplain].
  fold matches. cbn [heap stdout].
  unfold cbind at 1. rewrite safe_input_run, Hf1, Hfound, Hf3.
  cbn [heap stdout].
  unfold cbind at 1. rewrite safe_input_run, Hl2, Hl1, Hl3.
  cbn [heap stdout].
  unfold cbind at 1. unfold run at 1.
  rewrite access_item_run. unfold store. cbn [heap stdout].
  fold (store library w).
  assert (Hnew : nth (df library) (heap w ++ [matches]) Blank = Table rows).
  { unfold store in Hstore.
    destruct (Nat.lt_ge_cases (df library) (length (heap w))) as [Hl|Hl].
    - rewrite nth_kept by exact Hl. exact Hstore.
    - rewrite nth_overflow in Hstore by exact Hl. discriminate. }
  rewrite Hnew. unfold shown.
  destruct (PyStr.int link) as [n|];
    [destruct (find (fun r => Z.eqb (ID r) n) rows) as [item|]|];
    unfold cbind, say, run, print, cret; cbn [heap stdout];
    f_equal; f_equal; rewrite <- ?app_assoc; cbn [app];
    rewrite ?app_nil_r; reflexivity.
Qed.

Lemma yes_ends_the_session_witness :
  exists out,
    Console.search_loop desk_lib 1 demo_self
      ["deep"; "YES"; "3"; "never read"] demo_world
    = Ok Leave ["never read"]
        {| heap := heap demo_world
                   ++ [Table (filter (fun r => Z.eqb (ID r) 3)
                                (rows_of (store demo_self demo_world)))];
           stdout := out |} /\
    skipn 13 out
    = [nl ++ "Accessing: Deep Work";
       "Authors: Unknown";
       "Type: Book | Format: PDF";
       "Topic: Productivity";
       "Publisher: nan (2008)";
       goodbye].
Proof.
  eexists. split.
  - exact (yes_ends_the_session desk_lib demo_self 0 "deep" "YES" "3"
             ["never read"] demo_world (rows_of (store demo_self demo_world))
             eq_refl eq_refl
             ltac:(repeat constructor)
             ltac:(repeat constructor; discriminate)
             eq_refl eq_refl eq_refl eq_refl eq_refl eq_refl eq_refl).
  - reflexivity.
Defined.

(** X6.  When the file of [main] exists but the reader raises, [main]
    reads no input: the load prints its error line, [main] prints that the
    frame appears to be empty and returns. *)
Theorem main_stops_on_a_failed_load (lib : pylib)
    (path_exists : string -> bool) (fuel : nat) (i : list string) (w : world)
    (e : exn) :
  path_exists Console.spreadsheet_path = true ->
  Path_suffix lib Console.spreadsheet_path = ".csv" ->
  read_csv lib Console.spreadsheet_path = Raises e ->
  Console.main lib path_exists fuel i w
  = Ok tt i
      {| heap := heap w ++ [Blank];
         stdout := stdout w
                   ++ [("Error loading file: " ++ exn_msg e)%string;
                       "DataFrame appears to be empty. Exiting."] |}.
Proof.
  intros Hp Hs Hr. unfold Console.main. rewrite Hp. cbn [negb].
  unfold cbind, run, deref, say, print.
  rewrite init_run, load_run. unfold delivered. rewrite Hs, Hr.
  cbn [String.eqb Ascii.eqb Bool.eqb snd heap stdout df].
  rewrite nth_alloc. cbn [Pandas.empty heap stdout].
  unfold run. cbn [heap stdout].
  rewrite <- app_assoc. reflexivity.
Qed.

Lemma main_stops_on_a_failed_load_witness :
  Console.main demo_lib (fun _ => true) 5 ["a"; "1"] empty_world
  = Ok tt ["a"; "1"]
      {| heap := [Blank];
         stdout := ["Error loading file: No such file or directory";
                    "DataFrame appears to be empty. Exiting."] |}.
Proof.
  exact (main_stops_on_a_failed_load demo_lib (fun _ => true) 5 ["a"; "1"]
           empty_world (Exn OSError "No such file or directory")
           eq_refl eq_refl eq_refl).
Defined.

(** ** More on the queries of the store *)

(** X7.  On a table of ASCII text whose searched columns each hold a
    string, and for an ASCII query without a special character of regular
    expressions, both scripts select, in catalog order, exactly the entries
    of which a present field among title, authors, topic and subtitle
    contains the query, letter case apart. *)
Theorem plain_query_searches_substrings (lib : pylib) (self : LivingLibrary)
    (query : string) (w : world) (rows : list row) :
  store self w = Table rows ->
  searchable rows = true ->
  Forall (fun r => searched_ascii r = true) rows ->
  PyStr.is_ascii query = true ->
  Re.plain query = true ->
  exists matches,
    fst (Current.search_matches lib self query w) = Returns (Table matches) /\
    fst (Legacy.search_matches lib self query w) = Returns (Table matches) /\
    Subseq matches rows /\
    forall r,
      In r matches <->
      In r rows /\
      exists field,
        In (Some field)
           [Title (cols r); Some (Authors r); Topic (cols r);
            Subtitle (cols r)] /\
        Substring (PyStr.lower query) (PyStr.lower field).
Proof.
  intros Hstore Hcols _ _ H. exists (filter (entry_matches query) rows).
  split; [apply search_matches_plain; assumption|].
  split; [apply (search_matches_plain lib self query w rows); assumption|].
  split; [apply filter_Subseq|].
  intros r. rewrite filter_In, entry_matches_spec. reflexivity.
Qed.

Lemma plain_query_searches_substrings_witness :
  exists matches,
    fst (Current.search_matches demo_lib demo_self "craft" demo_world)
    = Returns (Table matches) /\
    map ID matches = [1] /\
    Subseq matches (rows_of (store demo_self demo_world)).
Proof.
  destruct (plain_query_searches_substrings demo_lib demo_self "craft"
              demo_world (rows_of (store demo_self demo_world))
              eq_refl eq_refl ltac:(repeat constructor) eq_refl eq_refl)
    as [matches [H1 [_ [H3 _]]]].
  exists matches. split; [exact H1|]. split; [|exact H3].
  cbv in H1. injection H1 as <-. reflexivity.
Defined.

(** X8.  On a table whose [Type] column holds a string and is ASCII text,
    and for an ASCII filter that is not empty and has no special character,
    [display_inventory] lists, in catalog order, exactly the entries whose
    type is present and contains the filter, letter case apart; an entry
    without a type is never listed. *)
Theorem plain_filter_lists_types (lib : pylib) (self : LivingLibrary)
    (pat : string) (w : world) (rows : list row) :
  store self w = Table rows ->
  Pandas.holds_str (map (fun r => Type_ (cols r)) rows) = true ->
  Forall (fun r => ascii_cell (Type_ (cols r)) = true) rows ->
  PyStr.is_ascii pat = true ->
  Re.plain pat = true -> pat <> "" ->
  exists shown,
    fst (Current.display_df lib self (Some pat) w) = Returns (Table shown) /\
    Subseq shown rows /\
    forall r,
      In r shown <->
      In r rows /\
      exists t, Type_ (cols r) = Some t /\
                Substring (PyStr.lower pat) (PyStr.lower t).
Proof.
  intros Hstore Htypes _ _ H Hne.
  exists (filter (fun r => icontains pat (Type_ (cols r))) rows).
  split; [apply display_df_plain; assumption|].
  split; [apply filter_Subseq|].
  intros r. rewrite filter_In. unfold icontains.
  destruct (Type_ (cols r)) as [t|].
  - rewrite contains_spec. split.
    + intros [Hin Hsub]. split; [exact Hin|]. exists t. split; auto.
    + intros [Hin [t' [E Hsub]]]. injection E as <-. split; assumption.
  - split.
    + intros [_ Hf]. discriminate.
    + intros [_ [t [E _]]]. discriminate.
Qed.

Lemma plain_filter_lists_types_witness :
  "boo" <> "" /\
  exists shown,
    fst (Current.display_df demo_lib demo_self (Some "boo") demo_world)
    = Returns (Table shown) /\
    map ID shown = [1; 2; 3] /\
    Subseq shown (rows_of (store demo_self demo_world)).
Proof.
  assert (Hne : "boo" <> "") by discriminate.
  refine (conj Hne _).
  destruct (plain_filter_lists_types demo_lib demo_self "boo" demo_world
              (rows_of (store demo_self demo_world))
              eq_refl eq_refl ltac:(repeat constructor) eq_refl eq_refl Hne)
    as [shown [H1 [H2 _]]].
  exists shown. split; [exact H1|]. split; [|exact H2].
  cbv in H1. injection H1 as <-. reflexivity.
Defined.

(** X9.  On a loaded catalog of ASCII text whose searched columns each
    hold a string, and an ASCII query that compiles, [search_books]
    returns, selects a subsequence of the catalog with increasing ids,
    holds no entry twice, holds exactly the entries the pattern finds in
    one of the four fields, and prints its header and one block of four
    lines for each. *)
Theorem compiled_query_selects_in_order (lib : pylib) (self : LivingLibrary)
    (w : world) (rows : list source_row) (query : string) (m : Re.matcher) :
  store self w = Table (Current.add_columns rows) ->
  searchable (Current.add_columns rows) = true ->
  Forall (fun r => searched_ascii r = true) (Current.add_columns rows) ->
  PyStr.is_ascii query = true ->
  Re.compile_ignorecase (re_beyond lib) (PyStr.lower query) = Returns m ->
  exists matches,
    fst (Current.search_matches lib self query w) = Returns (Table matches) /\
    Subseq matches (Current.add_columns rows) /\
    StronglySorted Z.lt (map ID matches) /\
    NoDup matches /\
    (forall r, In r matches <->
               In r (Current.add_columns rows) /\ row_hit m r = true) /\
    fst (Current.search_books lib self query w) = Returns tt /\
    stdout (snd (Current.search_books lib self query w))
    = (stdout w ++ search_lines query (Table matches))%list.
Proof.
  intros Hstore Hcols _ _. apply search_selection_in_order; assumption.
Qed.

Lemma compiled_query_selects_in_order_witness :
  store demo_self demo_world = Table (Current.add_columns shelf) /\
  Re.compile_ignorecase (re_beyond demo_lib) (PyStr.lower "S.ft")
  = Returns (Re.search [Re.Lit "s"; Re.AnyChar; Re.Lit "f"; Re.Lit "t"]) /\
  exists matches,
    fst (Current.search_matches demo_lib demo_self "S.ft" demo_world)
    = Returns (Table matches) /\
    map ID matches = [1; 2] /\
    NoDup matches.
Proof.
  refine (conj eq_refl (conj eq_refl _)).
  destruct (compiled_query_selects_in_order demo_lib demo_self demo_world
              shelf "S.ft" _ eq_refl eq_refl ltac:(repeat constructor)
              eq_refl eq_refl)
    as [matches [H1 [_ [_ [H4 _]]]]].
  exists matches. split; [exact H1|]. split; [|exact H4].
  cbv in H1. injection H1 as <-. reflexivity.
Defined.

(** X10.  The year expression of [load_library_data] gives [Unknown] for a
    blank, the decimal numeral for an integer of an [int64] column and for
    a float [n.0] that [str] prints without an exponent, and leaves a text
    in which [.0] does not occur as it is. *)
Theorem year_of_the_usual_values (y : year_cell) :
  match y with
  | YearStr s => PyStr.contains ".0" s = false
  | _ => True
  end ->
  Current.normalize_year y
  = match y with
    | YearNaN => "Unknown"
    | YearInt n _ => PyStr.str_int n
    | YearFloat n _ => PyStr.str_int n
    | YearStr s => s
    end.
Proof.
  destruct normalize_year_intended as [H1 [H2 [H3 H4]]].
  destruct y; intros H; auto.
Qed.

Lemma year_of_the_usual_values_witness :
  Current.normalize_year (YearFloat 1999 eq_refl) = "1999" /\
  Current.normalize_year (YearStr "c. 1850") = "c. 1850".
Proof.
  split.
  - exact (year_of_the_usual_values (YearFloat 1999 eq_refl) I).
  - exact (year_of_the_usual_values (YearStr "c. 1850") eq_refl).
Defined.

Lemma contains_empty (s : string) : PyStr.contains "" s = true.
Proof. destruct s; reflexivity. Qed.

(** X11.  On a table whose searched columns each hold a string the empty
    query selects the whole catalog: every entry has an authors text, and
    the empty text occurs in every text. *)
Theorem empty_query_lists_everything (lib : pylib) (self : LivingLibrary)
    (w : world) (rows : list row) :
  store self w = Table rows ->
  searchable rows = true ->
  fst (Current.search_matches lib self "" w) = Returns (Table rows) /\
  fst (Legacy.search_matches lib self "" w) = Returns (Table rows).
Proof.
  intros Hstore Hcols.
  assert (H : filter (entry_matches "") rows = rows).
  { apply forallb_filter_id. apply forallb_forall. intros r _.
    unfold entry_matches, icontains. cbn [PyStr.lower].
    rewrite (contains_empty (PyStr.lower (Authors r))).
    rewrite orb_true_r. reflexivity. }
  change (Legacy.search_matches lib self "" w)
    with (Current.search_matches lib self "" w).
  rewrite (search_matches_plain lib self "" w rows Hstore Hcols eq_refl), H.
  split; reflexivity.
Qed.

Lemma empty_query_lists_everything_witness :
  fst (Current.search_matches demo_lib demo_self "" demo_world)
  = Returns (Table (Current.add_columns shelf)).
Proof.
  exact (proj1 (empty_query_lists_everything demo_lib demo_self demo_world
                  (Current.add_columns shelf) eq_refl eq_refl)).
Defined.

Lemma find_by_position (n : Z) (d : list row) :
  forall start : nat,
    map ID d = map Z.of_nat (seq start (length d)) ->
    find (fun r => Z.eqb (ID r) n) d
    = if andb (Z.leb (Z.of_nat start) n)
              (Z.ltb n (Z.of_nat (start + length d)))
      then nth_error d (Z.to_nat n - start)
      else None.
Proof.
  induction d as [|r d IH]; intros start H.
  - cbn [find length]. rewrite Nat.add_0_r.
    destruct (Z.leb_spec (Z.of_nat start) n), (Z.ltb_spec n (Z.of_nat start));
      try reflexivity; lia.
  - cbn [map length seq] in H. injection H as Hr Hd.
    cbn [find]. rewrite Hr.
    destruct (Z.eqb_spec (Z.of_nat start) n) as [<-|Hne].
    + rewrite Z.leb_refl.
      destruct (Z.ltb_spec (Z.of_nat start)
                  (Z.of_nat (start + length (r :: d))));
        [|cbn [length] in *; lia].
      rewrite Nat2Z.id, Nat.sub_diag. reflexivity.
    + rewrite (IH (S start) Hd).
      replace (S start + length d)%nat with (start + length (r :: d))%nat
        by (cbn [length]; lia).
      destruct (Z.ltb n (Z.of_nat (start + length (r :: d))));
        rewrite ?andb_false_r; [|reflexivity].
      rewrite !andb_true_r.
      destruct (Z.leb_spec (Z.of_nat (S start)) n),
               (Z.leb_spec (Z.of_nat start) n); try reflexivity; try lia.
      replace (Z.to_nat n - start)%nat with (S (Z.to_nat n - S start)) by lia.
      reflexivity.
Qed.

(** X12.  On a loaded catalog an id typed in ASCII that [int] reads as [n]
    is displayed exactly when [n] lies between 1 and the number of rows,
    and the entry displayed is then the one at position [n - 1], made from
    the [n]-th row of the table: its detail lines are printed and nothing
    else changes; any other integer gives the not-found result and leaves
    the world as it is. *)
Theorem access_item_shows_the_nth_row (self : LivingLibrary) (w : world)
    (rows : list source_row) (book_id : string) (n : Z) :
  store self w = Table (Current.add_columns rows) ->
  PyStr.is_ascii book_id = true ->
  PyStr.int book_id = Some n ->
  if andb (Z.leb 1 n) (Z.leb n (Z.of_nat (length rows)))
  then
    exists item src,
      nth_error (Current.add_columns rows) (Z.to_nat n - 1) = Some item /\
      nth_error rows (Z.to_nat n - 1) = Some src /\
      ID item = n /\
      cols item = set_Year (YearStr (Current.normalize_year (Year src))) src /\
      Authors item = collapsed_authors src /\
      Current.access_item self book_id w
      = (Returns Displayed,
         {| heap := heap w; stdout := stdout w ++ detail_lines item |})
  else Current.access_item self book_id w = (Returns NotFound, w).
Proof.
  intros Hloaded _ Hint. rewrite access_item_run, Hint, Hloaded.
  assert (Hlen : length (Current.add_columns rows) = length rows).
  { rewrite <- (length_map ID), current_ids, length_map, length_seq.
    reflexivity. }
  rewrite (find_by_position n (Current.add_columns rows) 1)
    by (rewrite Hlen; apply current_ids).
  rewrite Hlen.
  replace (Z.ltb n (Z.of_nat (1 + length rows)))
    with (Z.leb n (Z.of_nat (length rows)))
    by (destruct (Z.leb_spec n (Z.of_nat (length rows))),
                 (Z.ltb_spec n (Z.of_nat (1 + length rows)));
        try reflexivity; lia).
  change (Z.of_nat 1) with 1.
  destruct (andb (Z.leb 1 n) (Z.leb n (Z.of_nat (length rows)))) eqn:E;
    [|reflexivity].
  apply andb_prop in E. destruct E as [E1 E2].
  apply Z.leb_le in E1. apply Z.leb_le in E2.
  destruct (nth_error (Current.add_columns rows) (Z.to_nat n - 1))
    as [item|] eqn:Ei.
  - pose proof (map_nth_error cols _ _ Ei) as Hc.
    rewrite current_cols in Hc.
    rewrite nth_error_map in Hc.
    destruct (nth_error rows (Z.to_nat n - 1)) as [src|] eqn:Hsrc;
      cbn [option_map] in Hc; [injection Hc as Hcols | discriminate].
    pose proof (map_nth_error ID _ _ Ei) as Hid.
    rewrite current_ids, nth_error_map in Hid.
    destruct (nth_error (seq 1 (length rows)) (Z.to_nat n - 1)) as [k|] eqn:Hk;
      cbn [option_map] in Hid; [injection Hid as Hidk | discriminate].
    apply nth_error_nth with (d := O) in Hk.
    rewrite seq_nth in Hk by lia.
    pose proof (map_nth_error Authors _ _ Ei) as Ha.
    rewrite current_Authors_column, nth_error_map, Hsrc in Ha.
    cbn [option_map] in Ha. injection Ha as Ha.
    exists item, src. repeat split; auto. lia.
  - exfalso. apply nth_error_None in Ei. lia.
Qed.

Lemma access_item_shows_the_nth_row_witness :
  store demo_self demo_world = Table (Current.add_columns shelf) /\
  PyStr.int " 2 " = Some 2 /\
  Current.access_item demo_self " 2 " demo_world
  = (Returns Displayed,
     {| heap := heap demo_world;
        stdout := [nl ++ "Accessing: The Pragmatic Programmer";
                   "Authors: Unknown";
                   "Type: Book | Format: PDF";
                   "Topic: Software";
                   "Publisher: nan (2008)"] |}).
Proof.
  refine (conj eq_refl (conj eq_refl _)).
  destruct (access_item_shows_the_nth_row demo_self demo_world shelf " 2 " 2
              eq_refl eq_refl eq_refl)
    as [item [src [Hi [_ [_ [_ [_ Hrun]]]]]]].
  rewrite Hrun. cbv in Hi. injection Hi as <-. reflexivity.
Defined.

(** ** [get_types] *)

Lemma seen_spec (c : cell) (seen : list cell) :
  existsb (fun x => match x, c with
                    | Some a, Some b => String.eqb a b
                    | None, None => true
                    | _, _ => false
                    end) seen = true <-> In c seen.
Proof.
  rewrite existsb_exists. split.
  - intros [x [Hin Hx]]. destruct x as [a|], c as [b|]; try discriminate.
    + apply String.eqb_eq in Hx. subst. exact Hin.
    + exact Hin.
  - intros Hin. exists c. split; [exact Hin|].
    destruct c as [b|]; [apply String.eqb_refl | reflexivity].
Qed.

Lemma unique_spec (s : list cell) :
  forall seen : list cell,
    NoDup (Pandas.unique seen s) /\
    (forall c, In c (Pandas.unique seen s) <-> In c s /\ ~ In c seen) /\
    Subseq (Pandas.unique seen s) s.
Proof.
  induction s as [|c s IH]; intros seen; cbn [Pandas.unique].
  - split; [constructor|]. split; [|constructor].
    intros c. cbn. tauto.
  - pose proof (seen_spec c seen) as Hseen.
    match goal with
    | |- context [if ?b then _ else _] => destruct b
    end.
    + destruct (IH seen) as [Hnd [Hin Hsub]].
      split; [exact Hnd|]. split; [|constructor; exact Hsub].
      intros x. rewrite Hin. cbn [In]. split; [tauto|].
      intros [[<-|Hx] Hn]; [|tauto].
      exfalso. apply Hn, Hseen. reflexivity.
    + destruct (IH (c :: seen)) as [Hnd [Hin Hsub]].
      assert (Hc : ~ In c seen)
        by (intros H; apply Hseen in H; discriminate).
      split; [|split; [|constructor; exact Hsub]].
      * constructor; [|exact Hnd]. rewrite Hin. cbn [In]. tauto.
      * intros x. cbn [In]. rewrite Hin. cbn [In]. split.
        -- intros [<-|[Hx Hn]]; tauto.
        -- intros [[<-|Hx] Hn]; [tauto|].
           destruct x as [a|], c as [b|];
             try (right; split; [exact Hx | intros [E|E]; [discriminate | tauto]]).
           ++ destruct (String.eqb_spec b a) as [->|Hne]; [tauto|].
              right. split; [exact Hx|]. intros [E|E]; [congruence | tauto].
           ++ tauto.
Qed.

(** X13.  On a table [get_types] does not raise, changes nothing and
    prints nothing; it returns every type of the catalog, a blank included,
    once, in the order of the catalog. *)
Theorem get_types_lists_each_type_once (self : LivingLibrary) (w : world)
    (rows : list row) :
  store self w = Table rows ->
  exists types,
    Current.get_types self w = (Returns types, w) /\
    NoDup types /\
    (forall c, In c types <-> In c (map (fun r => Type_ (cols r)) rows)) /\
    Subseq types (map (fun r => Type_ (cols r)) rows).
Proof.
  intros Hstore.
  exists (Pandas.unique [] (map (fun r => Type_ (cols r)) rows)).
  destruct (unique_spec (map (fun r => Type_ (cols r)) rows) [])
    as [Hnd [Hin Hsub]].
  split.
  { unfold store in Hstore.
    unfold Current.get_types, bind, deref, Pandas.getitem, ret.
    rewrite Hstore. reflexivity. }
  split; [exact Hnd|]. split; [|exact Hsub].
  intros c. rewrite Hin. cbn [In]. tauto.
Qed.

Lemma get_types_lists_each_type_once_witness :
  Current.get_types demo_self demo_world = (Returns [Some "Book"], demo_world).
Proof.
  destruct (get_types_lists_each_type_once demo_self demo_world
              (Current.add_columns shelf) eq_refl)
    as [types [Hrun [_ [Hin _]]]].
  rewrite Hrun. cbv in Hrun. injection Hrun as <-. reflexivity.
Defined.

(** ** The free-download line *)

Lemma printed_by_lines {A} (m : M A) (w : world) (lines : list string) :
  stdout (snd (m w)) = (stdout w ++ lines)%list -> printed_by m w = lines.
Proof.
  intros H. unfold printed_by. rewrite H.
  rewrite skipn_app, skipn_all, Nat.sub_diag. reflexivity.
Qed.

(** X14.  The two views disagree on the free-download cell: when it reads
    [yes] or [true], letter case apart, [access_item] ends its lines with
    the free-download line; [display_inventory] prints its line, as the
    sixth of seven, only for [yes], and prints six lines for [true]. *)
Theorem free_download_flag_differs (r : row) (c : cell) (flag : string)
    (w : world) :
  Free_Download (cols r) = Some c ->
  PyStr.lower (str_cell c) = flag ->
  In flag ["yes"; "true"] ->
  last (printed_by (Current.print_item r) w) ""
    = " This item is available as a free download!" /\
  length (printed_by (Current.print_row r) w)
    = (if String.eqb flag "yes" then 7 else 6)%nat /\
  (if String.eqb flag "yes"
   then nth 5 (printed_by (Current.print_row r) w) ""
        = " You can download this for free!"
   else True).
Proof.
  intros Hc Hflag Hin.
  assert (Hitem : exists lines,
             stdout (snd (Current.print_item r w)) = (stdout w ++ lines)%list /\
             last lines "" = " This item is available as a free download!").
  { unfold Current.print_item, Current.is_yes, bind, print, ret.
    rewrite Hc, Hflag.
    destruct Hin as [<-|[<-|[]]];
      destruct (Subtitle (cols r)); cbn;
      rewrite <- !app_assoc; cbn [app];
      eexists; split; reflexivity. }
  destruct Hitem as [lines [Hitem Hlast]].
  rewrite (printed_by_lines _ w _ Hitem).
  split; [exact Hlast|].
  assert (Hrow : exists a b c0 d e,
             stdout (snd (Current.print_row r w))
             = (stdout w
                ++ [a; b; c0; d; e]
                ++ (if String.eqb flag "yes"
                    then [" You can download this for free!"] else [])
                ++ [PyStr.repeat_char "-" 50])%list).
  { unfold Current.print_row, Current.is_yes, bind, print, ret.
    rewrite Hc, Hflag.
    destruct Hin as [<-|[<-|[]]]; cbn;
      rewrite <- !app_assoc; cbn [app];
      do 5 eexists; reflexivity. }
  destruct Hrow as [a [b [c0 [d [e Hrow]]]]].
  rewrite (printed_by_lines _ w _ Hrow).
  destruct (String.eqb flag "yes"); split; reflexivity || exact I.
Qed.

Lemma free_download_flag_differs_witness :
  length (printed_by (Current.print_row flagged_row) empty_world) = 6%nat /\
  last (printed_by (Current.print_item flagged_row) empty_world) ""
    = " This item is available as a free download!".
Proof.
  pose proof (free_download_flag_differs flagged_row (Some "TRUE") "true"
                empty_world eq_refl eq_refl (or_intror (or_introl eq_refl)))
    as [H1 [H2 _]].
  split; [exact H2 | exact H1].
Defined.


(** ** The menu of the legacy script *)

Lemma post_input (spin : Prop) (prompt : string) (i : list string) (w : world)
    (Q : string -> list string -> world -> Prop) :
  (forall line rest w', i = line :: rest -> Q line rest w') ->
  post spin (input prompt) i w Q.
Proof.
  intros H. unfold post, input. destruct i as [|line rest]; [exact I|].
  apply H. reflexivity.
Qed.

Lemma post_legacy_banner (spin : Prop) (library : LivingLibrary)
    (i : list string) (w : world)
    (Q : unit -> list string -> world -> Prop) :
  (forall w', Q tt i w') -> post spin (LegacyConsole.menu_banner library) i w Q.
Proof.
  intros H. unfold LegacyConsole.menu_banner.
  repeat (apply post_bind;
          (apply post_say || apply post_run); intros).
  apply post_say, H.
Qed.

Lemma legacy_menu_loop_reads (lib : pylib) (library : LivingLibrary)
    (fuel : nat) :
  forall (i : list string) (w : world),
    (length i < fuel)%nat ->
    post False (LegacyConsole.menu_loop lib fuel library) i w
         (fun _ _ _ => True).
Proof.
  induction fuel as [|fuel IH]; intros i w Hfuel; [lia|].
  cbn [LegacyConsole.menu_loop].
  apply post_bind, post_legacy_banner. intros w1.
  apply post_bind, post_input. intros line rest w2 ->.
  cbn [length] in Hfuel. cbn zeta.
  destruct (word_in _ LegacyConsole.quit_words); [exact I|].
  destruct (word_in _ LegacyConsole.access_words).
  { apply post_bind, post_run. intros _ w3.
    apply post_bind, post_input. intros book_id rest' w4 ->.
    apply post_bind, post_run. intros message w5.
    apply post_bind, post_say. intros w6.
    apply IH. cbn [length] in Hfuel. lia. }
  destruct (word_in _ LegacyConsole.inventory_words).
  { apply post_bind, post_run. intros types w3.
    apply post_bind, post_join_cells. intros types_text.
    apply post_bind, post_say. intros w4.
    apply post_bind. unfold Console.topics_of. apply post_run.
    intros topics w5.
    apply post_bind, post_topics_line. intros text.
    apply post_bind, post_say. intros w6.
    apply post_bind, post_input. intros answer rest' w7 ->.
    apply post_bind, post_run. intros _ w8.
    apply IH. cbn [length] in Hfuel. lia. }
  destruct (word_in _ LegacyConsole.search_words).
  { apply post_bind, post_input. intros query rest' w3 ->.
    apply post_bind, post_run. intros _ w4.
    apply IH. cbn [length] in Hfuel. lia. }
  apply post_bind, post_say. intros w3. apply IH. lia.
Qed.

Lemma legacy_menu_loop_bound (lib : pylib) (library : LivingLibrary)
    (f1 : nat) :
  forall (f2 : nat) (i : list string) (w : world),
    (length i < f1)%nat -> (length i < f2)%nat ->
    LegacyConsole.menu_loop lib f1 library i w
    = LegacyConsole.menu_loop lib f2 library i w.
Proof.
  induction f1 as [|f1 IH]; intros f2 i w H1 H2; [lia|].
  destruct f2 as [|f2]; [lia|].
  cbn [LegacyConsole.menu_loop].
  apply cbind_agree, post_legacy_banner; intros.
  apply cbind_agree, post_input. intros line rest w2 ->.
  cbn [length] in H1, H2. cbn zeta.
  destruct (word_in _ LegacyConsole.quit_words); [reflexivity|].
  destruct (word_in _ LegacyConsole.access_words).
  { apply cbind_agree, post_run; intros.
    apply cbind_agree, post_input. intros book_id rest' w4 ->.
    apply cbind_agree, post_run; intros.
    apply cbind_agree, post_say; intros.
    apply IH; cbn [length] in H1, H2; lia. }
  destruct (word_in _ LegacyConsole.inventory_words).
  { apply cbind_agree, post_run; intros.
    apply cbind_agree, post_join_cells; intros.
    apply cbind_agree, post_say; intros.
    apply cbind_agree. unfold Console.topics_of. apply post_run; intros.
    apply cbind_agree, post_topics_line; intros.
    apply cbind_agree, post_say; intros.
    apply cbind_agree, post_input. intros answer rest' w7 ->.
    apply cbind_agree, post_run; intros.
    apply IH; cbn [length] in H1, H2; lia. }
  destruct (word_in _ LegacyConsole.search_words).
  { apply cbind_agree, post_input. intros query rest' w3 ->.
    apply cbind_agree, post_run; intros.
    apply IH; cbn [length] in H1, H2; lia. }
  apply cbind_agree, post_say; intros. apply IH; lia.
Qed.

Lemma legacy_menu_loop_stays (lib : pylib) (library : LivingLibrary)
    (fuel : nat) :
  forall (i : list string) (w : world),
    Forall (fun line => word_in (str_strip (PyStr.lower line))
                          LegacyConsole.quit_words = false) i ->
    post True (LegacyConsole.menu_loop lib fuel library) i w
         (fun _ _ _ => False).
Proof.
  induction fuel as [|fuel IH]; intros i w Hi; [exact I|].
  cbn [LegacyConsole.menu_loop].
  apply post_bind, post_legacy_banner. intros w1.
  apply post_bind, post_input. intros line rest w2 ->.
  cbn zeta.
  apply Forall_cons_iff in Hi. destruct Hi as [Hline Hrest].
  rewrite Hline.
  destruct (word_in _ LegacyConsole.access_words).
  { apply post_bind, post_run. intros _ w3.
    apply post_bind, post_input. intros book_id rest' w4 ->.
    apply post_bind, post_run. intros message w5.
    apply post_bind, post_say. intros w6.
    apply IH. apply Forall_cons_iff in Hrest. apply Hrest. }
  destruct (word_in _ LegacyConsole.inventory_words).
  { apply post_bind, post_run. intros types w3.
    apply post_bind, post_join_cells. intros types_text.
    apply post_bind, post_say. intros w4.
    apply post_bind. unfold Console.topics_of. apply post_run.
    intros topics w5.
    apply post_bind, post_topics_line. intros text.
    apply post_bind, post_say. intros w6.
    apply post_bind, post_input. intros answer rest' w7 ->.
    apply post_bind, post_run. intros _ w8.
    apply IH. apply Forall_cons_iff in Hrest. apply Hrest. }
  destruct (word_in _ LegacyConsole.search_words).
  { apply post_bind, post_input. intros query rest' w3 ->.
    apply post_bind, post_run. intros _ w4.
    apply IH. apply Forall_cons_iff in Hrest. apply Hrest. }
  apply post_bind, post_say. intros w3. apply IH. exact Hrest.
Qed.

Lemma legacy_main_loaded (lib : pylib) (path_exists : string -> bool)
    (fuel : nat) (i : list string) (w : world) (rows : list source_row) :
  path_exists LegacyConsole.spreadsheet_path = true ->
  delivered lib LegacyConsole.spreadsheet_path = Returns rows ->
  rows <> [] ->
  exists library w1,
    LegacyConsole.main lib path_exists fuel i w
    = LegacyConsole.menu_loop lib fuel library i w1.
Proof.
  intros Hp Hd Hrows. unfold LegacyConsole.main. rewrite Hp. cbn [negb].
  unfold cbind, run, deref. rewrite legacy_init_run, legacy_load_run, Hd.
  cbn [snd heap df]. rewrite nth_alloc.
  destruct rows as [|r rows]; [congruence|].
  eexists. eexists. reflexivity.
Qed.

(** X15.  At the menu of the legacy [main] a command to quit ends the
    session at once: after the banner and the prompt nothing more is
    printed, the lines that are left stay unread, and the farewell text is
    the value returned, not a line printed. *)
Theorem legacy_quit_returns_the_farewell (lib : pylib)
    (library : LivingLibrary) (fuel : nat) (line : string)
    (rest : list string) (w : world) :
  word_in (str_strip (PyStr.lower line)) LegacyConsole.quit_words = true ->
  exists w1,
    LegacyConsole.menu_banner library (line :: rest) w
    = Ok tt (line :: rest) w1 /\
    LegacyConsole.menu_loop lib (S fuel) library (line :: rest) w
    = Ok (Some LegacyConsole.farewell) rest
         {| heap := heap w;
            stdout := stdout w1 ++ [(nl ++ "Enter Command: ")%string] |}.
Proof.
  intros H. eexists. split; [reflexivity|].
  cbn [LegacyConsole.menu_loop]. unfold cbind at 1.
  change (LegacyConsole.menu_banner library (line :: rest) w)
    with (Ok tt (line :: rest)
            (match LegacyConsole.menu_banner library (line :: rest) w with
             | Ok _ _ v => v
             | _ => w
             end)).
  cbv iota. unfold cbind, input. cbn zeta. rewrite H. reflexivity.
Qed.

Lemma legacy_quit_returns_the_farewell_witness :
  word_in (str_strip (PyStr.lower " Quit ")) LegacyConsole.quit_words = true /\
  exists w2,
    LegacyConsole.menu_loop desk_lib 1 demo_self [" Quit "; "a"] demo_world
    = Ok (Some LegacyConsole.farewell) ["a"] w2.
Proof.
  split; [reflexivity|].
  destruct (legacy_quit_returns_the_farewell desk_lib demo_self 0 " Quit "
              ["a"] demo_world eq_refl) as [w1 [_ H]].
  eexists. exact H.
Defined.

(** X16.  Once the catalog is loaded and not empty, the legacy [main]
    returns only at a command to quit: when the input is ASCII text and no
    line of it is one, it never returns; it ends at the end of input or in
    an exception. *)
Theorem legacy_main_returns_only_on_quit (lib : pylib)
    (path_exists : string -> bool) (fuel : nat) (i : list string) (w : world)
    (rows : list source_row) :
  path_exists LegacyConsole.spreadsheet_path = true ->
  delivered lib LegacyConsole.spreadsheet_path = Returns rows ->
  rows <> [] ->
  Forall (fun line => PyStr.is_ascii line = true) i ->
  Forall (fun line => word_in (str_strip (PyStr.lower line))
                        LegacyConsole.quit_words = false) i ->
  match LegacyConsole.main lib path_exists fuel i w with
  | Ok _ _ _ => False
  | Fail _ _ _ => True
  | OutOfFuel => (fuel <= length i)%nat
  end.
Proof.
  intros Hp Hd Hrows _ Hi.
  destruct (legacy_main_loaded lib path_exists fuel i w rows Hp Hd Hrows)
    as [library [w1 Hm]].
  rewrite Hm.
  pose proof (legacy_menu_loop_stays lib library fuel i w1 Hi) as Hs.
  unfold post in Hs.
  destruct (Nat.le_gt_cases fuel (length i)) as [Hle|Hgt].
  - destruct (LegacyConsole.menu_loop lib fuel library i w1); auto.
  - pose proof (legacy_menu_loop_reads lib library fuel i w1 Hgt) as Hr.
    unfold post in Hr.
    destruct (LegacyConsole.menu_loop lib fuel library i w1); auto.
    contradiction.
Qed.

Lemma legacy_main_returns_only_on_quit_witness :
  (fun _ : string => true) LegacyConsole.spreadsheet_path = true /\
  delivered desk_lib LegacyConsole.spreadsheet_path = Returns shelf /\
  shelf <> [] /\
  Forall (fun line => PyStr.is_ascii line = true) ["a"; "7"; "!q"; "back"] /\
  Forall (fun line => word_in (str_strip (PyStr.lower line))
                        LegacyConsole.quit_words = false)
         ["a"; "7"; "!q"; "back"] /\
  match LegacyConsole.main desk_lib (fun _ => true) 9
          ["a"; "7"; "!q"; "back"] empty_world with
  | Ok _ _ _ => False
  | Fail _ _ _ => True
  | OutOfFuel => (9 <= length ["a"; "7"; "!q"; "back"])%nat
  end.
Proof.
  assert (H3 : shelf <> []) by discriminate.
  assert (H4 : Forall (fun line => word_in (str_strip (PyStr.lower line))
                                     LegacyConsole.quit_words = false)
                      ["a"; "7"; "!q"; "back"])
    by (repeat constructor).
  assert (Ha : Forall (fun line => PyStr.is_ascii line = true)
                      ["a"; "7"; "!q"; "back"])
    by (repeat constructor).
  refine (conj eq_refl (conj eq_refl (conj H3 (conj Ha (conj H4 _))))).
  exact (legacy_main_returns_only_on_quit desk_lib (fun _ => true) 9
           ["a"; "7"; "!q"; "back"] empty_world shelf eq_refl eq_refl H3 Ha
           H4).
Defined.

(** X17.  Every round of the menu loop of the legacy [main] reads a line
    before it repeats: on finitely many lines of input the script comes to
    a result, the same for every loop bound of the model above the number
    of lines. *)
Theorem legacy_main_reads_before_it_repeats (lib : pylib)
    (path_exists : string -> bool) (fuel fuel' : nat) (i : list string)
    (w : world) :
  (length i < fuel)%nat -> (length i < fuel')%nat ->
  LegacyConsole.main lib path_exists fuel i w <> OutOfFuel /\
  LegacyConsole.main lib path_exists fuel i w
  = LegacyConsole.main lib path_exists fuel' i w.
Proof.
  intros H1 H2. unfold LegacyConsole.main.
  destruct (negb (path_exists LegacyConsole.spreadsheet_path)).
  { split; [discriminate | reflexivity]. }
  unfold cbind, run, deref. rewrite legacy_init_run.
  destruct (Pandas.empty _); [split; [discriminate | reflexivity]|].
  split; [|apply legacy_menu_loop_bound; assumption].
  match goal with
  | |- LegacyConsole.menu_loop lib fuel ?l i ?v <> _ =>
      pose proof (legacy_menu_loop_reads lib l fuel i v H1) as H
  end.
  unfold post in H. intros E. rewrite E in H. exact H.
Qed.

Lemma legacy_main_reads_before_it_repeats_witness :
  (length ["s"; "deep"; "q"] < 4)%nat /\ (length ["s"; "deep"; "q"] < 9)%nat /\
  LegacyConsole.main desk_lib (fun _ => true) 4 ["s"; "deep"; "q"] empty_world
  = LegacyConsole.main desk_lib (fun _ => true) 9 ["s"; "deep"; "q"]
      empty_world.
Proof.
  assert (H1 : (length ["s"; "deep"; "q"] < 4)%nat) by (cbn; lia).
  assert (H2 : (length ["s"; "deep"; "q"] < 9)%nat) by (cbn; lia).
  refine (conj H1 (conj H2 _)).
  exact (proj2 (legacy_main_reads_before_it_repeats desk_lib (fun _ => true)
                  4 9 ["s"; "deep"; "q"] empty_world H1 H2)).
Defined.

(** ** The columns a load leaves alone *)

(** X18.  Loading adds columns and never drops or reorders a row: the
    legacy script keeps every source column of every row as the reader
    delivered it, the current script rewrites the year and nothing else,
    and both give the same ids and the same authors. *)
Theorem load_keeps_the_source_columns (rows : list source_row) :
  map cols (Legacy.add_columns rows) = rows /\
  map (fun r => set_Year YearNaN (cols r)) (Current.add_columns rows)
  = map (set_Year YearNaN) rows /\
  map ID (Legacy.add_columns rows) = map ID (Current.add_columns rows) /\
  map Authors (Legacy.add_columns rows)
  = map Authors (Current.add_columns rows) /\
  length (Current.add_columns rows) = length rows.
Proof.
  split; [apply legacy_cols|].
  split.
  { rewrite <- (map_map cols (set_Year YearNaN)), current_cols, map_map.
    reflexivity. }
  split; [rewrite legacy_ids, current_ids; reflexivity|].
  split; [rewrite legacy_Authors_column, current_Authors_column; reflexivity|].
  rewrite <- (length_map ID), current_ids, length_map, length_seq.
  reflexivity.
Qed.
